(** * Droply route handlers: listing, folder creation, upload recording

    A shallow embedding of the three database-backed route handlers
    ([src/app/api/files/route.ts], [src/app/api/folders/create/route.ts],
    [src/app/api/upload/route.ts]) over the table declared in
    [src/lib/db/schema.ts].

    Modelling boundary.  Request bodies are untyped in the source (the result
    of [request.json()]), so they are JavaScript values here and every test
    the handlers make on them ([!x], [typeof], [!==], [||], [trim], template
    literals) follows ECMAScript.  The [files] table is the list of its rows;
    its columns are typed as [src/lib/db/schema.ts] declares them: a [uuid]
    parameter or value must have uuid syntax and is compared and stored by
    value, a [text] value holds no U+0000, [size] is a 32-bit integer, [id]
    is a primary key.  A statement the table refuses throws, which sends the
    handler to its [catch].  What the surroundings supply (the Clerk session,
    generated uuids, the clock, the driver's text for non-string values) is
    an explicit [Env]. *)

From Stdlib Require Import List String Ascii NArith ZArith Bool Floats Lia.
From Stdlib Require Uint63.
Import ListNotations.

Set Warnings "-register-all".

(* ------------------------------------------------------------------ *)
(** ** JavaScript strings and values *)

(** A JavaScript string is a sequence of UTF-16 code units. *)
Definition jsstring := list N.

(** The code units of an ASCII literal of the source. *)
Definition js (s : string) : jsstring :=
  map N_of_ascii (list_ascii_of_string s).

Fixpoint jseqb (a b : jsstring) : bool :=
  match a, b with
  | [], [] => true
  | x :: a', y :: b' => N.eqb x y && jseqb a' b'
  | _, _ => false
  end.

(** ECMAScript WhiteSpace and LineTerminator code points, the characters
    that [String.prototype.trim] strips. *)
Definition is_whitespace (c : N) : bool :=
  ((9 <=? c) && (c <=? 13) || (c =? 32) || (c =? 160) || (c =? 5760)
   || (8192 <=? c) && (c <=? 8202)
   || (c =? 8232) || (c =? 8233) || (c =? 8239) || (c =? 8287)
   || (c =? 12288) || (c =? 65279))%N.

Fixpoint trimStart (s : jsstring) : jsstring :=
  match s with
  | c :: s' => if is_whitespace c then trimStart s' else s
  | [] => []
  end.

Definition trimEnd (s : jsstring) : jsstring := rev (trimStart (rev s)).

Definition trim (s : jsstring) : jsstring := trimEnd (trimStart s).

Inductive JsVal :=
| JUndefined
| JNull
| JBool (b : bool)
| JNum (n : float)
| JStr (s : jsstring)
| JArr (items : list JsVal)
| JObj (props : list (jsstring * JsVal))   (* own properties, in order *)
| JDate (epoch_ms : Z).                    (* a timestamp column's value *)

(** [string | null], as [searchParams.get] and Clerk's [userId] are typed. *)
Definition nullable (o : option jsstring) : JsVal :=
  match o with Some s => JStr s | None => JNull end.

(** ToBoolean. *)
Definition truthy (v : JsVal) : bool :=
  match v with
  | JUndefined | JNull => false
  | JBool b => b
  | JNum n => negb (PrimFloat.eqb n 0 || negb (PrimFloat.eqb n n))
  | JStr s => match s with [] => false | _ => true end
  | JArr _ | JObj _ | JDate _ => true
  end.

(** [a || b] on values. *)
Definition or_else (a b : JsVal) : JsVal := if truthy a then a else b.

Definition typeof (v : JsVal) : string :=
  match v with
  | JUndefined => "undefined"
  | JBool _ => "boolean"
  | JNum _ => "number"
  | JStr _ => "string"
  | JNull | JArr _ | JObj _ | JDate _ => "object"
  end.

(** [a === b].  Objects compare by identity; the values compared below are a
    freshly parsed body value against a string, so two objects never meet
    and the object case is [false]. *)
Definition strict_equals (a b : JsVal) : bool :=
  match a, b with
  | JUndefined, JUndefined | JNull, JNull => true
  | JBool x, JBool y => Bool.eqb x y
  | JNum x, JNum y => PrimFloat.eqb x y
  | JStr x, JStr y => jseqb x y
  | _, _ => false
  end.

Fixpoint lookup (k : jsstring) (props : list (jsstring * JsVal)) : JsVal :=
  match props with
  | [] => JUndefined
  | (k', v) :: rest => if jseqb k k' then v else lookup k rest
  end.

(** [v.k] on a value other than [null] and [undefined], for the keys the
    handlers read ([name], [userId], [parentId], [imagekit], [url],
    [filePath], [size], [fileType], [thumbnailUrl]): none of them is a
    property of a string, number, boolean or array, nor inherited by a
    parsed object. *)
Definition get (v : JsVal) (k : jsstring) : JsVal :=
  match v with
  | JObj props => lookup k props
  | _ => JUndefined
  end.

(** [{ k = d }] in a destructuring pattern: the default replaces
    [undefined] only. *)
Definition with_default (v d : JsVal) : JsVal :=
  match v with
  | JUndefined => d
  | _ => v
  end.

(** [name.trim()]; the handler calls it on strings only. *)
Definition String_trim (v : JsVal) : JsVal :=
  match v with
  | JStr s => JStr (trim s)
  | _ => JUndefined
  end.

(** Whether an object has [k] as an own property. *)
Fixpoint has_key (k : jsstring) (props : list (jsstring * JsVal)) : bool :=
  match props with
  | [] => false
  | (k', _) :: rest => jseqb k k' || has_key k rest
  end.

(* ------------------------------------------------------------------ *)
(** ** Column types of the database *)

(** The value of a hexadecimal digit. *)
Definition hex_value (c : N) : option N :=
  if (48 <=? c)%N && (c <=? 57)%N then Some (c - 48)%N
  else if (97 <=? c)%N && (c <=? 102)%N then Some (c - 87)%N
  else if (65 <=? c)%N && (c <=? 70)%N then Some (c - 55)%N
  else None.

(** After the [i]-th byte of a uuid one hyphen may follow, if the byte is
    the second of its pair and not the last. *)
Definition skip_hyphen (i : nat) (rest : jsstring) : jsstring :=
  match rest with
  | c :: rest' =>
      if (c =? 45)%N && Nat.odd i && Nat.ltb i 15 then rest' else rest
  | [] => rest
  end.

(** Reads [n] bytes of a uuid, the [i]-th byte first: two hexadecimal
    digits each.  Yields the digits' values and what is left of the text. *)
Fixpoint uuid_bytes (n i : nat) (src : jsstring) : option (list N * jsstring) :=
  match n with
  | O => Some ([], src)
  | S n' =>
      match src with
      | h :: l :: rest =>
          match hex_value h, hex_value l with
          | Some a, Some b =>
              match uuid_bytes n' (S i) (skip_hyphen i rest) with
              | Some (digits, remaining) => Some (a :: b :: digits, remaining)
              | None => None
              end
          | _, _ => None
          end
      | _ => None
      end
  end.

(** The input syntax of the [uuid] type: 32 hexadecimal digits of either
    case, optional hyphens between groups of four, optional braces around.
    [None] is the engine's "invalid input syntax for type uuid". *)
Definition uuid_in (s : jsstring) : option (list N) :=
  let braces := match s with c :: _ => (c =? 123)%N | [] => false end in
  match uuid_bytes 16 0 (if braces then tl s else s) with
  | Some (digits, remaining) =>
      if jseqb remaining (if braces then [125%N] else []) then Some digits
      else None
  | None => None
  end.

Definition hex_digit (v : N) : N := if (v <? 10)%N then (v + 48)%N else (v + 87)%N.

(** The text the engine gives back for a uuid: lower case, 8-4-4-4-12. *)
Definition uuid_out (digits : list N) : jsstring :=
  let h := map hex_digit digits in
  firstn 8 h ++ [45%N] ++ firstn 4 (skipn 8 h) ++ [45%N]
  ++ firstn 4 (skipn 12 h) ++ [45%N] ++ firstn 4 (skipn 16 h) ++ [45%N]
  ++ skipn 20 h.

(** A [text] value cannot hold U+0000. *)
Definition has_nul (s : jsstring) : bool := existsb (N.eqb 0) s.

(** The two halves of a surrogate pair. *)
Definition is_high_surrogate (c : N) : bool := (55296 <=? c)%N && (c <=? 56319)%N.
Definition is_low_surrogate (c : N) : bool := (56320 <=? c)%N && (c <=? 57343)%N.

(** [s.isWellFormed()]: every surrogate is half of a pair. *)
Fixpoint well_formed (s : jsstring) : bool :=
  match s with
  | [] => true
  | c :: rest =>
      if is_high_surrogate c then
        match rest with
        | d :: rest' => is_low_surrogate d && well_formed rest'
        | [] => false
        end
      else negb (is_low_surrogate c) && well_formed rest
  end.

(** The integer a number is, if it is one. *)
Definition float_to_Z (n : float) : option Z :=
  match Prim2SF n with
  | S754_zero _ => Some 0%Z
  | S754_finite s m e =>
      let magnitude :=
        if (0 <=? e)%Z then Some (Z.pos m * 2 ^ e)%Z
        else if (Z.pos m mod 2 ^ (- e) =? 0)%Z then Some (Z.pos m / 2 ^ (- e))%Z
        else None in
      option_map (fun z => if s then (- z)%Z else z) magnitude
  | _ => None
  end.

Definition float_of_Z (z : Z) : float :=
  if (z <? 0)%Z then PrimFloat.opp (PrimFloat.of_uint63 (Uint63.of_Z (- z)))
  else PrimFloat.of_uint63 (Uint63.of_Z z).

(** The range of the [integer] type. *)
Definition int4 (z : Z) : option Z :=
  if (-2147483648 <=? z)%Z && (z <=? 2147483647)%Z then Some z else None.

(* ------------------------------------------------------------------ *)
(** ** The [files] table ([src/lib/db/schema.ts]) *)

(** A selected row, [typeof files.$inferSelect]. *)
Module File.
Record t := mk {
  id : jsstring;
  name : JsVal;
  path : JsVal;
  size : JsVal;
  type : JsVal;
  fileUrl : JsVal;
  thumbnailUrl : JsVal;
  userId : jsstring;
  parentId : JsVal;
  isFolder : bool;
  isStarred : bool;
  isTrash : bool;
  createdAt : Z;
  updatedAt : Z
}.
End File.

(** The values of an insert, [typeof files.$inferInsert]: columns with a
    default are optional. *)
Module NewFile.
Record t := mk {
  id : option jsstring;
  name : JsVal;
  path : JsVal;
  size : JsVal;
  type : JsVal;
  fileUrl : JsVal;
  thumbnailUrl : JsVal;
  userId : jsstring;
  parentId : JsVal;
  isFolder : option bool;
  isStarred : option bool;
  isTrash : option bool
}.
End NewFile.

(** The columns, as [files.userId], [files.parentId], ... name them. *)
Module files.
Inductive Column :=
| id | name | path | size | type | fileUrl | thumbnailUrl
| userId | parentId | isFolder | isStarred | isTrash
| createdAt | updatedAt.

Definition value (c : Column) (r : File.t) : JsVal :=
  match c with
  | id => JStr (File.id r)
  | name => File.name r
  | path => File.path r
  | size => File.size r
  | type => File.type r
  | fileUrl => File.fileUrl r
  | thumbnailUrl => File.thumbnailUrl r
  | userId => JStr (File.userId r)
  | parentId => File.parentId r
  | isFolder => JBool (File.isFolder r)
  | isStarred => JBool (File.isStarred r)
  | isTrash => JBool (File.isTrash r)
  | createdAt => JDate (File.createdAt r)
  | updatedAt => JDate (File.updatedAt r)
  end.

(** The columns declared with [uuid(...)]. *)
Definition is_uuid (c : Column) : bool :=
  match c with
  | id | parentId => true
  | _ => false
  end.
End files.

(** The table: its rows, oldest first. *)
Definition Db := list File.t.

(* ------------------------------------------------------------------ *)
(** ** Conditions of drizzle-orm, with SQL's three-valued logic *)

Module drizzle.
Inductive SQL :=
| eq (column : files.Column) (value : JsVal)
| isNull (column : files.Column)
| and (conditions : list SQL).

(** A truth value of SQL: [None] is unknown. *)
Definition and3 (a b : option bool) : option bool :=
  match a, b with
  | Some false, _ | _, Some false => Some false
  | Some true, Some true => Some true
  | _, _ => None
  end.

(** [a = b] in SQL: unknown as soon as one side is null. *)
Definition sql_eq (a b : JsVal) : option bool :=
  match a, b with
  | JNull, _ | _, JNull | JUndefined, _ | _, JUndefined => None
  | _, _ => Some (strict_equals a b)
  end.

(** [a = b] on uuids: the values are compared, not their spelling. *)
Definition uuid_eq (a b : JsVal) : option bool :=
  match a, b with
  | JNull, _ | _, JNull | JUndefined, _ | _, JUndefined => None
  | JStr x, JStr y =>
      match uuid_in x, uuid_in y with
      | Some m, Some n => Some (jseqb m n)
      | _, _ => Some false
      end
  | _, _ => Some false
  end.

(** A parameter the engine takes for a column of that type: on a uuid
    column, [null] or a string with uuid syntax (the driver sends any other
    value as text that has none).  On the other columns the handlers
    compare with the session's user id and with [true] only, which the
    engine takes. *)
Definition parameter_ok (col : files.Column) (v : JsVal) : bool :=
  if files.is_uuid col then
    match v with
    | JNull | JUndefined => true
    | JStr s => match uuid_in s with Some _ => true | None => false end
    | _ => false
    end
  else true.

(** The statement is accepted: every parameter fits its column. *)
Fixpoint accepted (c : SQL) : bool :=
  match c with
  | eq col v => parameter_ok col v
  | isNull _ => true
  | and cs =>
      (fix all (l : list SQL) : bool :=
         match l with
         | [] => true
         | c' :: l' => accepted c' && all l'
         end) cs
  end.

Fixpoint eval (c : SQL) (r : File.t) : option bool :=
  match c with
  | eq col v =>
      if files.is_uuid col then uuid_eq (files.value col r) v
      else sql_eq (files.value col r) v
  | isNull col =>
      match files.value col r with JNull => Some true | _ => Some false end
  | and cs =>
      (fix all (l : list SQL) : option bool :=
         match l with
         | [] => Some true
         | c' :: l' => and3 (eval c' r) (all l')
         end) cs
  end.

(** A row is selected when the condition is true, not when it is unknown. *)
Definition holds (c : SQL) (r : File.t) : bool :=
  match eval c r with Some true => true | _ => false end.
End drizzle.

(* ------------------------------------------------------------------ *)
(** ** What the surroundings supply, and awaited computations *)

Record Env := mkEnv {
  (** [userId] of [await auth()]: the session's user, [null] without one. *)
  auth : option jsstring;
  (** The [n]-th call of [uuidv4()] made by the request. *)
  uuidv4 : nat -> jsstring;
  (** ToString of a number inside a template literal. *)
  ToString : JsVal -> jsstring;
  (** [defaultRandom()] of the [id] column. *)
  defaultRandom : jsstring;
  (** [defaultNow()] of the timestamp columns. *)
  defaultNow : Z;
  (** The text the driver sends for a number, boolean, array or object; it
      is never empty, so it comes as its first code unit and the rest. *)
  text_of : JsVal -> N * jsstring;
  (** The input syntax of the [integer] type, for a string: the integer the
      engine reads, if it reads one (the syntax depends on its version). *)
  int4in : jsstring -> option Z
}.

(** [`${v}`]: ToString of a value, [None] when it throws a TypeError.  A
    parsed object is converted by the inherited [toString] unless it has an
    own [toString] property, which no parsed value makes callable; an array
    joins the strings of its elements. *)
Fixpoint template (env : Env) (v : JsVal) {struct v} : option jsstring :=
  match v with
  | JStr s => Some s
  | JUndefined => Some (js "undefined")
  | JNull => Some (js "null")
  | JBool true => Some (js "true")
  | JBool false => Some (js "false")
  | JNum _ | JDate _ => Some (ToString env v)
  | JObj props =>
      if has_key (js "toString") props then None
      else Some (js "[object Object]")
  | JArr items =>
      (fix join (l : list JsVal) : option jsstring :=
         match l with
         | [] => Some []
         | x :: l' =>
             match
               match x with
               | JUndefined | JNull => Some []
               | _ => template env x
               end, join l'
             with
             | Some a, Some b =>
                 Some (match l' with [] => a | _ => a ++ js "," ++ b end)
             | _, _ => None
             end
         end) items
  end.

(** An awaited step either yields a value or throws; both leave a table. *)
Inductive Outcome (A : Type) :=
| Fulfilled (a : A)
| Rejected.
Arguments Fulfilled {A} a.
Arguments Rejected {A}.

Definition Async (A : Type) := Db -> Outcome A * Db.

Definition ret {A} (a : A) : Async A := fun db => (Fulfilled a, db).

Definition throw {A} : Async A := fun db => (Rejected, db).

Definition bind {A B} (m : Async A) (k : A -> Async B) : Async B :=
  fun db =>
    match m db with
    | (Fulfilled a, db') => k a db'
    | (Rejected, db') => (Rejected, db')
    end.

Declare Scope async_scope.
Delimit Scope async_scope with async.
Notation "x <- m ;; k" := (bind m (fun x => k))
  (at level 100, m at next level, right associativity) : async_scope.
Notation "m ;;; k" := (bind m (fun _ => k))
  (at level 100, right associativity) : async_scope.
Open Scope async_scope.

(** [try { body } catch (error) { return fallback }]. *)
Definition try_catch {R} (body : Async R) (fallback : R) : Db -> R * Db :=
  fun db =>
    match body db with
    | (Fulfilled r, db') => (r, db')
    | (Rejected, db') => (fallback, db')
    end.

(** [db.select().from(files).where(cond)]: throws when the engine refuses
    a parameter. *)
Definition select_from_files_where (cond : drizzle.SQL) : Async (list File.t) :=
  fun db =>
    if drizzle.accepted cond then
      (Fulfilled (filter (drizzle.holds cond) db), db)
    else (Rejected, db).

(** What a [text] column stores for a value: [null] for none, the string
    itself, the driver's text for another value; refused with U+0000. *)
Definition text_column (env : Env) (v : JsVal) : option JsVal :=
  match v with
  | JNull | JUndefined => Some JNull
  | JStr s => if has_nul s then None else Some (JStr s)
  | _ =>
      let t := fst (text_of env v) :: snd (text_of env v) in
      if has_nul t then None else Some (JStr t)
  end.

(** What the [integer] column stores: a number that is an integer of the
    range, or a string the type's input syntax reads as one. *)
Definition integer_column (env : Env) (v : JsVal) : option JsVal :=
  match v with
  | JNull | JUndefined => Some JNull
  | JNum n =>
      match float_to_Z n with
      | Some z => option_map (fun i => JNum (float_of_Z i)) (int4 z)
      | None => None
      end
  | JStr s =>
      match int4in env s with
      | Some z => option_map (fun i => JNum (float_of_Z i)) (int4 z)
      | None => None
      end
  | _ => None
  end.

(** What a [uuid] column stores: the uuid in the engine's spelling. *)
Definition uuid_column (v : JsVal) : option JsVal :=
  match v with
  | JNull | JUndefined => Some JNull
  | JStr s => option_map (fun digits => JStr (uuid_out digits)) (uuid_in s)
  | _ => None
  end.

(** [.notNull()]. *)
Definition notNull (cell : option JsVal) : option JsVal :=
  match cell with
  | Some JNull => None
  | _ => cell
  end.

(** The row an insert stores: the given values as their columns hold them,
    defaults elsewhere; [None] when a column refuses its value. *)
Definition stored (env : Env) (v : NewFile.t) : option File.t :=
  match notNull (text_column env (NewFile.name v)),
        notNull (text_column env (NewFile.path v)),
        notNull (integer_column env (NewFile.size v)),
        notNull (text_column env (NewFile.type v)),
        notNull (text_column env (NewFile.fileUrl v)),
        text_column env (NewFile.thumbnailUrl v),
        uuid_column (NewFile.parentId v),
        option_map uuid_out
          (uuid_in (match NewFile.id v with
                    | Some i => i
                    | None => defaultRandom env
                    end))
  with
  | Some name, Some path, Some size, Some type, Some fileUrl,
    Some thumbnailUrl, Some parentId, Some id =>
      if has_nul (NewFile.userId v) then None
      else
        Some {| File.id := id;
                File.name := name;
                File.path := path;
                File.size := size;
                File.type := type;
                File.fileUrl := fileUrl;
                File.thumbnailUrl := thumbnailUrl;
                File.userId := NewFile.userId v;
                File.parentId := parentId;
                File.isFolder :=
                  match NewFile.isFolder v with Some b => b | None => false end;
                File.isStarred :=
                  match NewFile.isStarred v with Some b => b | None => false end;
                File.isTrash :=
                  match NewFile.isTrash v with Some b => b | None => false end;
                File.createdAt := defaultNow env;
                File.updatedAt := defaultNow env |}
  | _, _, _, _, _, _, _, _ => None
  end.

(** The primary key: no row of the table has this uuid as its id yet. *)
Definition id_free (i : jsstring) (db : Db) : bool :=
  negb (existsb (drizzle.holds (drizzle.eq files.id (JStr i))) db).

(** [db.insert(files).values(v).returning()]: throws, and writes nothing,
    when a column refuses its value or the id is taken. *)
Definition insert_files_values_returning (env : Env) (v : NewFile.t)
  : Async (list File.t) :=
  fun db =>
    match stored env v with
    | Some row =>
        if id_free (File.id row) db then (Fulfilled [row], db ++ [row])
        else (Rejected, db)
    | None => (Rejected, db)
    end.

(** [const [x] = rows]: the first element, [undefined] when there is none. *)
Definition first {A} (rows : list A) : option A := hd_error rows.

(* ------------------------------------------------------------------ *)
(** ** Requests and responses *)

Module NextRequest.
Record t := mk {
  (** [request.nextUrl.searchParams], in URL order. *)
  searchParams : list (jsstring * jsstring);
  (** The parsed body; [None] when it is not JSON. *)
  body : option JsVal
}.

(** [searchParams.get(k)]: the first value of [k], or [null]. *)
Fixpoint get_param (k : jsstring) (ps : list (jsstring * jsstring))
  : option jsstring :=
  match ps with
  | [] => None
  | (k', v) :: rest => if jseqb k k' then Some v else get_param k rest
  end.

Definition searchParams_get (request : t) (k : jsstring) : option jsstring :=
  get_param k (searchParams request).

(** [await request.json()]. *)
Definition json (request : t) : Async JsVal :=
  match body request with
  | Some v => ret v
  | None => throw
  end.
End NextRequest.

(** [const { ... } = body] throws a TypeError on [null] and [undefined]. *)
Definition destructure (body : JsVal) : Async unit :=
  match body with
  | JNull | JUndefined => throw
  | _ => ret tt
  end.

(** The payloads the handlers answer with. *)
Inductive Json :=
| Error (error : string)
| Files (rows : list File.t)
| FileRow (row : option File.t)
| FolderCreated (success : bool) (message : string) (folder : option File.t).

Module NextResponse.
Record t := mk { payload : Json; status : N }.

(** [NextResponse.json(data, { status })]; the status is 200 when the
    source gives none. *)
Definition json (data : Json) (st : N) : t := mk data st.
End NextResponse.

(* ------------------------------------------------------------------ *)
(** ** [GET /api/files] ([src/app/api/files/route.ts]) *)

Module FilesRoute.
Definition GET (env : Env) (request : NextRequest.t)
  : Db -> NextResponse.t * Db :=
  try_catch
    (match auth env with
     | None => ret (NextResponse.json (Error "Unauthorized") 401)
     | Some userId =>
       if negb (truthy (JStr userId)) then
         ret (NextResponse.json (Error "Unauthorized") 401)
       else
         let queryUserId :=
           nullable (NextRequest.searchParams_get request (js "userId")) in
         let parentId :=
           nullable (NextRequest.searchParams_get request (js "parentId")) in
         if negb (truthy queryUserId)
            || negb (strict_equals queryUserId (JStr userId)) then
           ret (NextResponse.json (Error "Unauthorized") 401)
         else
           userFiles <-
             (if truthy parentId then
                select_from_files_where
                  (drizzle.and [drizzle.eq files.userId (JStr userId);
                                drizzle.eq files.parentId parentId])
              else
                select_from_files_where
                  (drizzle.and [drizzle.eq files.userId (JStr userId);
                                drizzle.isNull files.parentId])) ;;
           ret (NextResponse.json (Files userFiles) 200)
     end)
    (NextResponse.json (Error "Failed to fetch files") 500).
End FilesRoute.

(* ------------------------------------------------------------------ *)
(** ** [POST /api/folders/create] ([src/app/api/folders/create/route.ts]) *)

Module FoldersCreateRoute.
(** [!name || typeof name !== "string" || name.trim() === ""]. *)
Definition name_rejected (name : JsVal) : bool :=
  negb (truthy name)
  || negb (String.eqb (typeof name) "string")
  || strict_equals (String_trim name) (JStr []).

Definition folderData (env : Env) (userId : jsstring) (name parentId : JsVal)
  : NewFile.t :=
  {| NewFile.id := Some (uuidv4 env 0);
     NewFile.name := String_trim name;
     NewFile.path :=
       JStr (js "/folders/" ++ userId ++ js "/" ++ uuidv4 env 1);
     NewFile.size := JNum 0;
     NewFile.type := JStr (js "folder");
     NewFile.fileUrl := JStr [];
     NewFile.thumbnailUrl := JNull;
     NewFile.userId := userId;
     NewFile.parentId := parentId;
     NewFile.isFolder := Some true;
     NewFile.isStarred := Some false;
     NewFile.isTrash := Some false |}.

Definition POST (env : Env) (request : NextRequest.t)
  : Db -> NextResponse.t * Db :=
  try_catch
    (match auth env with
     | None => ret (NextResponse.json (Error "Unauthorized") 401)
     | Some userId =>
       if negb (truthy (JStr userId)) then
         ret (NextResponse.json (Error "Unauthorized") 401)
       else
         body <- NextRequest.json request ;;
         destructure body ;;;
         let name := get body (js "name") in
         let bodyUserId := get body (js "userId") in
         let parentId := with_default (get body (js "parentId")) JNull in
         if negb (strict_equals bodyUserId (JStr userId)) then
           ret (NextResponse.json (Error "Unauthorized") 401)
         else if name_rejected name then
           ret (NextResponse.json (Error "Folder name is required") 400)
         else
           (* the early return of the parent check *)
           found <-
             (if truthy parentId then
                rows <- select_from_files_where
                          (drizzle.and [drizzle.eq files.id parentId;
                                        drizzle.eq files.userId (JStr userId);
                                        drizzle.eq files.isFolder (JBool true)]) ;;
                ret (match first rows with Some _ => true | None => false end)
              else ret true) ;;
           if negb found then
             ret (NextResponse.json (Error "Parent folder not found") 404)
           else
             rows <- insert_files_values_returning env
                       (folderData env userId name parentId) ;;
             let newFolder := first rows in
             ret (NextResponse.json
                    (FolderCreated true "Folder created successfully" newFolder)
                    200)
     end)
    (NextResponse.json (Error "Failed to create folder") 500).
End FoldersCreateRoute.

(* ------------------------------------------------------------------ *)
(** ** [POST /api/upload] ([src/app/api/upload/route.ts]) *)

Module UploadRoute.
(** [imagekit.filePath || `/droply/${userId}/${imagekit.name}`]: the
    template is evaluated, and may throw, only when there is no usable
    [filePath]. *)
Definition path_of (env : Env) (userId : jsstring) (imagekit : JsVal)
  : Async JsVal :=
  if truthy (get imagekit (js "filePath")) then ret (get imagekit (js "filePath"))
  else
    match template env (get imagekit (js "name")) with
    | Some name => ret (JStr (js "/droply/" ++ userId ++ js "/" ++ name))
    | None => throw
    end.

Definition fileData (userId : jsstring) (imagekit path : JsVal)
  : NewFile.t :=
  {| NewFile.id := None;
     NewFile.name := or_else (get imagekit (js "name")) (JStr (js "Untitled"));
     NewFile.path := path;
     NewFile.size := or_else (get imagekit (js "size")) (JNum 0);
     NewFile.type := or_else (get imagekit (js "fileType")) (JStr (js "image"));
     NewFile.fileUrl := get imagekit (js "url");
     NewFile.thumbnailUrl := or_else (get imagekit (js "thumbnailUrl")) JNull;
     NewFile.userId := userId;
     NewFile.parentId := JNull;
     NewFile.isFolder := Some false;
     NewFile.isStarred := Some false;
     NewFile.isTrash := Some false |}.

Definition POST (env : Env) (request : NextRequest.t)
  : Db -> NextResponse.t * Db :=
  try_catch
    (match auth env with
     | None => ret (NextResponse.json (Error "Unauthorized") 401)
     | Some userId =>
       if negb (truthy (JStr userId)) then
         ret (NextResponse.json (Error "Unauthorized") 401)
       else
         body <- NextRequest.json request ;;
         destructure body ;;;
         let imagekit := get body (js "imagekit") in
         let bodyUserId := get body (js "userId") in
         if negb (strict_equals bodyUserId (JStr userId)) then
           ret (NextResponse.json (Error "Unauthorized") 401)
         else if negb (truthy imagekit)
                 || negb (truthy (get imagekit (js "url"))) then
           ret (NextResponse.json (Error "Invalid file upload data") 400)
         else
           path <- path_of env userId imagekit ;;
           rows <- insert_files_values_returning env
                     (fileData userId imagekit path) ;;
           let newFile := first rows in
           ret (NextResponse.json (FileRow newFile) 200)
     end)
    (NextResponse.json (Error "Failed to save file information") 500).
End UploadRoute.

(* ------------------------------------------------------------------ *)
(** ** Vocabulary of the properties *)

(** The request comes from the session of user [u]. *)
Definition authenticated (env : Env) (u : jsstring) : Prop :=
  auth env = Some u /\ u <> [].

(** [request.json()] yields [body], and [body] can be destructured. *)
Definition parsed (request : NextRequest.t) (body : JsVal) : Prop :=
  NextRequest.body request = Some body /\ body <> JNull /\ body <> JUndefined.

(** Two values are the same uuid, however each is spelled. *)
Definition same_uuid (a b : JsVal) : Prop :=
  exists x y digits,
    a = JStr x /\ b = JStr y
    /\ uuid_in x = Some digits /\ uuid_in y = Some digits.

(** The listing answers 200 with exactly the rows of owner [u] whose
    [parentId] is the parent id [p], and leaves the table alone. *)
Definition lists_children_of
  (env : Env) (request : NextRequest.t) (db : Db) (u p : jsstring) : Prop :=
  exists rows,
    FilesRoute.GET env request db = (NextResponse.json (Files rows) 200, db) /\
    forall r, In r rows <->
              In r db /\ File.userId r = u
              /\ same_uuid (File.parentId r) (JStr p).


(** The folder a listing request is about: the root ([null]) when the
    [parentId] parameter is absent or empty, that id otherwise. *)
Definition listed_parent (request : NextRequest.t) : JsVal :=
  match NextRequest.searchParams_get request (js "parentId") with
  | Some (c :: p) => JStr (c :: p)
  | Some [] | None => JNull
  end.

(** The parent check of the folder handler finds nothing: a [parentId] was
    given and the selection of the caller's folder with that id is empty. *)
Definition parent_missing (u : jsstring) (parentId : JsVal) (db : Db) : bool :=
  truthy parentId
  && match first (filter (drizzle.holds
                            (drizzle.and [drizzle.eq files.id parentId;
                                          drizzle.eq files.userId (JStr u);
                                          drizzle.eq files.isFolder (JBool true)]))
                         db) with
     | Some _ => false
     | None => true
     end.

(** The [parentId] the folder handler reads from a body. *)
Definition parentId_of (body : JsVal) : JsVal :=
  with_default (get body (js "parentId")) JNull.

(** A response outside the success path. *)
Definition error_status (st : N) : Prop := st = 401%N \/ st = 400%N \/ st = 404%N.

(** The rows of a listing answer; none for an error answer. *)
Definition listed (answer : NextResponse.t * Db) : list File.t :=
  match NextResponse.payload (fst answer) with
  | Files rows => rows
  | _ => []
  end.

(** The row lies in the folder a listing request is about. *)
Definition in_listed_folder (request : NextRequest.t) (r : File.t) : Prop :=
  (listed_parent request = JNull /\ File.parentId r = JNull)
  \/ same_uuid (File.parentId r) (listed_parent request).

(** The text is a uuid that no row of the table has as its id. *)
Definition fresh_uuid (i : jsstring) (db : Db) : Prop :=
  exists digits,
    uuid_in i = Some digits
    /\ forall r, In r db -> uuid_in (File.id r) <> Some digits.

(** The surroundings behave: the session's user id and the generated uuids
    hold no U+0000, and the ids this request generates are uuids that are
    not taken. *)
Definition sane (env : Env) (db : Db) : Prop :=
  (forall u, auth env = Some u -> has_nul u = false)
  /\ (forall n, has_nul (uuidv4 env n) = false)
  /\ fresh_uuid (uuidv4 env 0) db
  /\ fresh_uuid (defaultRandom env) db.

(** Text that a [text] column takes and gives back as it is: it holds no
    U+0000, and it is well-formed (what becomes of a lone surrogate on its
    way to the database is the driver's business, and no property below
    speaks of such a string). *)
Definition plain_text (s : jsstring) : Prop :=
  has_nul s = false /\ well_formed s = true.




(** The row an insert adds to the table; [None] when it throws. *)
Definition inserted (env : Env) (v : NewFile.t) (db : Db) : option File.t :=
  match stored env v with
  | Some row => if id_free (File.id row) db then Some row else None
  | None => None
  end.

(** The [path] of an upload record; [None] when the template throws. *)
Definition upload_path (env : Env) (u : jsstring) (imagekit : JsVal)
  : option JsVal :=
  if truthy (get imagekit (js "filePath")) then
    Some (get imagekit (js "filePath"))
  else
    option_map (fun name => JStr (js "/droply/" ++ u ++ js "/" ++ name))
               (template env (get imagekit (js "name"))).

(* ------------------------------------------------------------------ *)
(** ** Sample data: two users, a folder, a file *)

(** Decimal digits read as a number, as a sample of [int4in]. *)
Definition decimal (s : jsstring) : option Z :=
  match s with
  | [] => None
  | _ =>
      fold_left
        (fun acc c =>
           match acc with
           | Some z =>
               if (48 <=? c)%N && (c <=? 57)%N then
                 Some (10 * z + Z.of_N (c - 48))%Z
               else None
           | None => None
           end) s (Some 0%Z)
  end.

Definition U1 : jsstring := js "user_U1".
Definition U2 : jsstring := js "user_U2".

Definition env_of (u : jsstring) : Env :=
  {| auth := Some u;
     uuidv4 := fun n => match n with
                        | O => js "0b0e7a54-0000-4000-8000-00000000000a"
                        | _ => js "0b0e7a54-0000-4000-8000-00000000000b"
                        end;
     ToString := fun _ => js "0";
     defaultRandom := js "0b0e7a54-0000-4000-8000-00000000000c";
     defaultNow := 1762128000000;
     text_of := fun _ => (123%N, [125%N]);
     int4in := decimal |}.

Definition folder_row (i u : jsstring) (parent : JsVal) : File.t :=
  {| File.id := i; File.name := JStr (js "Vacation");
     File.path := JStr (js "/folders/x"); File.size := JNum 0;
     File.type := JStr (js "folder"); File.fileUrl := JStr [];
     File.thumbnailUrl := JNull; File.userId := u; File.parentId := parent;
     File.isFolder := true; File.isStarred := false; File.isTrash := false;
     File.createdAt := 1762000000000; File.updatedAt := 1762000000000 |}.

Definition file_row (i u : jsstring) (parent : JsVal) (starred trash : bool)
  : File.t :=
  {| File.id := i; File.name := JStr (js "x.jpg");
     File.path := JStr (js "/droply/x.jpg"); File.size := JNum 1024;
     File.type := JStr (js "image/jpeg");
     File.fileUrl := JStr (js "https://cdn/x.jpg");
     File.thumbnailUrl := JNull; File.userId := u; File.parentId := parent;
     File.isFolder := false; File.isStarred := starred; File.isTrash := trash;
     File.createdAt := 1762000000001; File.updatedAt := 1762000000001 |}.

Definition F1 : jsstring := js "11111111-1111-4111-8111-111111111111".
Definition F2 : jsstring := js "22222222-2222-4222-8222-222222222222".
Definition X1 : jsstring := js "33333333-3333-4333-8333-333333333333".
Definition X2 : jsstring := js "44444444-4444-4444-8444-444444444444".
Definition X3 : jsstring := js "55555555-5555-4555-8555-555555555555".

(** [U1] owns the root folder [F1], a trashed and starred file inside it and
    a file at the root; [U2] owns the root folder [F2] and a file that
    names [F1] as its parent. *)
Definition sample_db : Db :=
  [ folder_row F1 U1 JNull;
    file_row X1 U1 (JStr F1) true true;
    file_row X2 U1 JNull false false;
    folder_row F2 U2 JNull;
    file_row X3 U2 (JStr F1) false false ].

Definition list_request (u : jsstring) (parent : option jsstring)
  : NextRequest.t :=
  {| NextRequest.searchParams :=
       (js "userId", u)
       :: match parent with Some p => [(js "parentId", p)] | None => [] end;
     NextRequest.body := None |}.

Definition post_request (body : JsVal) : NextRequest.t :=
  {| NextRequest.searchParams := []; NextRequest.body := Some body |}.

Definition folder_body (name u : jsstring) (parent : option JsVal) : JsVal :=
  JObj ((js "name", JStr name) :: (js "userId", JStr u)
        :: match parent with Some p => [(js "parentId", p)] | None => [] end).

Definition upload_body (u : jsstring) (imagekit : JsVal) (extra : list (jsstring * JsVal))
  : JsVal :=
  JObj ((js "userId", JStr u) :: (js "imagekit", imagekit) :: extra).

Definition imagekit_result : JsVal :=
  JObj [(js "url", JStr (js "https://cdn/x.jpg"));
        (js "name", JStr (js "x.jpg"));
        (js "size", JNum 1024)].

(* ------------------------------------------------------------------ *)
(** ** [GET /api/imagekit-auth] (the credential route) *)

Module ImagekitAuthRoute.
(** What [imagekit.getAuthenticationParameters()] returns. *)
Record AuthenticationParameters := mkParams {
  token : jsstring;
  expire : Z;
  signature : jsstring
}.

Inductive Payload :=
| Failure (error : string)
| Credentials (authParams : AuthenticationParameters).

Record Response := mk { payload : Payload; status : N }.

(** The SDK call is the handler's only awaited step besides [auth()];
    [None] stands for the call throwing. *)
Definition GET (env : Env) (getAuthenticationParameters : option AuthenticationParameters)
  : Response :=
  match auth env with
  | None => mk (Failure "Unauthorized") 401
  | Some userId =>
    if negb (truthy (JStr userId)) then mk (Failure "Unauthorized") 401
    else
      match getAuthenticationParameters with
      | Some authParams => mk (Credentials authParams) 200
      | None => mk (Failure "Failed to generate authentication parameters") 500
      end
  end.
End ImagekitAuthRoute.

(* ------------------------------------------------------------------ *)
(** ** The sign-up schema ([src/schemas/signUpSchema.ts]) *)

Module signUpSchema.
Inductive Issue :=
| InvalidType
| Message (message : string).

(** [.min(n, ...)] of a string schema: at least [n] code units. *)
Definition min (n : nat) (s : jsstring) : bool := Nat.leb n (List.length s).

(** A check of a string schema with the message of its failure. *)
Definition check (ok : jsstring -> bool) (message : string)
  : (jsstring -> bool) * string := (ok, message).

(** [z.string()] followed by checks: a value that is not a string is
    refused at once; on a string every check is tried and each failed one
    leaves its message. *)
Definition string_checks (checks : list ((jsstring -> bool) * string))
           (v : JsVal) : list Issue :=
  match v with
  | JStr s =>
      flat_map (fun c : (jsstring -> bool) * string =>
                  if fst c s then [] else [Message (snd c)]) checks
  | _ => [InvalidType]
  end.

(** [is_email] is the pattern behind zod's [.email()]. *)
Definition email (is_email : jsstring -> bool) : JsVal -> list Issue :=
  string_checks [check (min 1) "Email is required";
                 check is_email "Please enter a valid email address"].

Definition password : JsVal -> list Issue :=
  string_checks [check (min 1) "Password is required";
                 check (min 8) "Password must be at least 8 characters"].

Definition passwordConfirmation : JsVal -> list Issue :=
  string_checks [check (min 1) "Please confirm your password"].

(** [data.password === data.passwordConfirmation]. *)
Definition refine (data : JsVal) : bool :=
  strict_equals (get data (js "password"))
                (get data (js "passwordConfirmation")).

Definition no_issue (l : list Issue) : bool :=
  match l with [] => true | _ => false end.

(** The schema lets [data] through: it is an object, no field leaves an
    issue and the refinement holds. *)
Definition accepts (is_email : jsstring -> bool) (data : JsVal) : bool :=
  match data with
  | JObj _ =>
      no_issue (email is_email (get data (js "email")))
      && no_issue (password (get data (js "password")))
      && no_issue (passwordConfirmation (get data (js "passwordConfirmation")))
      && refine data
  | _ => false
  end.
End signUpSchema.

(* ------------------------------------------------------------------ *)
(** ** The upload form ([src/components/FileUploadForm.tsx]) *)

Module FileUploadForm.
Record Props := mkProps {
  userId : jsstring;
  (** whether the optional callback is given *)
  onUploadSuccess : bool;
  currentFolder : option jsstring
}.

(** The [name] and [size] of a browser [File]. *)
Record SelectedFile := mkFile { name : jsstring; size : N }.

Record State := mkState {
  file : option SelectedFile;
  uploading : bool;
  progress : N;
  error : option string;
  folderModalOpen : bool;
  folderName : jsstring;
  creatingFolder : bool
}.

(** The values [useState] starts from. *)
Definition initial : State := mkState None false 0 None false [] false.

Definition setFile (v : option SelectedFile) (st : State) : State :=
  mkState v (uploading st) (progress st) (error st)
          (folderModalOpen st) (folderName st) (creatingFolder st).

Definition setError (v : option string) (st : State) : State :=
  mkState (file st) (uploading st) (progress st) v
          (folderModalOpen st) (folderName st) (creatingFolder st).

Definition setFolderModalOpen (v : bool) (st : State) : State :=
  mkState (file st) (uploading st) (progress st) (error st)
          v (folderName st) (creatingFolder st).

Definition setFolderName (v : jsstring) (st : State) : State :=
  mkState (file st) (uploading st) (progress st) (error st)
          (folderModalOpen st) v (creatingFolder st).

Definition setCreatingFolder (v : bool) (st : State) : State :=
  mkState (file st) (uploading st) (progress st) (error st)
          (folderModalOpen st) (folderName st) v.

(** [files] is [e.target.files]: [null], or the list of chosen files. *)
Definition handleFileChange (files : option (list SelectedFile)) (st : State)
  : State :=
  match files with
  | Some (selectedFile :: _) =>
      if (5 * 1024 * 1024 <? size selectedFile)%N then
        setError (Some "File size exceeds 5MB limit"%string) st
      else
        setError None (setFile (Some selectedFile) st)
  | _ => st
  end.

(** [files] is [e.dataTransfer.files]. *)
Definition handleDrop (files : option (list SelectedFile)) (st : State)
  : State :=
  match files with
  | Some (droppedFile :: _) =>
      if (5 * 1024 * 1024 <? size droppedFile)%N then
        setError (Some "File size exceeds 5MB limit"%string) st
      else
        setError None (setFile (Some droppedFile) st)
  | _ => st
  end.

Definition clearFile (st : State) : State := setError None (setFile None st).

Record Toast := mkToast {
  title : string;
  description : jsstring;
  color : string
}.

(** What a run of [handleCreateFolder] leaves behind; the refresh callback
    is taken not to throw. *)
Record Effect := mkEffect {
  state : State;
  table : Db;
  toasts : list Toast;
  (** [onUploadSuccess] was called *)
  refreshed : bool
}.

(** What the network does to one request: it never reaches the server; it
    reaches the server and the answer comes back; or it reaches the server
    and the answer is lost on the way back. *)
Inductive Network := Unreached | Answered | AnswerLost.

(** [axios.post(url, data)] with the url of the folder handler, against it:
    the promise is fulfilled on a 2xx answer that comes back and rejected
    in every other case. *)
Definition axios_post_folders_create (env : Env) (network : Network)
           (data : JsVal) : Async NextResponse.t :=
  fun db =>
    match network with
    | Unreached => (Rejected, db)
    | Answered =>
        let answer :=
          FoldersCreateRoute.POST env (NextRequest.mk [] (Some data)) db in
        let st := NextResponse.status (fst answer) in
        if (200 <=? st)%N && (st <? 300)%N then
          (Fulfilled (fst answer), snd answer)
        else (Rejected, snd answer)
    | AnswerLost =>
        (Rejected,
         snd (FoldersCreateRoute.POST env (NextRequest.mk [] (Some data)) db))
    end.

(** The body [handleCreateFolder] posts. *)
Definition folder_request (props : Props) (st : State) : JsVal :=
  JObj [(js "name", JStr (trim (folderName st)));
        (js "userId", JStr (userId props));
        (js "parentId", nullable (currentFolder props))].

Definition handleCreateFolder (env : Env) (network : Network) (props : Props)
           (st : State) (db : Db) : Effect :=
  if negb (truthy (JStr (trim (folderName st)))) then
    mkEffect st db
             [mkToast "Invalid Folder Name"
                      (js "Please enter a valid folder name.") "danger"]
             false
  else
    let st1 := setCreatingFolder true st in
    match axios_post_folders_create env network (folder_request props st) db with
    | (Fulfilled _, db') =>
        mkEffect
          (setCreatingFolder false
             (setFolderModalOpen false (setFolderName [] st1)))
          db'
          [mkToast "Folder Created"
                   (js "Folder " ++ [34%N] ++ folderName st ++ [34%N]
                       ++ js " has been created successfully.")
                   "success"]
          (onUploadSuccess props)
    | (Rejected, db') =>
        mkEffect
          (setCreatingFolder false st1)
          db'
          [mkToast "Folder Creation Failed"
                   (js "We couldn't create the folder. Please try again.")
                   "danger"]
          false
    end.

(** What the user does to the file selection. *)
Inductive Action :=
| FileChange (files : option (list SelectedFile))
| Drop (files : option (list SelectedFile))
| Clear.

Definition step (st : State) (a : Action) : State :=
  match a with
  | FileChange files => handleFileChange files st
  | Drop files => handleDrop files st
  | Clear => clearFile st
  end.
End FileUploadForm.

(* ------------------------------------------------------------------ *)
(** ** Vocabulary of the further properties *)

(** Every row with a parent names a folder of its own owner that is in the
    table. *)
Definition well_parented (db : Db) : Prop :=
  forall r, In r db ->
    File.parentId r = JNull
    \/ exists q, In q db /\ same_uuid (JStr (File.id q)) (File.parentId r)
                 /\ File.userId q = File.userId r /\ File.isFolder q = true.

(** The [parentId] parameter of a listing is one the select takes: absent,
    empty, or a uuid. *)
Definition listable (request : NextRequest.t) : Prop :=
  match NextRequest.searchParams_get request (js "parentId") with
  | Some (c :: p) => uuid_in (c :: p) <> None
  | Some [] | None => True
  end.

(** The condition a listing of owner [u] selects with. *)
Definition listing_condition (u : jsstring) (request : NextRequest.t)
  : drizzle.SQL :=
  match listed_parent request with
  | JNull =>
      drizzle.and [drizzle.eq files.userId (JStr u);
                   drizzle.isNull files.parentId]
  | p =>
      drizzle.and [drizzle.eq files.userId (JStr u);
                   drizzle.eq files.parentId p]
  end.

(** There is no session, or it carries an empty user id. *)
Definition no_session (env : Env) : Prop :=
  auth env = None \/ auth env = Some [].

(** The file held by the form, if any, is within the 5MB limit. *)
Definition within_limit (st : FileUploadForm.State) : Prop :=
  forall f, FileUploadForm.file st = Some f ->
            (FileUploadForm.size f <= 5 * 1024 * 1024)%N.

(** The string holds a character that is not whitespace. *)
Definition not_blank (s : jsstring) : Prop := forallb is_whitespace s = false.

(** Neither [null] nor [undefined]: what a NOT NULL column needs. *)
Definition present (v : JsVal) : Prop := v <> JNull /\ v <> JUndefined.

(** The string has no whitespace at either end. *)
Definition trimmed (s : jsstring) : Prop :=
  match s with
  | [] => True
  | c :: _ => is_whitespace c = false /\ is_whitespace (last s c) = false
  end.

(* ------------------------------------------------------------------ *)
(** ** Strings and values *)

(** ** Strings, values and conditions *)

Lemma jseqb_eq (a b : jsstring) : jseqb a b = true <-> a = b.
Proof.
  revert b; induction a as [|x a IH]; intros [|y b]; simpl;
    try (split; [discriminate | discriminate]); [tauto|].
  rewrite andb_true_iff, N.eqb_eq, IH.
  split; [intros [-> ->]; reflexivity | intros H; inversion H; auto].
Qed.

Lemma jseqb_refl (a : jsstring) : jseqb a a = true.
Proof. apply jseqb_eq; reflexivity. Qed.

Lemma jseqb_neq (a b : jsstring) : jseqb a b = false <-> a <> b.
Proof.
  rewrite <- jseqb_eq. destruct (jseqb a b); split; congruence.
Qed.

Lemma truthy_JStr (s : jsstring) : truthy (JStr s) = true <-> s <> [].
Proof. destruct s; simpl; split; congruence. Qed.

Lemma strict_equals_JStr (v : JsVal) (s : jsstring) :
  strict_equals v (JStr s) = true <-> v = JStr s.
Proof.
  destruct v; simpl; try (split; discriminate).
  rewrite jseqb_eq. split; congruence.
Qed.

Lemma strict_equals_JStr_false (v : JsVal) (s : jsstring) :
  strict_equals v (JStr s) = false <-> v <> JStr s.
Proof.
  rewrite <- strict_equals_JStr.
  destruct (strict_equals v (JStr s)); split; congruence.
Qed.

Lemma trimStart_nil (s : jsstring) :
  trimStart s = [] <-> forallb is_whitespace s = true.
Proof.
  induction s as [|c s IH]; simpl; [tauto|].
  destruct (is_whitespace c); simpl; [exact IH | split; discriminate].
Qed.

Lemma trimStart_head (s : jsstring) (c : N) (t : jsstring) :
  trimStart s = c :: t -> is_whitespace c = false.
Proof.
  induction s as [|d s IH]; simpl; [discriminate|].
  destruct (is_whitespace d) eqn:E; [exact IH | congruence].
Qed.

(** [trim] leaves nothing exactly when the string is whitespace only. *)
Lemma trim_nil (s : jsstring) :
  trim s = [] <-> forallb is_whitespace s = true.
Proof.
  rewrite <- trimStart_nil. unfold trim, trimEnd. split.
  - intros H.
    assert (E : trimStart (rev (trimStart s)) = []).
    { rewrite <- (rev_involutive (trimStart _)), H; reflexivity. }
    apply trimStart_nil in E.
    destruct (trimStart s) as [|c t] eqn:Es; [reflexivity|].
    apply trimStart_head in Es.
    rewrite forallb_forall in E.
    rewrite (E c) in Es; [discriminate | apply -> in_rev; left; reflexivity].
  - intros ->. reflexivity.
Qed.

Lemma filter_nil {A} (f : A -> bool) (l : list A) :
  (forall x, In x l -> f x = false) -> filter f l = [].
Proof.
  induction l as [|x l IH]; simpl; intros H; [reflexivity|].
  rewrite (H x (or_introl eq_refl)). apply IH; auto.
Qed.

(** *** What [trim] leaves *)

Lemma trimStart_prefix (s : jsstring) :
  exists a, s = a ++ trimStart s /\ forallb is_whitespace a = true.
Proof.
  induction s as [|c s (a & Hs & Ha)]; simpl.
  - exists []. auto.
  - destruct (is_whitespace c) eqn:E.
    + exists (c :: a). simpl. rewrite E, Ha, <- Hs. auto.
    + exists []. auto.
Qed.

Lemma trimStart_fixed (c : N) (s : jsstring) :
  is_whitespace c = false -> trimStart (c :: s) = c :: s.
Proof. intros H. simpl. rewrite H. reflexivity. Qed.

Lemma trimEnd_suffix (s : jsstring) :
  exists b, s = trimEnd s ++ b /\ forallb is_whitespace b = true.
Proof.
  destruct (trimStart_prefix (rev s)) as (a & Hs & Ha).
  exists (rev a). split.
  - unfold trimEnd. rewrite <- rev_app_distr, <- Hs, rev_involutive.
    reflexivity.
  - apply forallb_forall. intros x Hx. apply in_rev in Hx.
    rewrite forallb_forall in Ha. auto.
Qed.

Lemma trimEnd_last (s : jsstring) (d : N) :
  trimEnd s <> [] -> is_whitespace (last (trimEnd s) d) = false.
Proof.
  unfold trimEnd. destruct (trimStart (rev s)) as [|c t] eqn:E.
  - intros H. contradiction H. reflexivity.
  - intros _. simpl. rewrite last_last. apply (trimStart_head _ _ _ E).
Qed.

Lemma trim_trimmed (s : jsstring) : trimmed (trim s).
Proof.
  unfold trimmed. destruct (trim s) as [|c t] eqn:E; [exact I|].
  split.
  - unfold trim in E. destruct (trimEnd_suffix (trimStart s)) as (b & Hs & _).
    rewrite E in Hs. simpl in Hs. apply (trimStart_head _ _ _ Hs).
  - rewrite <- E. unfold trim. apply trimEnd_last.
    fold (trim s). rewrite E. discriminate.
Qed.

Lemma rev_cons_last {A} (c : A) (s : list A) :
  rev (c :: s) = last (c :: s) c :: rev (removelast (c :: s)).
Proof.
  assert (Hne : c :: s <> []) by discriminate.
  rewrite (app_removelast_last c Hne) at 1.
  rewrite rev_app_distr. reflexivity.
Qed.

Lemma trimmed_fixed (s : jsstring) : trimmed s -> trim s = s.
Proof.
  destruct s as [|c s]; [reflexivity|]. intros [Hc Hl].
  unfold trim. rewrite (trimStart_fixed c s Hc). unfold trimEnd.
  rewrite (rev_cons_last c s), (trimStart_fixed _ _ Hl).
  rewrite <- (rev_cons_last c s). apply rev_involutive.
Qed.

Lemma trim_decompose (s : jsstring) :
  exists a b, s = a ++ trim s ++ b
              /\ forallb is_whitespace a = true
              /\ forallb is_whitespace b = true.
Proof.
  destruct (trimStart_prefix s) as (a & Hs & Ha).
  destruct (trimEnd_suffix (trimStart s)) as (b & Ht & Hb).
  exists a, b. unfold trim. rewrite <- Ht. auto.
Qed.

Lemma trim_idempotent (s : jsstring) : trim (trim s) = trim s.
Proof. apply trimmed_fixed, trim_trimmed. Qed.

Lemma not_blank_trim (s : jsstring) : not_blank s -> not_blank (trim s).
Proof.
  unfold not_blank. intros H.
  pose proof (trim_trimmed s) as Ht.
  destruct (trim s) as [|c t] eqn:E.
  - apply trim_nil in E. congruence.
  - destruct Ht as [Hc _]. simpl. rewrite Hc. reflexivity.
Qed.

Lemma blank_or_not (s : jsstring) :
  forallb is_whitespace s = true \/ not_blank s.
Proof. unfold not_blank. destruct (forallb is_whitespace s); auto. Qed.

Lemma or_else_present (a b : JsVal) : present b -> present (or_else a b).
Proof.
  intros Hb. unfold or_else. destruct (truthy a) eqn:E; [|exact Hb].
  split; intros ->; discriminate E.
Qed.

Lemma truthy_present (v : JsVal) : truthy v = true -> present v.
Proof. intros H. split; intros ->; discriminate H. Qed.

Lemma first_filter_some {A} (f : A -> bool) (l : list A) (x : A) :
  first (filter f l) = Some x -> In x l /\ f x = true.
Proof.
  unfold first. intros H. apply filter_In.
  destruct (filter f l); [discriminate H|].
  injection H as ->. left. reflexivity.
Qed.

Lemma first_filter_none {A} (f : A -> bool) (l : list A) (x : A) :
  In x l -> f x = true -> first (filter f l) <> None.
Proof.
  intros Hin Hf H.
  assert (Hx : In x (filter f l)) by (apply filter_In; auto).
  unfold first in H. destruct (filter f l); [destruct Hx | discriminate H].
Qed.

(* ------------------------------------------------------------------ *)
(** ** Column types *)

Lemma has_nul_app (a b : jsstring) : has_nul (a ++ b) = has_nul a || has_nul b.
Proof. apply existsb_app. Qed.

Lemma whitespace_no_nul (a : jsstring) :
  forallb is_whitespace a = true -> has_nul a = false.
Proof.
  induction a as [|c a IH]; simpl; [reflexivity|].
  rewrite andb_true_iff. intros [Hc Ha]. rewrite (IH Ha), orb_false_r.
  destruct c as [|p]; [discriminate Hc | reflexivity].
Qed.

(** Trimming neither removes nor adds a U+0000. *)
Lemma has_nul_trim (s : jsstring) : has_nul (trim s) = has_nul s.
Proof.
  destruct (trim_decompose s) as (a & b & Hs & Ha & Hb).
  rewrite Hs at 2. rewrite !has_nul_app.
  rewrite (whitespace_no_nul a Ha), (whitespace_no_nul b Hb), orb_false_r.
  reflexivity.
Qed.

Lemma hex_value_bound (c a : N) : hex_value c = Some a -> (a < 16)%N.
Proof.
  unfold hex_value.
  destruct ((48 <=? c)%N && (c <=? 57)%N) eqn:E1.
  - apply andb_true_iff in E1 as [H1 H2].
    apply N.leb_le in H1, H2. intros H; injection H as <-. lia.
  - destruct ((97 <=? c)%N && (c <=? 102)%N) eqn:E2.
    + apply andb_true_iff in E2 as [H1 H2].
      apply N.leb_le in H1, H2. intros H; injection H as <-. lia.
    + destruct ((65 <=? c)%N && (c <=? 70)%N) eqn:E3; [|discriminate].
      apply andb_true_iff in E3 as [H1 H2].
      apply N.leb_le in H1, H2. intros H; injection H as <-. lia.
Qed.

Lemma below_16 (d : N) :
  (d < 16)%N ->
  In d [0; 1; 2; 3; 4; 5; 6; 7; 8; 9; 10; 11; 12; 13; 14; 15]%N.
Proof.
  intros H. simpl.
  destruct d as [|p]; [auto|].
  do 4 (destruct p as [p|p|]; try lia; auto 20).
Qed.

Lemma hex_digit_facts (d : N) :
  (d < 16)%N ->
  hex_value (hex_digit d) = Some d
  /\ (hex_digit d =? 45)%N = false
  /\ (hex_digit d =? 123)%N = false.
Proof.
  intros H. apply below_16 in H. simpl in H.
  repeat (destruct H as [<- | H]; [repeat split|]). destruct H.
Qed.

Lemma uuid_bytes_digits (n i : nat) (src : jsstring) (digits left : jsstring) :
  uuid_bytes n i src = Some (digits, left) ->
  List.length digits = 2 * n /\ Forall (fun d => (d < 16)%N) digits.
Proof.
  revert i src digits left.
  induction n as [|n IH]; intros i src digits left; simpl.
  - intros H; injection H as <- <-. split; [reflexivity | constructor].
  - destruct src as [|h [|l rest]]; try discriminate.
    destruct (hex_value h) as [a|] eqn:Ha; [|discriminate].
    destruct (hex_value l) as [b|] eqn:Hb; [|discriminate].
    destruct (uuid_bytes n (S i) (skip_hyphen i rest)) as [[ds r]|] eqn:E;
      [|discriminate].
    intros H; injection H as <- <-.
    destruct (IH _ _ _ _ E) as [Hl Hf]. split.
    + simpl. rewrite Hl. lia.
    + constructor; [exact (hex_value_bound _ _ Ha)|].
      constructor; [exact (hex_value_bound _ _ Hb) | exact Hf].
Qed.

Lemma uuid_in_digits (s digits : jsstring) :
  uuid_in s = Some digits ->
  List.length digits = 32 /\ Forall (fun d => (d < 16)%N) digits.
Proof.
  unfold uuid_in.
  destruct (uuid_bytes 16 0 _) as [[ds r]|] eqn:E; [|discriminate].
  destruct (jseqb r _); [|discriminate].
  intros H; injection H as <-. apply (uuid_bytes_digits _ _ _ _ _ E).
Qed.

Lemma skip_hyphen_digit (i : nat) (d : N) (rest : jsstring) :
  (d < 16)%N -> skip_hyphen i (hex_digit d :: rest) = hex_digit d :: rest.
Proof.
  intros H. unfold skip_hyphen.
  destruct (hex_digit_facts d H) as (_ & -> & _). reflexivity.
Qed.

Lemma skip_hyphen_hyphen (i : nat) (rest : jsstring) :
  Nat.odd i && Nat.ltb i 15 = true -> skip_hyphen i (45%N :: rest) = rest.
Proof.
  intros H. unfold skip_hyphen. rewrite <- andb_assoc, H. reflexivity.
Qed.

Lemma uuid_bytes_step (n i : nat) (a b : N) (rest : jsstring) :
  (a < 16)%N -> (b < 16)%N ->
  uuid_bytes (S n) i (hex_digit a :: hex_digit b :: rest)
  = match uuid_bytes n (S i) (skip_hyphen i rest) with
    | Some (digits, remaining) => Some (a :: b :: digits, remaining)
    | None => None
    end.
Proof.
  intros Ha Hb. cbn [uuid_bytes].
  destruct (hex_digit_facts a Ha) as (-> & _).
  destruct (hex_digit_facts b Hb) as (-> & _). reflexivity.
Qed.

Lemma uuid_in_plain (d : N) (rest : jsstring) :
  (d < 16)%N ->
  uuid_in (hex_digit d :: rest)
  = match uuid_bytes 16 0 (hex_digit d :: rest) with
    | Some (digits, remaining) =>
        if jseqb remaining [] then Some digits else None
    | None => None
    end.
Proof.
  intros H. unfold uuid_in.
  destruct (hex_digit_facts d H) as (_ & _ & ->). reflexivity.
Qed.

(** The engine reads its own spelling of a uuid back as that uuid. *)
Lemma uuid_out_in (s : jsstring) (digits : list N) :
  uuid_in s = Some digits -> uuid_in (uuid_out digits) = Some digits.
Proof.
  intros H. destruct (uuid_in_digits s digits H) as [Hl Hf]. clear H.
  do 32 (destruct digits as [|? digits]; [discriminate Hl|]).
  destruct digits; [|discriminate Hl]. clear Hl.
  repeat (apply Forall_cons_iff in Hf; destruct Hf as [? Hf]).
  unfold uuid_out. cbn [map firstn skipn app].
  rewrite uuid_in_plain by assumption.
  repeat (rewrite uuid_bytes_step by assumption;
          first [ rewrite skip_hyphen_digit by assumption
                | rewrite skip_hyphen_hyphen by reflexivity
                | idtac ]).
  reflexivity.
Qed.

Lemma same_uuid_sym (a b : JsVal) : same_uuid a b -> same_uuid b a.
Proof.
  intros (x & y & d & -> & -> & Hx & Hy). exists y, x, d. auto.
Qed.

Lemma same_uuid_trans (a b c : JsVal) :
  same_uuid a b -> same_uuid b c -> same_uuid a c.
Proof.
  intros (x & y & d & -> & -> & Hx & Hy) (y' & z & d' & E & -> & Hy' & Hz).
  injection E as <-. exists x, z, d. repeat split; congruence.
Qed.

Lemma same_uuid_out (s : jsstring) (digits : list N) :
  uuid_in s = Some digits -> same_uuid (JStr (uuid_out digits)) (JStr s).
Proof.
  intros H. exists (uuid_out digits), s, digits.
  repeat split; [exact (uuid_out_in s digits H) | exact H].
Qed.

(* ------------------------------------------------------------------ *)
(** ** Conditions *)

Lemma and3_true (a b : option bool) :
  drizzle.and3 a b = Some true <-> a = Some true /\ b = Some true.
Proof.
  destruct a as [[|]|], b as [[|]|]; simpl; split;
    try discriminate; try tauto; intros [H1 H2]; discriminate.
Qed.

Lemma holds_and2 (c1 c2 : drizzle.SQL) (r : File.t) :
  drizzle.holds (drizzle.and [c1; c2]) r = true
  <-> drizzle.eval c1 r = Some true /\ drizzle.eval c2 r = Some true.
Proof.
  unfold drizzle.holds. cbn [drizzle.eval].
  destruct (drizzle.eval c1 r) as [[|]|], (drizzle.eval c2 r) as [[|]|];
    simpl; split; try discriminate; try tauto; intros [H1 H2]; discriminate.
Qed.

Lemma holds_and3 (c1 c2 c3 : drizzle.SQL) (r : File.t) :
  drizzle.holds (drizzle.and [c1; c2; c3]) r = true
  <-> drizzle.eval c1 r = Some true /\ drizzle.eval c2 r = Some true
      /\ drizzle.eval c3 r = Some true.
Proof.
  unfold drizzle.holds. cbn [drizzle.eval].
  destruct (drizzle.eval c1 r) as [[|]|], (drizzle.eval c2 r) as [[|]|],
           (drizzle.eval c3 r) as [[|]|];
    simpl; split; try discriminate; try tauto;
    intros (H1 & H2 & H3); discriminate.
Qed.

Lemma uuid_eq_true (a b : JsVal) :
  drizzle.uuid_eq a b = Some true <-> same_uuid a b.
Proof.
  split.
  - destruct a as [| |?|?|x|?|?|?], b as [| |?|?|y|?|?|?]; simpl;
      try discriminate.
    destruct (uuid_in x) as [m|] eqn:Ex, (uuid_in y) as [n|] eqn:Ey;
      try discriminate.
    intros H. injection H as H. apply jseqb_eq in H. subst n.
    exists x, y, m. auto.
  - intros (x & y & d & -> & -> & Hx & Hy). simpl. rewrite Hx, Hy.
    rewrite jseqb_refl. reflexivity.
Qed.

Lemma eval_eq_userId (u : jsstring) (r : File.t) :
  drizzle.eval (drizzle.eq files.userId (JStr u)) r = Some true
  <-> File.userId r = u.
Proof.
  simpl. split.
  - intros H. injection H as H. apply jseqb_eq. exact H.
  - intros ->. rewrite jseqb_refl. reflexivity.
Qed.

Lemma eval_eq_parentId (p : JsVal) (r : File.t) :
  drizzle.eval (drizzle.eq files.parentId p) r = Some true
  <-> same_uuid (File.parentId r) p.
Proof. apply uuid_eq_true. Qed.

Lemma eval_eq_id (p : JsVal) (r : File.t) :
  drizzle.eval (drizzle.eq files.id p) r = Some true
  <-> same_uuid (JStr (File.id r)) p.
Proof. apply uuid_eq_true. Qed.

Lemma eval_eq_isFolder (r : File.t) :
  drizzle.eval (drizzle.eq files.isFolder (JBool true)) r = Some true
  <-> File.isFolder r = true.
Proof.
  simpl. destruct (File.isFolder r); simpl; split; congruence.
Qed.

Lemma eval_isNull_parentId (r : File.t) :
  drizzle.eval (drizzle.isNull files.parentId) r = Some true
  <-> File.parentId r = JNull.
Proof.
  simpl. destruct (File.parentId r); split; congruence.
Qed.

(** The conditions the handlers build, read as properties of a row. *)
Lemma holds_owner_and_parent (u : jsstring) (p : JsVal) (r : File.t) :
  drizzle.holds
    (drizzle.and [drizzle.eq files.userId (JStr u);
                  drizzle.eq files.parentId p]) r = true
  <-> File.userId r = u /\ same_uuid (File.parentId r) p.
Proof.
  rewrite holds_and2, eval_eq_userId, eval_eq_parentId. reflexivity.
Qed.

Lemma holds_owner_and_root (u : jsstring) (r : File.t) :
  drizzle.holds
    (drizzle.and [drizzle.eq files.userId (JStr u);
                  drizzle.isNull files.parentId]) r = true
  <-> File.userId r = u /\ File.parentId r = JNull.
Proof.
  rewrite holds_and2, eval_eq_userId, eval_isNull_parentId. reflexivity.
Qed.

(** Comparing a column with [null] by equality is never true. *)
Lemma holds_eq_null (u : jsstring) (c : files.Column) (r : File.t) :
  drizzle.holds
    (drizzle.and [drizzle.eq files.userId (JStr u); drizzle.eq c JNull]) r
  = false.
Proof.
  destruct (drizzle.holds _ r) eqn:E; [|reflexivity].
  apply holds_and2 in E as [_ E]. cbn [drizzle.eval] in E.
  destruct (files.is_uuid c), (files.value c r); discriminate E.
Qed.

Lemma holds_parent_folder (u : jsstring) (p : JsVal) (r : File.t) :
  drizzle.holds
    (drizzle.and [drizzle.eq files.id p;
                  drizzle.eq files.userId (JStr u);
                  drizzle.eq files.isFolder (JBool true)]) r = true
  <-> same_uuid (JStr (File.id r)) p /\ File.userId r = u
      /\ File.isFolder r = true.
Proof.
  rewrite holds_and3, eval_eq_id, eval_eq_userId, eval_eq_isFolder.
  reflexivity.
Qed.

Lemma parameter_ok_uuid (col : files.Column) (v : JsVal) :
  files.is_uuid col = true -> truthy v = true ->
  drizzle.parameter_ok col v = true
  <-> exists s, v = JStr s /\ uuid_in s <> None.
Proof.
  intros Hc Hv. unfold drizzle.parameter_ok. rewrite Hc. split.
  - destruct v as [| |?|?|s|?|?|?]; try discriminate.
    destruct (uuid_in s) eqn:E; [|discriminate].
    intros _. exists s. split; [reflexivity | congruence].
  - intros (s & -> & H). destruct (uuid_in s); [reflexivity | congruence].
Qed.

(** When the parent check finds nothing, no folder of the caller has the
    given id; when it finds a row, that row is such a folder. *)
Lemma parent_missing_true (u : jsstring) (p : JsVal) (db : Db) :
  parent_missing u p db = true
  <-> truthy p = true
      /\ forall q, In q db ->
           ~ (same_uuid (JStr (File.id q)) p /\ File.userId q = u
              /\ File.isFolder q = true).
Proof.
  unfold parent_missing. rewrite andb_true_iff. split.
  - intros [Ht H]. split; [exact Ht|]. intros q Hq Hc.
    apply holds_parent_folder in Hc.
    destruct (first _) eqn:E; [discriminate|].
    exact (first_filter_none _ db q Hq Hc E).
  - intros [Ht H]. split; [exact Ht|].
    destruct (first _) eqn:E; [|reflexivity].
    apply first_filter_some in E as [Hin Hc].
    apply holds_parent_folder in Hc. destruct (H _ Hin Hc).
Qed.

Lemma parent_missing_false (u : jsstring) (p : JsVal) (db : Db) :
  parent_missing u p db = false -> truthy p = true ->
  exists q, In q db /\ same_uuid (JStr (File.id q)) p /\ File.userId q = u
            /\ File.isFolder q = true.
Proof.
  unfold parent_missing. intros H Ht. rewrite Ht in H. cbn [andb] in H.
  destruct (first _) as [q|] eqn:E; [|discriminate].
  apply first_filter_some in E as [Hin Hc].
  apply holds_parent_folder in Hc. exists q. tauto.
Qed.

(* ------------------------------------------------------------------ *)
(** ** What the table stores *)

Lemma text_column_plain (env : Env) (t : jsstring) :
  has_nul t = false -> notNull (text_column env (JStr t)) = Some (JStr t).
Proof. intros H. unfold text_column. rewrite H. reflexivity. Qed.

Lemma text_column_string (env : Env) (t : jsstring) (cell : JsVal) :
  text_column env (JStr t) = Some cell -> cell = JStr t /\ has_nul t = false.
Proof.
  unfold text_column. destruct (has_nul t); [discriminate|].
  intros H; injection H as <-. auto.
Qed.


(** What a [text] column holds for a truthy value is not the empty
    string. *)
Lemma text_column_truthy (env : Env) (v cell : JsVal) :
  truthy v = true -> text_column env v = Some cell ->
  truthy cell = true /\ cell <> JStr [].
Proof.
  unfold text_column.
  destruct v as [| |?|?|s|?|?|?]; try discriminate; intros Ht;
    try (destruct (has_nul _); [discriminate|];
         intros H; injection H as <-; split; [reflexivity | discriminate]).
  destruct (has_nul s); [discriminate|].
  intros H; injection H as <-. split; [exact Ht|].
  intros E. injection E as ->. discriminate Ht.
Qed.

Lemma notNull_some (cell : option JsVal) (v : JsVal) :
  notNull cell = Some v -> cell = Some v /\ v <> JNull.
Proof.
  destruct cell as [[| |?|?|?|?|?|?]|]; simpl; try discriminate;
    intros H; injection H as <-; split; (reflexivity || discriminate).
Qed.


Lemma uuid_column_cell (v cell : JsVal) :
  uuid_column v = Some cell ->
  (cell = JNull /\ (v = JNull \/ v = JUndefined))
  \/ exists s digits,
       v = JStr s /\ uuid_in s = Some digits /\ cell = JStr (uuid_out digits).
Proof.
  unfold uuid_column.
  destruct v as [| |?|?|s|?|?|?]; try discriminate;
    try (intros H; injection H as <-; auto; fail).
  destruct (uuid_in s) as [d|] eqn:E; [|discriminate].
  intros H; injection H as <-. right. exists s, d. auto.
Qed.

(** The columns of a stored row, read off the values of the insert. *)
Lemma stored_some (env : Env) (v : NewFile.t) (row : File.t) :
  stored env v = Some row ->
  notNull (text_column env (NewFile.name v)) = Some (File.name row)
  /\ notNull (text_column env (NewFile.path v)) = Some (File.path row)
  /\ notNull (integer_column env (NewFile.size v)) = Some (File.size row)
  /\ notNull (text_column env (NewFile.type v)) = Some (File.type row)
  /\ notNull (text_column env (NewFile.fileUrl v)) = Some (File.fileUrl row)
  /\ text_column env (NewFile.thumbnailUrl v) = Some (File.thumbnailUrl row)
  /\ uuid_column (NewFile.parentId v) = Some (File.parentId row)
  /\ option_map uuid_out
       (uuid_in (match NewFile.id v with
                 | Some i => i
                 | None => defaultRandom env
                 end)) = Some (File.id row)
  /\ has_nul (NewFile.userId v) = false
  /\ File.userId row = NewFile.userId v
  /\ File.isFolder row
     = match NewFile.isFolder v with Some b => b | None => false end
  /\ File.isStarred row
     = match NewFile.isStarred v with Some b => b | None => false end
  /\ File.isTrash row
     = match NewFile.isTrash v with Some b => b | None => false end
  /\ File.createdAt row = defaultNow env
  /\ File.updatedAt row = defaultNow env.
Proof.
  unfold stored.
  destruct (notNull (text_column env (NewFile.name v))); [|discriminate].
  destruct (notNull (text_column env (NewFile.path v))); [|discriminate].
  destruct (notNull (integer_column env (NewFile.size v))); [|discriminate].
  destruct (notNull (text_column env (NewFile.type v))); [|discriminate].
  destruct (notNull (text_column env (NewFile.fileUrl v))); [|discriminate].
  destruct (text_column env (NewFile.thumbnailUrl v)); [|discriminate].
  destruct (uuid_column (NewFile.parentId v)); [|discriminate].
  destruct (option_map uuid_out _); [|discriminate].
  destruct (has_nul (NewFile.userId v)); [discriminate|].
  intros H; injection H as <-. cbn. repeat split; reflexivity.
Qed.

Lemma stored_intro (env : Env) (v : NewFile.t)
      (name path size type fileUrl thumbnailUrl parentId : JsVal)
      (id : jsstring) :
  notNull (text_column env (NewFile.name v)) = Some name ->
  notNull (text_column env (NewFile.path v)) = Some path ->
  notNull (integer_column env (NewFile.size v)) = Some size ->
  notNull (text_column env (NewFile.type v)) = Some type ->
  notNull (text_column env (NewFile.fileUrl v)) = Some fileUrl ->
  text_column env (NewFile.thumbnailUrl v) = Some thumbnailUrl ->
  uuid_column (NewFile.parentId v) = Some parentId ->
  option_map uuid_out
    (uuid_in (match NewFile.id v with
              | Some i => i
              | None => defaultRandom env
              end)) = Some id ->
  has_nul (NewFile.userId v) = false ->
  stored env v
  = Some {| File.id := id;
            File.name := name;
            File.path := path;
            File.size := size;
            File.type := type;
            File.fileUrl := fileUrl;
            File.thumbnailUrl := thumbnailUrl;
            File.userId := NewFile.userId v;
            File.parentId := parentId;
            File.isFolder :=
              match NewFile.isFolder v with Some b => b | None => false end;
            File.isStarred :=
              match NewFile.isStarred v with Some b => b | None => false end;
            File.isTrash :=
              match NewFile.isTrash v with Some b => b | None => false end;
            File.createdAt := defaultNow env;
            File.updatedAt := defaultNow env |}.
Proof.
  intros H1 H2 H3 H4 H5 H6 H7 H8 H9. unfold stored.
  rewrite H1, H2, H3, H4, H5, H6, H7, H8, H9. reflexivity.
Qed.

Lemma id_free_true (i : jsstring) (db : Db) :
  id_free i db = true
  <-> forall r, In r db -> ~ same_uuid (JStr (File.id r)) (JStr i).
Proof.
  unfold id_free. rewrite negb_true_iff. split.
  - intros H r Hr Hs.
    assert (E : existsb (drizzle.holds (drizzle.eq files.id (JStr i))) db
                = true).
    { apply existsb_exists. exists r. split; [exact Hr|].
      unfold drizzle.holds.
      apply (proj2 (eval_eq_id (JStr i) r)) in Hs. rewrite Hs. reflexivity. }
    congruence.
  - intros H. destruct (existsb _ db) eqn:E; [|reflexivity].
    apply existsb_exists in E as (r & Hr & Hh).
    unfold drizzle.holds in Hh.
    destruct (drizzle.eval _ r) as [[|]|] eqn:Ee; try discriminate.
    apply eval_eq_id in Ee. destruct (H r Hr Ee).
Qed.

(** A generated uuid that is fresh passes the primary key. *)
Lemma fresh_uuid_free (i : jsstring) (db : Db) :
  fresh_uuid i db ->
  exists digits,
    uuid_in i = Some digits /\ id_free (uuid_out digits) db = true.
Proof.
  intros (d & Hi & Hf). exists d. split; [exact Hi|].
  apply id_free_true. intros r Hr (x & y & d' & Ex & Ey & Hx & Hy).
  injection Ex as <-. injection Ey as <-.
  rewrite (uuid_out_in i d Hi) in Hy. injection Hy as <-.
  exact (Hf r Hr Hx).
Qed.

Lemma inserted_some (env : Env) (v : NewFile.t) (db : Db) (row : File.t) :
  inserted env v db = Some row ->
  stored env v = Some row /\ id_free (File.id row) db = true.
Proof.
  unfold inserted. destruct (stored env v) as [r|]; [|discriminate].
  destruct (id_free (File.id r) db) eqn:E; [|discriminate].
  intros H; injection H as <-. auto.
Qed.

Lemma inserted_intro (env : Env) (v : NewFile.t) (db : Db) (row : File.t) :
  stored env v = Some row -> id_free (File.id row) db = true ->
  inserted env v db = Some row.
Proof. intros H1 H2. unfold inserted. rewrite H1, H2. reflexivity. Qed.

Lemma insert_inserted (env : Env) (v : NewFile.t) (db : Db) :
  insert_files_values_returning env v db
  = match inserted env v db with
    | Some row => (Fulfilled [row], db ++ [row])
    | None => (Rejected, db)
    end.
Proof.
  unfold insert_files_values_returning, inserted.
  destruct (stored env v) as [r|]; [|reflexivity].
  destruct (id_free (File.id r) db); reflexivity.
Qed.

(* ------------------------------------------------------------------ *)
(** ** What each handler computes *)

Lemma authenticated_truthy (env : Env) (u : jsstring) :
  authenticated env u -> auth env = Some u /\ truthy (JStr u) = true.
Proof. intros [H1 H2]. split; [exact H1 | apply truthy_JStr; exact H2]. Qed.

Lemma authenticated_unique (env : Env) (u v : jsstring) :
  authenticated env u -> authenticated env v -> u = v.
Proof. intros [H1 _] [H2 _]. congruence. Qed.

(** A listing with a non-empty [parentId]: 200 with the selection when the
    parameter is a uuid, the catch branch otherwise. *)
Lemma GET_with_parent (env : Env) (request : NextRequest.t) (db : Db)
      (u : jsstring) (c : N) (p : jsstring) :
  authenticated env u ->
  NextRequest.searchParams_get request (js "userId") = Some u ->
  NextRequest.searchParams_get request (js "parentId") = Some (c :: p) ->
  FilesRoute.GET env request db =
  match uuid_in (c :: p) with
  | Some _ =>
      (NextResponse.json
         (Files (filter (drizzle.holds
                           (drizzle.and
                              [drizzle.eq files.userId (JStr u);
                               drizzle.eq files.parentId (JStr (c :: p))]))
                        db)) 200, db)
  | None => (NextResponse.json (Error "Failed to fetch files") 500, db)
  end.
Proof.
  intros Ha Hq Hp. apply authenticated_truthy in Ha as [Ha Ht].
  unfold FilesRoute.GET. rewrite Ha, Ht, Hq, Hp.
  unfold nullable. rewrite Ht.
  assert (E : strict_equals (JStr u) (JStr u) = true)
    by (apply strict_equals_JStr; reflexivity).
  rewrite E. cbn [negb orb truthy].
  unfold try_catch, bind, select_from_files_where, ret.
  cbn [drizzle.accepted drizzle.parameter_ok files.is_uuid andb].
  destruct (uuid_in (c :: p)); reflexivity.
Qed.

Lemma GET_at_root (env : Env) (request : NextRequest.t) (db : Db)
      (u : jsstring) :
  authenticated env u ->
  NextRequest.searchParams_get request (js "userId") = Some u ->
  NextRequest.searchParams_get request (js "parentId") = None
  \/ NextRequest.searchParams_get request (js "parentId") = Some [] ->
  FilesRoute.GET env request db =
  (NextResponse.json
     (Files (filter (drizzle.holds
                       (drizzle.and [drizzle.eq files.userId (JStr u);
                                     drizzle.isNull files.parentId]))
                    db)) 200, db).
Proof.
  intros Ha Hq Hp. apply authenticated_truthy in Ha as [Ha Ht].
  unfold FilesRoute.GET. rewrite Ha, Ht, Hq.
  unfold nullable at 1 2. rewrite Ht.
  assert (E : strict_equals (JStr u) (JStr u) = true)
    by (apply strict_equals_JStr; reflexivity).
  rewrite E. destruct Hp as [-> | ->]; reflexivity.
Qed.

Lemma GET_identity_mismatch (env : Env) (request : NextRequest.t) (db : Db)
      (u : jsstring) :
  authenticated env u ->
  NextRequest.searchParams_get request (js "userId") <> Some u ->
  FilesRoute.GET env request db =
  (NextResponse.json (Error "Unauthorized") 401, db).
Proof.
  intros Ha Hq. apply authenticated_truthy in Ha as [Ha Ht].
  unfold FilesRoute.GET. rewrite Ha, Ht.
  destruct (NextRequest.searchParams_get request (js "userId")) as [q|];
    [|reflexivity].
  unfold nullable at 1 2.
  assert (E : strict_equals (JStr q) (JStr u) = false)
    by (apply strict_equals_JStr_false; congruence).
  rewrite E. destruct (truthy (JStr q)); reflexivity.
Qed.

Lemma destructure_parsed (request : NextRequest.t) (body : JsVal) (db : Db) :
  parsed request body ->
  NextRequest.json request db = (Fulfilled body, db)
  /\ destructure body db = (Fulfilled tt, db).
Proof.
  intros (Hb & Hn & Hu). unfold NextRequest.json. rewrite Hb.
  split; [reflexivity|]. destruct body; try reflexivity; congruence.
Qed.

Lemma accepted_parent_check (u : jsstring) (p : JsVal) :
  drizzle.accepted
    (drizzle.and [drizzle.eq files.id p;
                  drizzle.eq files.userId (JStr u);
                  drizzle.eq files.isFolder (JBool true)])
  = drizzle.parameter_ok files.id p.
Proof.
  cbn [drizzle.accepted]. unfold drizzle.parameter_ok at 2 3.
  cbn [files.is_uuid andb]. apply andb_true_r.
Qed.

(** The folder handler on a request of the session's user with a readable
    body, branch by branch. *)
Lemma folder_POST_parsed (env : Env) (request : NextRequest.t) (db : Db)
      (u : jsstring) (body : JsVal) :
  authenticated env u -> parsed request body ->
  FoldersCreateRoute.POST env request db =
  if negb (strict_equals (get body (js "userId")) (JStr u)) then
    (NextResponse.json (Error "Unauthorized") 401, db)
  else if FoldersCreateRoute.name_rejected (get body (js "name")) then
    (NextResponse.json (Error "Folder name is required") 400, db)
  else if truthy (parentId_of body)
          && negb (drizzle.parameter_ok files.id (parentId_of body)) then
    (NextResponse.json (Error "Failed to create folder") 500, db)
  else if parent_missing u (parentId_of body) db then
    (NextResponse.json (Error "Parent folder not found") 404, db)
  else
    match inserted env (FoldersCreateRoute.folderData env u
                          (get body (js "name")) (parentId_of body)) db with
    | Some row =>
        (NextResponse.json
           (FolderCreated true "Folder created successfully" (Some row)) 200,
         db ++ [row])
    | None => (NextResponse.json (Error "Failed to create folder") 500, db)
    end.
Proof.
  intros Ha Hb. apply authenticated_truthy in Ha as [Ha Ht].
  destruct (destructure_parsed request body db Hb) as [Hj Hd].
  unfold FoldersCreateRoute.POST, try_catch, bind. rewrite Ha, Ht. cbn [negb].
  rewrite Hj, Hd. fold (parentId_of body).
  destruct (strict_equals (get body (js "userId")) (JStr u)); cbn [negb];
    [|reflexivity].
  destruct (FoldersCreateRoute.name_rejected (get body (js "name")));
    [reflexivity|].
  unfold parent_missing, select_from_files_where, ret, first.
  rewrite accepted_parent_check.
  destruct (truthy (parentId_of body)); cbn [andb].
  - destruct (drizzle.parameter_ok files.id (parentId_of body)); cbn [negb];
      [|reflexivity].
    destruct (hd_error _); cbn [negb]; [|reflexivity].
    rewrite (insert_inserted env
               (FoldersCreateRoute.folderData env u (get body (js "name"))
                  (parentId_of body)) db).
    destruct (inserted _ _ _); reflexivity.
  - cbn [negb].
    rewrite (insert_inserted env
               (FoldersCreateRoute.folderData env u (get body (js "name"))
                  (parentId_of body)) db).
    destruct (inserted _ _ _); reflexivity.
Qed.

(** The upload handler on a request of the session's user with a readable
    body, branch by branch. *)
Lemma upload_POST_parsed (env : Env) (request : NextRequest.t) (db : Db)
      (u : jsstring) (body : JsVal) :
  authenticated env u -> parsed request body ->
  UploadRoute.POST env request db =
  if negb (strict_equals (get body (js "userId")) (JStr u)) then
    (NextResponse.json (Error "Unauthorized") 401, db)
  else if negb (truthy (get body (js "imagekit")))
          || negb (truthy (get (get body (js "imagekit")) (js "url"))) then
    (NextResponse.json (Error "Invalid file upload data") 400, db)
  else
    match upload_path env u (get body (js "imagekit")) with
    | Some path =>
        match inserted env (UploadRoute.fileData u (get body (js "imagekit"))
                              path) db with
        | Some row => (NextResponse.json (FileRow (Some row)) 200, db ++ [row])
        | None =>
            (NextResponse.json (Error "Failed to save file information") 500,
             db)
        end
    | None =>
        (NextResponse.json (Error "Failed to save file information") 500, db)
    end.
Proof.
  intros Ha Hb. apply authenticated_truthy in Ha as [Ha Ht].
  destruct (destructure_parsed request body db Hb) as [Hj Hd].
  unfold UploadRoute.POST, try_catch, bind. rewrite Ha, Ht. cbn [negb].
  rewrite Hj, Hd.
  destruct (strict_equals (get body (js "userId")) (JStr u)); cbn [negb];
    [|reflexivity].
  destruct (negb (truthy (get body (js "imagekit")))
            || negb (truthy (get (get body (js "imagekit")) (js "url"))));
    [reflexivity|].
  unfold UploadRoute.path_of, upload_path.
  destruct (truthy (get (get body (js "imagekit")) (js "filePath"))).
  - unfold ret.
    rewrite (insert_inserted env
               (UploadRoute.fileData u (get body (js "imagekit"))
                  (get (get body (js "imagekit")) (js "filePath"))) db).
    destruct (inserted _ _ _); reflexivity.
  - destruct (template env _) as [name|]; cbn [option_map]; [|reflexivity].
    unfold ret.
    rewrite (insert_inserted env
               (UploadRoute.fileData u (get body (js "imagekit"))
                  (JStr (js "/droply/" ++ u ++ js "/" ++ name))) db).
    destruct (inserted _ _ _); reflexivity.
Qed.

(** A request that is not authenticated or whose body cannot be read ends
    in an error response and leaves the table as it was. *)
Lemma entry_cases (env : Env) (request : NextRequest.t) :
  (exists u body, authenticated env u /\ parsed request body)
  \/ auth env = None
  \/ auth env = Some []
  \/ NextRequest.body request = None
  \/ NextRequest.body request = Some JNull
  \/ NextRequest.body request = Some JUndefined.
Proof.
  destruct (auth env) as [[|c u]|] eqn:Ha; [tauto | | tauto].
  destruct (NextRequest.body request) as [b|] eqn:Hb; [|tauto].
  destruct b; try tauto; left; eexists (c :: u), _;
    (split; [split; [exact Ha | discriminate]
            | split; [exact Hb | split; discriminate]]).
Qed.

(** The outcomes of a request without a session or a readable body. *)
Lemma folder_POST_entry (env : Env) (request : NextRequest.t) (db : Db) :
  auth env = None
  \/ auth env = Some []
  \/ NextRequest.body request = None
  \/ NextRequest.body request = Some JNull
  \/ NextRequest.body request = Some JUndefined ->
  exists msg st,
    FoldersCreateRoute.POST env request db
    = (NextResponse.json (Error msg) st, db)
    /\ (st = 401%N \/ st = 500%N).
Proof.
  intros [H | [H | [H | [H | H]]]].
  - unfold FoldersCreateRoute.POST. rewrite H. do 2 eexists; split; [reflexivity | auto].
  - unfold FoldersCreateRoute.POST. rewrite H. do 2 eexists; split; [reflexivity | auto].
  - unfold FoldersCreateRoute.POST, try_catch, bind, NextRequest.json.
    rewrite H. destruct (auth env) as [w|]; [destruct (truthy (JStr w))|];
      do 2 eexists; (split; [reflexivity | auto]).
  - unfold FoldersCreateRoute.POST, try_catch, bind, NextRequest.json.
    rewrite H. destruct (auth env) as [w|]; [destruct (truthy (JStr w))|];
      do 2 eexists; (split; [reflexivity | auto]).
  - unfold FoldersCreateRoute.POST, try_catch, bind, NextRequest.json.
    rewrite H. destruct (auth env) as [w|]; [destruct (truthy (JStr w))|];
      do 2 eexists; (split; [reflexivity | auto]).
Qed.

Lemma upload_POST_entry (env : Env) (request : NextRequest.t) (db : Db) :
  auth env = None
  \/ auth env = Some []
  \/ NextRequest.body request = None
  \/ NextRequest.body request = Some JNull
  \/ NextRequest.body request = Some JUndefined ->
  exists msg st,
    UploadRoute.POST env request db
    = (NextResponse.json (Error msg) st, db)
    /\ (st = 401%N \/ st = 500%N).
Proof.
  intros [H | [H | [H | [H | H]]]].
  - unfold UploadRoute.POST. rewrite H. do 2 eexists; split; [reflexivity | auto].
  - unfold UploadRoute.POST. rewrite H. do 2 eexists; split; [reflexivity | auto].
  - unfold UploadRoute.POST, try_catch, bind, NextRequest.json.
    rewrite H. destruct (auth env) as [w|]; [destruct (truthy (JStr w))|];
      do 2 eexists; (split; [reflexivity | auto]).
  - unfold UploadRoute.POST, try_catch, bind, NextRequest.json.
    rewrite H. destruct (auth env) as [w|]; [destruct (truthy (JStr w))|];
      do 2 eexists; (split; [reflexivity | auto]).
  - unfold UploadRoute.POST, try_catch, bind, NextRequest.json.
    rewrite H. destruct (auth env) as [w|]; [destruct (truthy (JStr w))|];
      do 2 eexists; (split; [reflexivity | auto]).
Qed.

(** The outcomes of a request: either the handler appended exactly the row
    the insert stored and answered 200 with it, or it answered with an error
    and the table is unchanged. *)
Lemma folder_POST_cases (env : Env) (request : NextRequest.t) (db : Db) :
  (exists msg st,
      FoldersCreateRoute.POST env request db
      = (NextResponse.json (Error msg) st, db) /\ st <> 200%N)
  \/ (exists u body row,
         authenticated env u /\ parsed request body
         /\ strict_equals (get body (js "userId")) (JStr u) = true
         /\ FoldersCreateRoute.name_rejected (get body (js "name")) = false
         /\ parent_missing u (parentId_of body) db = false
         /\ inserted env (FoldersCreateRoute.folderData env u
                            (get body (js "name")) (parentId_of body)) db
            = Some row
         /\ FoldersCreateRoute.POST env request db
            = (NextResponse.json
                 (FolderCreated true "Folder created successfully" (Some row))
                 200, db ++ [row])).
Proof.
  destruct (entry_cases env request) as [(u & body & Ha & Hb) | H].
  - rewrite (folder_POST_parsed env request db u body Ha Hb).
    destruct (strict_equals _ _) eqn:E1; cbn [negb];
      [|left; do 2 eexists; split; [reflexivity | discriminate]].
    destruct (FoldersCreateRoute.name_rejected _) eqn:E2;
      [left; do 2 eexists; split; [reflexivity | discriminate]|].
    destruct (truthy (parentId_of body) && _);
      [left; do 2 eexists; split; [reflexivity | discriminate]|].
    destruct (parent_missing _ _ _) eqn:E3;
      [left; do 2 eexists; split; [reflexivity | discriminate]|].
    destruct (inserted _ _ _) as [row|] eqn:E4;
      [|left; do 2 eexists; split; [reflexivity | discriminate]].
    right. exists u, body, row. repeat split; auto; apply Ha || apply Hb.
  - left. destruct (folder_POST_entry env request db H) as (msg & st & E & Hs).
    exists msg, st. split; [exact E|]. destruct Hs as [-> | ->]; discriminate.
Qed.

Lemma upload_POST_cases (env : Env) (request : NextRequest.t) (db : Db) :
  (exists msg st,
      UploadRoute.POST env request db
      = (NextResponse.json (Error msg) st, db) /\ st <> 200%N)
  \/ (exists u body path row,
         authenticated env u /\ parsed request body
         /\ strict_equals (get body (js "userId")) (JStr u) = true
         /\ truthy (get (get body (js "imagekit")) (js "url")) = true
         /\ upload_path env u (get body (js "imagekit")) = Some path
         /\ inserted env (UploadRoute.fileData u (get body (js "imagekit"))
                            path) db = Some row
         /\ UploadRoute.POST env request db
            = (NextResponse.json (FileRow (Some row)) 200, db ++ [row])).
Proof.
  destruct (entry_cases env request) as [(u & body & Ha & Hb) | H].
  - rewrite (upload_POST_parsed env request db u body Ha Hb).
    destruct (strict_equals _ _) eqn:E1; cbn [negb];
      [|left; do 2 eexists; split; [reflexivity | discriminate]].
    destruct (truthy (get body (js "imagekit"))); cbn [negb orb];
      [|left; do 2 eexists; split; [reflexivity | discriminate]].
    destruct (truthy (get (get body (js "imagekit")) (js "url"))) eqn:Hu;
      cbn [negb];
      [|left; do 2 eexists; split; [reflexivity | discriminate]].
    destruct (upload_path _ _ _) as [path|] eqn:E3;
      [|left; do 2 eexists; split; [reflexivity | discriminate]].
    destruct (inserted _ _ _) as [row|] eqn:E4;
      [|left; do 2 eexists; split; [reflexivity | discriminate]].
    right. exists u, body, path, row.
    repeat split; auto; apply Ha || apply Hb.
  - left. destruct (upload_POST_entry env request db H) as (msg & st & E & Hs).
    exists msg, st. split; [exact E|]. destruct Hs as [-> | ->]; discriminate.
Qed.

(** The name test of the folder handler lets through exactly the strings
    that hold a character other than whitespace. *)
Lemma name_rejected_false (name : JsVal) :
  FoldersCreateRoute.name_rejected name = false
  <-> exists s, name = JStr s /\ forallb is_whitespace s = false.
Proof.
  unfold FoldersCreateRoute.name_rejected. split.
  - destruct name as [| |b|n|s|l|o|z]; simpl;
      try (rewrite ?orb_true_r; discriminate).
    intros H. exists s. split; [reflexivity|].
    rewrite orb_false_r in H. apply orb_false_iff in H as [_ H].
    apply jseqb_neq in H.
    destruct (forallb is_whitespace s) eqn:E; [|reflexivity].
    apply trim_nil in E. contradiction.
  - intros (s & -> & H). simpl. rewrite orb_false_r.
    apply orb_false_iff. split.
    + destruct s; [discriminate H | reflexivity].
    + apply jseqb_neq. intros E. apply trim_nil in E. congruence.
Qed.

Lemma name_rejected_true (name : JsVal) :
  name = JUndefined
  \/ typeof name <> "string"%string
  \/ (exists s, name = JStr s /\ forallb is_whitespace s = true) ->
  FoldersCreateRoute.name_rejected name = true.
Proof.
  intros H. destruct (FoldersCreateRoute.name_rejected name) eqn:E;
    [reflexivity|].
  apply name_rejected_false in E as (s & -> & Hs).
  destruct H as [H | [H | (t & Ht & Hws)]];
    [discriminate H | contradiction H; reflexivity | congruence].
Qed.

(** Closing a premise on the sample data by evaluation. *)
Ltac evaluated :=
  match goal with
  | |- authenticated _ _ => split; [vm_compute; reflexivity | vm_compute; discriminate]
  | |- parsed _ _ => split; [vm_compute; reflexivity | split; vm_compute; discriminate]
  | |- plain_text _ => split; vm_compute; reflexivity
  | |- _ <> _ => vm_compute; discriminate
  | |- _ => vm_compute; reflexivity
  end.

Lemma same_uuid_not_null (a : JsVal) : ~ same_uuid a JNull.
Proof. intros (x & y & d & _ & E & _). discriminate E. Qed.

Lemma holds_listing_condition (u : jsstring) (request : NextRequest.t)
      (r : File.t) :
  drizzle.holds (listing_condition u request) r = true
  <-> File.userId r = u /\ in_listed_folder request r.
Proof.
  unfold listing_condition, in_listed_folder, listed_parent.
  destruct (NextRequest.searchParams_get request (js "parentId"))
    as [[|c p]|].
  - rewrite holds_owner_and_root. split; [tauto|].
    intros [Hu [[_ H] | H]]; [auto | destruct (same_uuid_not_null _ H)].
  - rewrite holds_owner_and_parent. split; [tauto|].
    intros [Hu [[H _] | H]]; [discriminate H | auto].
  - rewrite holds_owner_and_root. split; [tauto|].
    intros [Hu [[_ H] | H]]; [auto | destruct (same_uuid_not_null _ H)].
Qed.

(** A listing in the session of [u] that names [u] selects with
    [listing_condition] when the select takes its [parentId], and ends in
    the catch branch when it does not. *)
Lemma GET_listing (env : Env) (request : NextRequest.t) (db : Db)
      (u : jsstring) :
  authenticated env u ->
  NextRequest.searchParams_get request (js "userId") = Some u ->
  (listable request ->
   FilesRoute.GET env request db
   = (NextResponse.json
        (Files (filter (drizzle.holds (listing_condition u request)) db)) 200,
      db))
  /\ (~ listable request ->
      FilesRoute.GET env request db
      = (NextResponse.json (Error "Failed to fetch files") 500, db)).
Proof.
  intros Ha Hq. unfold listable, listing_condition, listed_parent.
  destruct (NextRequest.searchParams_get request (js "parentId"))
    as [[|c p]|] eqn:Hp.
  - split; [intros _ | tauto].
    apply (GET_at_root env request db u Ha Hq (or_intror Hp)).
  - rewrite (GET_with_parent env request db u c p Ha Hq Hp).
    destruct (uuid_in (c :: p)); split; intros H; try reflexivity.
    + destruct H. discriminate.
    + destruct H. reflexivity.
  - split; [intros _ | tauto].
    apply (GET_at_root env request db u Ha Hq (or_introl Hp)).
Qed.

Lemma listable_dec (request : NextRequest.t) :
  listable request \/ ~ listable request.
Proof.
  unfold listable.
  destruct (NextRequest.searchParams_get request (js "parentId"))
    as [[|c p]|]; auto.
  destruct (uuid_in (c :: p)); [left; discriminate | right; tauto].
Qed.

Lemma GET_cases (env : Env) (request : NextRequest.t) :
  (exists u, authenticated env u
             /\ NextRequest.searchParams_get request (js "userId") = Some u)
  \/ (~ (exists u, authenticated env u
                   /\ NextRequest.searchParams_get request (js "userId")
                      = Some u)
      /\ forall db, FilesRoute.GET env request db
                    = (NextResponse.json (Error "Unauthorized") 401, db)).
Proof.
  destruct (auth env) as [[|c u]|] eqn:Ha.
  - right. split.
    + intros (v & [Hv Hne] & _). congruence.
    + intros db. unfold FilesRoute.GET. rewrite Ha. reflexivity.
  - assert (Hu : authenticated env (c :: u))
      by (split; [exact Ha | discriminate]).
    destruct (NextRequest.searchParams_get request (js "userId")) as [q|] eqn:Hq.
    + destruct (jseqb q (c :: u)) eqn:E.
      * apply jseqb_eq in E. subst q. left. exists (c :: u). auto.
      * apply jseqb_neq in E. right. split.
        -- intros (v & [Hv _] & Hq'). congruence.
        -- intros db.
           apply (GET_identity_mismatch env request db (c :: u) Hu).
           rewrite Hq. congruence.
    + right. split.
      * intros (v & _ & Hq'). discriminate Hq'.
      * intros db.
        apply (GET_identity_mismatch env request db (c :: u) Hu).
        rewrite Hq. discriminate.
  - right. split.
    + intros (v & [Hv _] & _). congruence.
    + intros db. unfold FilesRoute.GET. rewrite Ha. reflexivity.
Qed.

(** What a 200 of the listing tells. *)
Lemma GET_success (env : Env) (request : NextRequest.t) (db db' : Db)
      (rows : list File.t) :
  FilesRoute.GET env request db = (NextResponse.json (Files rows) 200, db') ->
  exists u,
    authenticated env u
    /\ NextRequest.searchParams_get request (js "userId") = Some u
    /\ listable request
    /\ rows = filter (drizzle.holds (listing_condition u request)) db
    /\ db' = db.
Proof.
  intros H.
  destruct (GET_cases env request) as [(u & Ha & Hq) | [_ Hno]];
    [|rewrite Hno in H; discriminate H].
  destruct (GET_listing env request db u Ha Hq) as [Hyes Hnot].
  destruct (listable_dec request) as [Hl | Hl].
  - rewrite (Hyes Hl) in H. injection H as <- <-. exists u. auto.
  - rewrite (Hnot Hl) in H. discriminate H.
Qed.

(** The scenario of the specification, run on an empty table: [U1] creates
    the folder "Vacation" at the root and records the upload of [x.jpg];
    listing the root then gives both rows, listing the new folder none. *)
Example vacation_scenario :
  exists folder file,
    FoldersCreateRoute.POST (env_of U1)
      (post_request (folder_body (js "Vacation") U1 (Some JNull))) []
    = (NextResponse.json
         (FolderCreated true "Folder created successfully" (Some folder)) 200,
       [folder])
    /\ (File.isFolder folder, File.userId folder, File.parentId folder)
       = (true, U1, JNull)
    /\ UploadRoute.POST (env_of U1)
         (post_request (upload_body U1 imagekit_result [])) [folder]
       = (NextResponse.json (FileRow (Some file)) 200, [folder; file])
    /\ (File.size file, File.isFolder file, File.parentId file)
       = (JNum 1024, false, JNull)
    /\ FilesRoute.GET (env_of U1) (list_request U1 None) [folder; file]
       = (NextResponse.json (Files [folder; file]) 200, [folder; file])
    /\ FilesRoute.GET (env_of U1) (list_request U1 (Some (File.id folder)))
         [folder; file]
       = (NextResponse.json (Files []) 200, [folder; file]).
Proof.
  destruct (inserted (env_of U1)
              (FoldersCreateRoute.folderData (env_of U1) U1
                 (JStr (js "Vacation")) JNull) []) as [folder|] eqn:Ef;
    [|vm_compute in Ef; discriminate Ef].
  destruct (inserted (env_of U1)
              (UploadRoute.fileData U1 imagekit_result
                 (JStr (js "/droply/user_U1/x.jpg"))) [folder])
    as [file|] eqn:Eu;
    [|vm_compute in Ef; injection Ef as <-; vm_compute in Eu; discriminate Eu].
  exists folder, file.
  vm_compute in Ef. injection Ef as <-.
  vm_compute in Eu. injection Eu as <-.
  repeat split; vm_compute; reflexivity.
Qed.

(** The typed columns at work on the sample table: a uuid is matched
    whatever its spelling and is given back in the engine's; a [parentId]
    that is no uuid makes the select or the insert throw; a size sent as a
    string comes back as a number; a name with its own [toString] makes the
    template literal of the path throw. *)
Example typed_columns_scenario :
  uuid_in (js "{11111111111141118111-111111111111}") = uuid_in F1
  /\ option_map uuid_out (uuid_in (js "ABCDEF00-0000-4000-8000-00000000000A"))
     = Some (js "abcdef00-0000-4000-8000-00000000000a")
  /\ FilesRoute.GET (env_of U1)
       (list_request U1 (Some (js "11111111111141118111111111111111")))
       sample_db
     = (NextResponse.json (Files [file_row X1 U1 (JStr F1) true true]) 200,
        sample_db)
  /\ FilesRoute.GET (env_of U1) (list_request U1 (Some (js "abc"))) sample_db
     = (NextResponse.json (Error "Failed to fetch files") 500, sample_db)
  /\ FoldersCreateRoute.POST (env_of U1)
       (post_request (folder_body (js "Trips") U1 (Some (JNum 0)))) sample_db
     = (NextResponse.json (Error "Failed to create folder") 500, sample_db)
  /\ (exists file,
        UploadRoute.POST (env_of U1)
          (post_request
             (upload_body U1
                (JObj [(js "url", JStr (js "https://cdn/x.jpg"));
                       (js "size", JStr (js "12"))]) []))
          sample_db
        = (NextResponse.json (FileRow (Some file)) 200, sample_db ++ [file])
        /\ File.size file = JNum 12)
  /\ UploadRoute.POST (env_of U1)
       (post_request
          (upload_body U1
             (JObj [(js "url", JStr (js "https://cdn/x.jpg"));
                    (js "name", JObj [(js "toString", JNum 1)])]) []))
       sample_db
     = (NextResponse.json (Error "Failed to save file information") 500,
        sample_db).
Proof.
  repeat split; try (vm_compute; reflexivity).
  eexists. split; vm_compute; reflexivity.
Qed.

(* ------------------------------------------------------------------ *)
(** ** Directory listing *)

(** C1, as amended.  For a caller [u] whose request names [u] as [userId]:
    whatever the [parentId] parameter is, every row the listing answers with
    is a row of the table that belongs to [u], whatever other owners store
    under the same parent id; for a [parentId] parameter [p] that is a uuid
    the answer is 200 with exactly the rows whose owner is [u] and whose
    [parentId] is that uuid; an empty [parentId] is handled like an absent
    one, the answer is 200 with the selection [userId = u AND parentId IS
    NULL], exactly the rows of [u] at the root; and a
    [parentId] that is neither empty nor a uuid ends in the catch branch,
    500 and no rows. *)
Theorem listing_owner_and_uuid_parent :
  forall (env : Env) (request : NextRequest.t) (db : Db) (u : jsstring),
    authenticated env u ->
    NextRequest.searchParams_get request (js "userId") = Some u ->
    (forall r, In r (listed (FilesRoute.GET env request db)) ->
               In r db /\ File.userId r = u)
    /\ (forall p,
           NextRequest.searchParams_get request (js "parentId") = Some p ->
           uuid_in p <> None ->
           lists_children_of env request db u p)
    /\ (NextRequest.searchParams_get request (js "parentId") = Some [] ->
        exists rows,
          FilesRoute.GET env request db
          = (NextResponse.json (Files rows) 200, db)
          /\ rows = filter (drizzle.holds
                              (drizzle.and [drizzle.eq files.userId (JStr u);
                                            drizzle.isNull files.parentId])) db
          /\ forall r, In r rows <->
                       In r db /\ File.userId r = u
                       /\ File.parentId r = JNull)
    /\ (forall p,
           NextRequest.searchParams_get request (js "parentId") = Some p ->
           p <> [] ->
           uuid_in p = None ->
           FilesRoute.GET env request db
           = (NextResponse.json (Error "Failed to fetch files") 500, db)).
Proof.
  intros env request db u Ha Hq.
  destruct (GET_listing env request db u Ha Hq) as [Hyes Hnot].
  split; [|split; [|split]].
  - destruct (listable_dec request) as [Hl | Hl].
    + rewrite (Hyes Hl). unfold listed. cbn. intros r Hr.
      apply filter_In in Hr as [Hin Hh].
      apply holds_listing_condition in Hh. tauto.
    + rewrite (Hnot Hl). intros r [].
  - intros [|c p] Hp Hu; [destruct Hu; reflexivity|].
    unfold lists_children_of.
    rewrite (GET_with_parent env request db u c p Ha Hq Hp).
    destruct (uuid_in (c :: p)); [|congruence].
    eexists; split; [reflexivity|]. intros r.
    rewrite filter_In, holds_owner_and_parent. tauto.
  - intros Hp. rewrite (GET_at_root env request db u Ha Hq (or_intror Hp)).
    eexists; split; [reflexivity|]. split; [reflexivity|]. intros r.
    rewrite filter_In, holds_owner_and_root. tauto.
  - intros [|c p] Hp Hne Hu; [congruence|].
    rewrite (GET_with_parent env request db u c p Ha Hq Hp), Hu. reflexivity.
Qed.

(** [U1] lists its folder [F1], writing the id in braces. *)
Lemma listing_owner_and_uuid_parent_witness :
  lists_children_of (env_of U1)
    (list_request U1 (Some (js "{11111111-1111-4111-8111-111111111111}")))
    sample_db U1 (js "{11111111-1111-4111-8111-111111111111}").
Proof.
  apply (proj1 (proj2 (listing_owner_and_uuid_parent
                         (env_of U1)
                         (list_request U1
                            (Some (js "{11111111-1111-4111-8111-111111111111}")))
                         sample_db U1
                         ltac:(evaluated) ltac:(evaluated)))
           (js "{11111111-1111-4111-8111-111111111111}")); evaluated.
Defined.

(** C1 as stated fails on two kinds of parent id.  On an empty [parentId]
    parameter ([?userId=user_U1&parentId=]) the handler lists the root,
    while no row has the empty string as its parent; on a [parentId] that
    is not a uuid ([?userId=user_U1&parentId=abc]) the select throws and
    the answer is 500, not a list of rows. *)
Lemma listing_empty_or_malformed_parent :
  authenticated (env_of U1) U1
  /\ FilesRoute.GET (env_of U1) (list_request U1 (Some [])) sample_db
     = (NextResponse.json
          (Files [folder_row F1 U1 JNull; file_row X2 U1 JNull false false])
          200, sample_db)
  /\ ~ lists_children_of (env_of U1) (list_request U1 (Some [])) sample_db
         U1 []
  /\ FilesRoute.GET (env_of U1) (list_request U1 (Some (js "abc"))) sample_db
     = (NextResponse.json (Error "Failed to fetch files") 500, sample_db)
  /\ ~ lists_children_of (env_of U1) (list_request U1 (Some (js "abc")))
         sample_db U1 (js "abc").
Proof.
  assert (E : FilesRoute.GET (env_of U1) (list_request U1 (Some [])) sample_db
              = (NextResponse.json
                   (Files [folder_row F1 U1 JNull;
                           file_row X2 U1 JNull false false])
                   200, sample_db))
    by (vm_compute; reflexivity).
  assert (E' : FilesRoute.GET (env_of U1) (list_request U1 (Some (js "abc")))
                 sample_db
               = (NextResponse.json (Error "Failed to fetch files") 500,
                  sample_db))
    by (vm_compute; reflexivity).
  split; [evaluated|]. split; [exact E|]. split; [|split; [exact E'|]].
  - intros (rows & Hget & Hiff). rewrite E in Hget.
    injection Hget as <-.
    destruct (proj1 (Hiff (folder_row F1 U1 JNull)) (or_introl eq_refl))
      as (_ & _ & (x & y & d & Hx & _)).
    discriminate Hx.
  - intros (rows & Hget & _). rewrite E' in Hget. discriminate Hget.
Qed.

(** C2.  Without a [parentId] parameter the handler selects with
    [userId = u AND parentId IS NULL]: it answers with exactly the caller's
    rows whose [parentId] is null, so with no row that has a parent; the
    same selection written with an equality against null would be empty. *)
Theorem listing_root_uses_is_null :
  forall (env : Env) (request : NextRequest.t) (db : Db) (u : jsstring),
    authenticated env u ->
    NextRequest.searchParams_get request (js "userId") = Some u ->
    NextRequest.searchParams_get request (js "parentId") = None ->
    exists rows,
      FilesRoute.GET env request db = (NextResponse.json (Files rows) 200, db)
      /\ rows = filter (drizzle.holds
                          (drizzle.and [drizzle.eq files.userId (JStr u);
                                        drizzle.isNull files.parentId])) db
      /\ (forall r, In r rows <->
                    In r db /\ File.userId r = u /\ File.parentId r = JNull)
      /\ filter (drizzle.holds
                   (drizzle.and [drizzle.eq files.userId (JStr u);
                                 drizzle.eq files.parentId JNull])) db = [].
Proof.
  intros env request db u Ha Hq Hp.
  rewrite (GET_at_root env request db u Ha Hq (or_introl Hp)).
  eexists; split; [reflexivity|]. split; [reflexivity|]. split.
  - intros r. rewrite filter_In, holds_owner_and_root. tauto.
  - apply filter_nil. intros r _. apply holds_eq_null.
Qed.

Lemma listing_root_uses_is_null_witness :
  exists rows,
    FilesRoute.GET (env_of U1) (list_request U1 None) sample_db
    = (NextResponse.json (Files rows) 200, sample_db)
    /\ rows = filter (drizzle.holds
                        (drizzle.and [drizzle.eq files.userId (JStr U1);
                                      drizzle.isNull files.parentId])) sample_db
    /\ (forall r, In r rows <->
                  In r sample_db /\ File.userId r = U1 /\ File.parentId r = JNull)
    /\ filter (drizzle.holds
                 (drizzle.and [drizzle.eq files.userId (JStr U1);
                               drizzle.eq files.parentId JNull])) sample_db = [].
Proof.
  apply (listing_root_uses_is_null (env_of U1) (list_request U1 None)
           sample_db U1); evaluated.
Defined.

(** C9.  The listing filters on owner and parent only: whenever it answers
    200, every row of the table that belongs to the caller and lies in the
    listed folder is in the answer, whatever its [isTrash] and [isStarred]
    flags are. *)
Theorem listing_keeps_trashed_and_starred :
  forall (env : Env) (request : NextRequest.t) (db db' : Db)
         (rows : list File.t) (u : jsstring),
    FilesRoute.GET env request db
    = (NextResponse.json (Files rows) 200, db') ->
    authenticated env u ->
    forall (r : File.t) (trash starred : bool),
      In r db ->
      File.userId r = u ->
      in_listed_folder request r ->
      File.isTrash r = trash -> File.isStarred r = starred ->
      In r rows.
Proof.
  intros env request db db' rows u Hget Ha r trash starred Hin Hu Hf _ _.
  apply GET_success in Hget as (v & Hv & _ & _ & -> & _).
  rewrite (authenticated_unique env u v Ha Hv) in Hu.
  apply filter_In. split; [exact Hin|].
  apply holds_listing_condition. auto.
Qed.

Lemma listing_keeps_trashed_and_starred_witness :
  In (file_row X1 U1 (JStr F1) true true)
     (listed (FilesRoute.GET (env_of U1) (list_request U1 (Some F1))
                sample_db)).
Proof.
  apply (listing_keeps_trashed_and_starred
           (env_of U1) (list_request U1 (Some F1)) sample_db sample_db
           (listed (FilesRoute.GET (env_of U1) (list_request U1 (Some F1))
                      sample_db))
           U1 ltac:(evaluated) ltac:(evaluated)
           (file_row X1 U1 (JStr F1) true true) true true);
    [right; left; reflexivity | evaluated | | evaluated | evaluated].
  right. exists F1, F1. eexists. repeat split; vm_compute; reflexivity.
Defined.

(* ------------------------------------------------------------------ *)
(** ** Folder creation *)

Lemma integer_column_zero (env : Env) :
  notNull (integer_column env (JNum 0)) = Some (JNum 0).
Proof. vm_compute. reflexivity. Qed.

Lemma has_nul_literal (s : string) (u v : jsstring) :
  has_nul (js s) = false -> has_nul u = false -> has_nul v = false ->
  has_nul (js s ++ u ++ js "/" ++ v) = false.
Proof.
  intros H1 H2 H3. rewrite !has_nul_app, H1, H2, H3. reflexivity.
Qed.

(** The row the folder handler stores, when the surroundings behave, the
    name holds no U+0000 and the parent column takes the [parentId]. *)
Lemma folder_inserted (env : Env) (db : Db) (u s : jsstring) (p cell : JsVal) :
  sane env db -> auth env = Some u -> has_nul s = false ->
  uuid_column p = Some cell ->
  exists digits,
    uuid_in (uuidv4 env 0) = Some digits
    /\ inserted env (FoldersCreateRoute.folderData env u (JStr s) p) db
       = Some {| File.id := uuid_out digits;
                 File.name := JStr (trim s);
                 File.path :=
                   JStr (js "/folders/" ++ u ++ js "/" ++ uuidv4 env 1);
                 File.size := JNum 0;
                 File.type := JStr (js "folder");
                 File.fileUrl := JStr [];
                 File.thumbnailUrl := JNull;
                 File.userId := u;
                 File.parentId := cell;
                 File.isFolder := true;
                 File.isStarred := false;
                 File.isTrash := false;
                 File.createdAt := defaultNow env;
                 File.updatedAt := defaultNow env |}.
Proof.
  intros (Hu & Hv & Hf & _) Ha Hs Hp.
  destruct (fresh_uuid_free _ db Hf) as (digits & Hi & Hfree).
  exists digits. split; [exact Hi|].
  apply inserted_intro; [|exact Hfree].
  apply (stored_intro env (FoldersCreateRoute.folderData env u (JStr s) p)
           (JStr (trim s))
           (JStr (js "/folders/" ++ u ++ js "/" ++ uuidv4 env 1))
           (JNum 0) (JStr (js "folder")) (JStr []) JNull cell
           (uuid_out digits)).
  - apply text_column_plain. rewrite has_nul_trim. exact Hs.
  - apply text_column_plain.
    apply has_nul_literal; [reflexivity | exact (Hu u Ha) | apply Hv].
  - apply integer_column_zero.
  - reflexivity.
  - reflexivity.
  - reflexivity.
  - exact Hp.
  - cbn [NewFile.id FoldersCreateRoute.folderData]. rewrite Hi. reflexivity.
  - exact (Hu u Ha).
Qed.

(** A value a column refuses makes the insert throw. *)
Lemma inserted_refused (env : Env) (v : NewFile.t) (db : Db) :
  text_column env (NewFile.name v) = None
  \/ integer_column env (NewFile.size v) = None
  \/ uuid_column (NewFile.parentId v) = None ->
  inserted env v db = None.
Proof.
  intros H. destruct (inserted env v db) as [row|] eqn:E; [|reflexivity].
  apply inserted_some in E as [E _].
  apply stored_some in E as (H1 & _ & H3 & _ & _ & _ & H7 & _).
  apply notNull_some in H1 as [H1 _]. apply notNull_some in H3 as [H3 _].
  destruct H as [H | [H | H]]; congruence.
Qed.

(** C3, as amended.  For a caller [u] whose body names [u] as [userId]: a
    name that is absent, is not a string, or is whitespace only is answered
    with 400 and nothing is created.  A string with a character other than
    whitespace and no [parentId] (absent or null) is answered with 500 and
    nothing is created when it holds U+0000, which the [text] column
    refuses; when it is plain text, and the surroundings behave, it is
    answered with 200 and the created row, which is appended to the table
    and has [parentId = null], [isFolder = true] and [size = 0]. *)
Theorem folder_name_validation :
  forall (env : Env) (request : NextRequest.t) (db : Db)
         (u : jsstring) (body : JsVal),
    authenticated env u ->
    parsed request body ->
    get body (js "userId") = JStr u ->
    (get body (js "name") = JUndefined
     \/ typeof (get body (js "name")) <> "string"%string
     \/ (exists s, get body (js "name") = JStr s
                   /\ forallb is_whitespace s = true) ->
     FoldersCreateRoute.POST env request db
     = (NextResponse.json (Error "Folder name is required") 400, db))
    /\ (forall s,
           get body (js "name") = JStr s ->
           forallb is_whitespace s = false ->
           get body (js "parentId") = JUndefined
           \/ get body (js "parentId") = JNull ->
           (has_nul s = true ->
            FoldersCreateRoute.POST env request db
            = (NextResponse.json (Error "Failed to create folder") 500, db))
           /\ (plain_text s ->
               sane env db ->
               exists folder,
                 FoldersCreateRoute.POST env request db
                 = (NextResponse.json
                      (FolderCreated true "Folder created successfully"
                                     (Some folder)) 200,
                    db ++ [folder])
                 /\ File.parentId folder = JNull
                 /\ File.isFolder folder = true
                 /\ File.size folder = JNum 0)).
Proof.
  intros env request db u body Ha Hb Hid.
  rewrite (folder_POST_parsed env request db u body Ha Hb), Hid.
  assert (E : strict_equals (JStr u) (JStr u) = true)
    by (apply strict_equals_JStr; reflexivity).
  rewrite E. cbn [negb]. split.
  - intros H. rewrite (name_rejected_true _ H). reflexivity.
  - intros s Hs Hws Hp.
    assert (Hn : FoldersCreateRoute.name_rejected (get body (js "name")) = false)
      by (apply name_rejected_false; exists s; auto).
    rewrite Hn.
    assert (Hpar : parentId_of body = JNull)
      by (unfold parentId_of; destruct Hp as [-> | ->]; reflexivity).
    unfold parent_missing. rewrite Hpar, Hs. cbn [truthy andb]. split.
    + intros Hnul. rewrite inserted_refused; [reflexivity|].
      left. cbn [NewFile.name FoldersCreateRoute.folderData String_trim].
      unfold text_column. rewrite has_nul_trim, Hnul. reflexivity.
    + intros [Hnul _] Hsane.
      destruct (folder_inserted env db u s JNull JNull Hsane (proj1 Ha) Hnul
                  eq_refl) as (digits & _ & ->).
      eexists; split; [reflexivity|]. repeat split.
Qed.

Lemma folder_name_validation_witness :
  FoldersCreateRoute.POST (env_of U1)
    (post_request (folder_body (js "   ") U1 None)) sample_db
  = (NextResponse.json (Error "Folder name is required") 400, sample_db)
  /\ FoldersCreateRoute.POST (env_of U1)
       (post_request (folder_body [97; 0; 98]%N U1 None)) sample_db
     = (NextResponse.json (Error "Failed to create folder") 500, sample_db)
  /\ exists folder,
      FoldersCreateRoute.POST (env_of U1)
        (post_request (folder_body (js "Vacation") U1 None)) sample_db
      = (NextResponse.json
           (FolderCreated true "Folder created successfully" (Some folder))
           200, sample_db ++ [folder])
      /\ File.parentId folder = JNull
      /\ File.isFolder folder = true
      /\ File.size folder = JNum 0.
Proof.
  split; [|split].
  - apply (proj1 (folder_name_validation (env_of U1)
                    (post_request (folder_body (js "   ") U1 None)) sample_db
                    U1 (folder_body (js "   ") U1 None)
                    ltac:(evaluated) ltac:(evaluated) ltac:(evaluated))).
    right; right. exists (js "   "). split; evaluated.
  - refine (proj1 (proj2 (folder_name_validation (env_of U1)
                     (post_request (folder_body [97; 0; 98]%N U1 None))
                     sample_db U1 (folder_body [97; 0; 98]%N U1 None)
                     ltac:(evaluated) ltac:(evaluated) ltac:(evaluated))
              [97; 0; 98]%N _ _ (or_introl _)) _); evaluated.
  - refine (proj2 (proj2 (folder_name_validation (env_of U1)
                     (post_request (folder_body (js "Vacation") U1 None))
                     sample_db U1 (folder_body (js "Vacation") U1 None)
                     ltac:(evaluated) ltac:(evaluated) ltac:(evaluated))
              (js "Vacation") _ _ (or_introl _)) _ _); try evaluated.
    split; [intros u H; injection H as <-; evaluated|].
    split; [intros n; destruct n; evaluated|].
    split; eexists; (split; [evaluated|]);
      intros r Hr;
      repeat (destruct Hr as [<- | Hr]; [vm_compute; discriminate|]);
      destruct Hr.
Defined.

(** C3 as stated fails on a name that holds U+0000: the name passes the
    validation, the [text] column refuses it, and the answer is 500 with
    nothing created, not a success. *)
Lemma folder_name_with_nul_is_500 :
  authenticated (env_of U1) U1
  /\ parsed (post_request (folder_body [97; 0; 98]%N U1 None))
            (folder_body [97; 0; 98]%N U1 None)
  /\ get (folder_body [97; 0; 98]%N U1 None) (js "userId") = JStr U1
  /\ get (folder_body [97; 0; 98]%N U1 None) (js "name") = JStr [97; 0; 98]%N
  /\ forallb is_whitespace [97; 0; 98]%N = false
  /\ get (folder_body [97; 0; 98]%N U1 None) (js "parentId") = JUndefined
  /\ FoldersCreateRoute.POST (env_of U1)
       (post_request (folder_body [97; 0; 98]%N U1 None)) sample_db
     = (NextResponse.json (Error "Failed to create folder") 500, sample_db).
Proof. repeat split; try discriminate; vm_compute; reflexivity. Qed.

(** C4, as amended.  For a caller [u] whose body names [u] as [userId] and
    carries an accepted name, and a [parentId] the body supplies.  When it
    is a uuid and the table has no row with that id, owner [u] and
    [isFolder = true] (the row may exist and belong to someone else, or be
    a file), the answer is 404, not 401, and nothing is created.  When it
    is anything else (a string that is not a uuid, a number, a boolean, an
    array, an object), the database refuses it: the answer is 500 and
    nothing is created. *)
Theorem folder_parent_not_found :
  forall (env : Env) (request : NextRequest.t) (db : Db)
         (u : jsstring) (body parentId : JsVal),
    authenticated env u ->
    parsed request body ->
    get body (js "userId") = JStr u ->
    FoldersCreateRoute.name_rejected (get body (js "name")) = false ->
    get body (js "parentId") = parentId ->
    (forall p,
        parentId = JStr p ->
        uuid_in p <> None ->
        (forall r, In r db ->
                   ~ (same_uuid (JStr (File.id r)) parentId
                      /\ File.userId r = u
                      /\ File.isFolder r = true)) ->
        FoldersCreateRoute.POST env request db
        = (NextResponse.json (Error "Parent folder not found") 404, db)
        /\ NextResponse.status (fst (FoldersCreateRoute.POST env request db))
           <> 401%N)
    /\ (parentId <> JUndefined ->
        parentId <> JNull ->
        (forall p, parentId = JStr p -> uuid_in p = None) ->
        FoldersCreateRoute.POST env request db
        = (NextResponse.json (Error "Failed to create folder") 500, db)).
Proof.
  intros env request db u body parentId Ha Hb Hid Hn Hp.
  rewrite (folder_POST_parsed env request db u body Ha Hb), Hid, Hn.
  assert (E : strict_equals (JStr u) (JStr u) = true)
    by (apply strict_equals_JStr; reflexivity).
  rewrite E. cbn [negb]. split.
  - intros p Hs Hu Hnone.
    assert (Hpar : parentId_of body = parentId)
      by (unfold parentId_of; rewrite Hp, Hs; reflexivity).
    assert (Ht : truthy parentId = true).
    { rewrite Hs. destruct p; [destruct Hu; reflexivity | reflexivity]. }
    rewrite Hpar.
    assert (Hok : drizzle.parameter_ok files.id parentId = true).
    { apply (parameter_ok_uuid files.id parentId eq_refl Ht).
      exists p. auto. }
    rewrite Hok, Ht. cbn [negb andb].
    assert (Hm : parent_missing u parentId db = true)
      by (apply parent_missing_true; auto).
    rewrite Hm. split; [reflexivity | discriminate].
  - intros Hu Hnull Hs.
    assert (Hpar : parentId_of body = parentId)
      by (unfold parentId_of; rewrite Hp; destruct parentId;
          try reflexivity; congruence).
    rewrite Hpar.
    destruct (truthy parentId) eqn:Ht; cbn [andb].
    + assert (Hok : drizzle.parameter_ok files.id parentId = false).
      { destruct (drizzle.parameter_ok files.id parentId) eqn:Eo;
          [|reflexivity].
        apply (parameter_ok_uuid files.id parentId eq_refl Ht) in Eo
          as (p & Ep & Hv).
        destruct (Hv (Hs p Ep)). }
      rewrite Hok. reflexivity.
    + unfold parent_missing. rewrite Ht. cbn [andb].
      rewrite inserted_refused; [reflexivity|].
      right; right. cbn [NewFile.parentId FoldersCreateRoute.folderData].
      destruct parentId as [| |?|?|p|?|?|?]; try reflexivity; try congruence.
      unfold uuid_column. rewrite (Hs p eq_refl). reflexivity.
Qed.

(** [U1] names as parent the folder [F2] of [U2], then its own file [X1],
    then something that is no uuid. *)
Lemma folder_parent_not_found_witness :
  FoldersCreateRoute.POST (env_of U1)
    (post_request (folder_body (js "Trips") U1 (Some (JStr F2)))) sample_db
  = (NextResponse.json (Error "Parent folder not found") 404, sample_db)
  /\ FoldersCreateRoute.POST (env_of U1)
       (post_request (folder_body (js "Trips") U1 (Some (JStr X1)))) sample_db
     = (NextResponse.json (Error "Parent folder not found") 404, sample_db)
  /\ FoldersCreateRoute.POST (env_of U1)
       (post_request (folder_body (js "Trips") U1 (Some (JStr []))))
       sample_db
     = (NextResponse.json (Error "Failed to create folder") 500, sample_db).
Proof.
  split; [|split].
  - apply (proj1 (folder_parent_not_found (env_of U1)
             (post_request (folder_body (js "Trips") U1 (Some (JStr F2))))
             sample_db U1 (folder_body (js "Trips") U1 (Some (JStr F2)))
             (JStr F2) ltac:(evaluated) ltac:(evaluated) ltac:(evaluated)
             ltac:(evaluated) ltac:(evaluated)) F2 eq_refl ltac:(evaluated)).
    intros r Hr ((x & y & d & Hx & Hy & Hdx & Hdy) & Hu & Hf).
    injection Hx as <-. injection Hy as <-.
    repeat (destruct Hr as [<- | Hr];
            [vm_compute in Hdx, Hdy, Hu, Hf; congruence|]).
    destruct Hr.
  - apply (proj1 (folder_parent_not_found (env_of U1)
             (post_request (folder_body (js "Trips") U1 (Some (JStr X1))))
             sample_db U1 (folder_body (js "Trips") U1 (Some (JStr X1)))
             (JStr X1) ltac:(evaluated) ltac:(evaluated) ltac:(evaluated)
             ltac:(evaluated) ltac:(evaluated)) X1 eq_refl ltac:(evaluated)).
    intros r Hr ((x & y & d & Hx & Hy & Hdx & Hdy) & Hu & Hf).
    injection Hx as <-. injection Hy as <-.
    repeat (destruct Hr as [<- | Hr];
            [vm_compute in Hdx, Hdy, Hu, Hf; congruence|]).
    destruct Hr.
  - apply (proj2 (folder_parent_not_found (env_of U1)
             (post_request (folder_body (js "Trips") U1 (Some (JStr []))))
             sample_db U1 (folder_body (js "Trips") U1 (Some (JStr [])))
             (JStr []) ltac:(evaluated) ltac:(evaluated) ltac:(evaluated)
             ltac:(evaluated) ltac:(evaluated)));
      [discriminate | discriminate |].
    intros p Hp. injection Hp as <-. reflexivity.
Defined.

(** C4 as stated fails on a [parentId] that is not a uuid: the table has no
    row with the id ["abc"], yet the answer is 500, not 404, because the
    select of the parent check throws. *)
Lemma folder_malformed_parent_is_500 :
  authenticated (env_of U1) U1
  /\ get (folder_body (js "Trips") U1 (Some (JStr (js "abc")))) (js "parentId")
     = JStr (js "abc")
  /\ (forall r, In r sample_db -> File.id r <> js "abc")
  /\ FoldersCreateRoute.POST (env_of U1)
       (post_request (folder_body (js "Trips") U1 (Some (JStr (js "abc")))))
       sample_db
     = (NextResponse.json (Error "Failed to create folder") 500, sample_db).
Proof.
  split; [evaluated|]. split; [evaluated|]. split; [|evaluated].
  intros r Hr.
  repeat (destruct Hr as [<- | Hr]; [vm_compute; discriminate|]).
  destruct Hr.
Qed.

(** What the row of a folder insert holds. *)
Lemma folder_row_facts (env : Env) (u : jsstring) (name p : JsVal) (db : Db)
      (row : File.t) :
  inserted env (FoldersCreateRoute.folderData env u name p) db = Some row ->
  File.size row = JNum 0
  /\ File.fileUrl row = JStr []
  /\ File.type row = JStr (js "folder")
  /\ File.isFolder row = true
  /\ File.isStarred row = false
  /\ File.isTrash row = false
  /\ File.userId row = u
  /\ uuid_column p = Some (File.parentId row)
  /\ text_column env (String_trim name) = Some (File.name row)
  /\ (exists t, File.path row = JStr t)
  /\ File.name row <> JNull.
Proof.
  intros H. apply inserted_some in H as [H _].
  apply stored_some in H
    as (H1 & H2 & H3 & H4 & H5 & _ & H7 & _ & _ & H10 & H11 & H12 & H13 & _).
  cbn [FoldersCreateRoute.folderData NewFile.name NewFile.path NewFile.size
       NewFile.type NewFile.fileUrl NewFile.parentId NewFile.userId
       NewFile.isFolder NewFile.isStarred NewFile.isTrash] in *.
  rewrite integer_column_zero in H3. injection H3 as H3.
  apply notNull_some in H1 as [H1 H1'].
  apply notNull_some in H2 as [H2 _].
  apply text_column_string in H2 as [H2 _].
  vm_compute in H4. injection H4 as H4.
  vm_compute in H5. injection H5 as H5.
  repeat split; auto. eexists. exact H2.
Qed.

(** What the row of an upload insert holds. *)
Lemma upload_row_facts (env : Env) (u : jsstring) (imagekit path : JsVal)
      (db : Db) (row : File.t) :
  inserted env (UploadRoute.fileData u imagekit path) db = Some row ->
  File.isFolder row = false
  /\ File.isStarred row = false
  /\ File.isTrash row = false
  /\ File.userId row = u
  /\ File.parentId row = JNull
  /\ text_column env (get imagekit (js "url")) = Some (File.fileUrl row)
  /\ same_uuid (JStr (File.id row)) (JStr (defaultRandom env))
  /\ File.createdAt row = defaultNow env
  /\ File.updatedAt row = defaultNow env
  /\ File.name row <> JNull /\ File.path row <> JNull
  /\ File.size row <> JNull /\ File.type row <> JNull
  /\ File.fileUrl row <> JNull.
Proof.
  intros H. apply inserted_some in H as [H _].
  apply stored_some in H
    as (H1 & H2 & H3 & H4 & H5 & _ & H7 & H8 & _ & H10 & H11 & H12 & H13
        & H14 & H15).
  cbn [UploadRoute.fileData NewFile.name NewFile.path NewFile.size
       NewFile.type NewFile.fileUrl NewFile.parentId NewFile.userId
       NewFile.isFolder NewFile.isStarred NewFile.isTrash NewFile.id] in *.
  apply notNull_some in H1 as [_ H1], H2 as [_ H2], H3 as [_ H3],
                        H4 as [_ H4], H5 as [H5 H5'].
  cbn [uuid_column] in H7. injection H7 as H7.
  destruct (uuid_in (defaultRandom env)) as [d|] eqn:Ed; [|discriminate H8].
  cbn [option_map] in H8. injection H8 as H8.
  repeat split; auto.
  rewrite <- H8. exact (same_uuid_out _ _ Ed).
Qed.

Lemma present_cell (v : JsVal) (t : jsstring) : v = JStr t -> present v.
Proof. intros ->. split; discriminate. Qed.






(* ------------------------------------------------------------------ *)
(** ** Upload recording, identity and error paths *)

(** C5.  In the session of user [u], an upload-recording request whose body
    [userId] is anything but [u] (the id of another existing user included:
    the table is arbitrary) is answered with 401 and the table is unchanged.
    Folder creation makes the same test on its body, and the listing on its
    [userId] query parameter. *)
Theorem identity_mismatch_unauthorized :
  forall (env : Env) (request : NextRequest.t) (db : Db) (u : jsstring),
    authenticated env u ->
    (forall body,
        parsed request body ->
        get body (js "userId") <> JStr u ->
        UploadRoute.POST env request db
        = (NextResponse.json (Error "Unauthorized") 401, db))
    /\ (forall body,
           parsed request body ->
           get body (js "userId") <> JStr u ->
           FoldersCreateRoute.POST env request db
           = (NextResponse.json (Error "Unauthorized") 401, db))
    /\ (NextRequest.searchParams_get request (js "userId") <> Some u ->
        FilesRoute.GET env request db
        = (NextResponse.json (Error "Unauthorized") 401, db)).
Proof.
  intros env request db u Ha. repeat split.
  - intros body Hb Hne.
    rewrite (upload_POST_parsed env request db u body Ha Hb).
    apply strict_equals_JStr_false in Hne. rewrite Hne. reflexivity.
  - intros body Hb Hne.
    rewrite (folder_POST_parsed env request db u body Ha Hb).
    apply strict_equals_JStr_false in Hne. rewrite Hne. reflexivity.
  - apply GET_identity_mismatch. exact Ha.
Qed.

(** In the session of [U1], with [U2] an owner of rows of the table. *)
Lemma identity_mismatch_unauthorized_witness :
  UploadRoute.POST (env_of U1)
    (post_request (upload_body U2 imagekit_result [])) sample_db
  = (NextResponse.json (Error "Unauthorized") 401, sample_db)
  /\ FoldersCreateRoute.POST (env_of U1)
       (post_request (folder_body (js "Trips") U2 None)) sample_db
     = (NextResponse.json (Error "Unauthorized") 401, sample_db)
  /\ FilesRoute.GET (env_of U1) (list_request U2 None) sample_db
     = (NextResponse.json (Error "Unauthorized") 401, sample_db).
Proof.
  split; [|split].
  - apply (proj1 (identity_mismatch_unauthorized (env_of U1)
                    (post_request (upload_body U2 imagekit_result []))
                    sample_db U1 ltac:(evaluated))
             (upload_body U2 imagekit_result [])); evaluated.
  - apply (proj1 (proj2 (identity_mismatch_unauthorized (env_of U1)
                           (post_request (folder_body (js "Trips") U2 None))
                           sample_db U1 ltac:(evaluated)))
             (folder_body (js "Trips") U2 None)); evaluated.
  - apply (proj2 (proj2 (identity_mismatch_unauthorized (env_of U1)
                           (list_request U2 None) sample_db U1
                           ltac:(evaluated)))); evaluated.
Defined.




(** C7.  Whatever the request, the folder handler either leaves the table
    as it was or appends one row, and that row has [size = 0], the empty
    string as [fileUrl], type ["folder"], [isFolder = true],
    [isStarred = false] and [isTrash = false]; the upload handler either
    leaves the table as it was or appends one row, and that row has
    [isFolder = false], [isStarred = false], [isTrash = false] and a
    [fileUrl] that is not empty. *)
Theorem persisted_rows_are_well_formed :
  forall (env : Env) (request : NextRequest.t) (db : Db),
    (snd (FoldersCreateRoute.POST env request db) = db
     \/ exists row,
         snd (FoldersCreateRoute.POST env request db) = db ++ [row]
         /\ File.size row = JNum 0
         /\ File.fileUrl row = JStr []
         /\ File.type row = JStr (js "folder")
         /\ File.isFolder row = true
         /\ File.isStarred row = false
         /\ File.isTrash row = false)
    /\ (snd (UploadRoute.POST env request db) = db
        \/ exists row,
            snd (UploadRoute.POST env request db) = db ++ [row]
            /\ File.isFolder row = false
            /\ File.isStarred row = false
            /\ File.isTrash row = false
            /\ truthy (File.fileUrl row) = true
            /\ File.fileUrl row <> JStr []).
Proof.
  intros env request db. split.
  - destruct (folder_POST_cases env request db)
      as [(msg & st & -> & _)
         | (u & body & row & _ & _ & _ & _ & _ & Hi & ->)];
      [left; reflexivity|].
    right. exists row. split; [reflexivity|].
    apply folder_row_facts in Hi. tauto.
  - destruct (upload_POST_cases env request db)
      as [(msg & st & -> & _)
         | (u & body & path & row & _ & _ & _ & Hurl & _ & Hi & ->)];
      [left; reflexivity|].
    right. exists row. split; [reflexivity|].
    apply upload_row_facts in Hi as (F1 & F2 & F3 & _ & _ & F6 & _).
    destruct (text_column_truthy env _ _ Hurl F6). auto.
Qed.

(** C8.  An upload-recording request answered with 200 has appended exactly
    the row it answers with, and that row's [parentId] is null, whatever the
    body holds under [parentId]. *)
Theorem upload_parent_is_always_root :
  forall (env : Env) (request : NextRequest.t) (db db' : Db)
         (response : NextResponse.t),
    UploadRoute.POST env request db = (response, db') ->
    NextResponse.status response = 200%N ->
    exists row,
      db' = db ++ [row]
      /\ NextResponse.payload response = FileRow (Some row)
      /\ File.parentId row = JNull.
Proof.
  intros env request db db' response Hpost Hst.
  destruct (upload_POST_cases env request db)
    as [(msg & st & E & Hne)
       | (u & body & path & row & _ & _ & _ & _ & _ & Hi & E)];
    rewrite E in Hpost; injection Hpost as <- <-.
  - contradiction.
  - exists row. apply upload_row_facts in Hi. repeat split; tauto.
Qed.

(** The body asks for the folder [F1] as parent; the file lands at the root. *)
Lemma upload_parent_is_always_root_witness :
  exists row,
    snd (UploadRoute.POST (env_of U1)
           (post_request
              (upload_body U1 imagekit_result [(js "parentId", JStr F1)]))
           sample_db) = sample_db ++ [row]
    /\ File.parentId row = JNull.
Proof.
  destruct (upload_parent_is_always_root (env_of U1)
              (post_request
                 (upload_body U1 imagekit_result [(js "parentId", JStr F1)]))
              sample_db
              (snd (UploadRoute.POST (env_of U1)
                      (post_request
                         (upload_body U1 imagekit_result
                                      [(js "parentId", JStr F1)]))
                      sample_db))
              (fst (UploadRoute.POST (env_of U1)
                      (post_request
                         (upload_body U1 imagekit_result
                                      [(js "parentId", JStr F1)]))
                      sample_db))
              (surjective_pairing _) ltac:(evaluated))
    as (row & Hdb & _ & Hparent).
  exists row. split; [exact Hdb | exact Hparent].
Defined.

(** C10.  A folder-creation or upload-recording request answered with 401,
    400 or 404 leaves the table exactly as it was: the handler makes one
    pass, and on these paths it returns before its only insert. *)
Theorem error_responses_insert_nothing :
  forall (env : Env) (request : NextRequest.t) (db db' : Db)
         (response : NextResponse.t),
    FoldersCreateRoute.POST env request db = (response, db')
    \/ UploadRoute.POST env request db = (response, db') ->
    error_status (NextResponse.status response) ->
    db' = db.
Proof.
  intros env request db db' response [Hpost | Hpost] Hst.
  - destruct (folder_POST_cases env request db)
      as [(msg & st & E & _)
         | (u & body & row & _ & _ & _ & _ & _ & _ & E)];
      rewrite E in Hpost; injection Hpost as <- <-; [reflexivity|].
    destruct Hst as [H | [H | H]]; discriminate H.
  - destruct (upload_POST_cases env request db)
      as [(msg & st & E & _)
         | (u & body & path & row & _ & _ & _ & _ & _ & _ & E)];
      rewrite E in Hpost; injection Hpost as <- <-; [reflexivity|].
    destruct Hst as [H | [H | H]]; discriminate H.
Qed.

Lemma error_responses_insert_nothing_witness :
  snd (FoldersCreateRoute.POST (env_of U1)
         (post_request (folder_body (js "Trips") U1 (Some (JStr F2))))
         sample_db) = sample_db
  /\ snd (UploadRoute.POST (env_of U1)
            (post_request (upload_body U1 (JObj []) [])) sample_db)
     = sample_db.
Proof.
  split.
  - apply (error_responses_insert_nothing (env_of U1)
             (post_request (folder_body (js "Trips") U1 (Some (JStr F2))))
             sample_db _
             (fst (FoldersCreateRoute.POST (env_of U1)
                     (post_request
                        (folder_body (js "Trips") U1 (Some (JStr F2))))
                     sample_db))
             (or_introl (surjective_pairing _))).
    right; right; evaluated.
  - apply (error_responses_insert_nothing (env_of U1)
             (post_request (upload_body U1 (JObj []) [])) sample_db _
             (fst (UploadRoute.POST (env_of U1)
                     (post_request (upload_body U1 (JObj []) [])) sample_db))
             (or_intror (surjective_pairing _))).
    right; left; evaluated.
Defined.

(* ------------------------------------------------------------------ *)
(** ** Further properties of the handlers *)

(** What a 200 of the folder handler tells. *)
Lemma folder_POST_success (env : Env) (request : NextRequest.t) (db db' : Db)
      (response : NextResponse.t) :
  FoldersCreateRoute.POST env request db = (response, db') ->
  NextResponse.status response = 200%N ->
  exists u body row,
    authenticated env u /\ parsed request body
    /\ get body (js "userId") = JStr u
    /\ FoldersCreateRoute.name_rejected (get body (js "name")) = false
    /\ parent_missing u (parentId_of body) db = false
    /\ inserted env (FoldersCreateRoute.folderData env u
                       (get body (js "name")) (parentId_of body)) db
       = Some row
    /\ response
       = NextResponse.json
           (FolderCreated true "Folder created successfully" (Some row)) 200
    /\ db' = db ++ [row].
Proof.
  intros Hpost Hst.
  destruct (folder_POST_cases env request db)
    as [(msg & st & E & Hne)
       | (u & body & row & Ha & Hb & Hid & Hn & Hm & Hi & E)];
    rewrite E in Hpost; injection Hpost as <- <-.
  - contradiction.
  - exists u, body, row. apply strict_equals_JStr in Hid.
    repeat split; auto; apply Ha || apply Hb.
Qed.

(** What a 200 of the upload handler tells. *)
Lemma upload_POST_success (env : Env) (request : NextRequest.t) (db db' : Db)
      (response : NextResponse.t) :
  UploadRoute.POST env request db = (response, db') ->
  NextResponse.status response = 200%N ->
  exists u body path row,
    authenticated env u /\ parsed request body
    /\ get body (js "userId") = JStr u
    /\ truthy (get (get body (js "imagekit")) (js "url")) = true
    /\ upload_path env u (get body (js "imagekit")) = Some path
    /\ inserted env (UploadRoute.fileData u (get body (js "imagekit")) path)
                db = Some row
    /\ response = NextResponse.json (FileRow (Some row)) 200
    /\ db' = db ++ [row].
Proof.
  intros Hpost Hst.
  destruct (upload_POST_cases env request db)
    as [(msg & st & E & Hne)
       | (u & body & path & row & Ha & Hb & Hid & Hurl & Hp & Hi & E)];
    rewrite E in Hpost; injection Hpost as <- <-.
  - contradiction.
  - exists u, body, path, row. apply strict_equals_JStr in Hid.
    repeat split; auto; apply Ha || apply Hb.
Qed.

(** X1.  Without a session (or with an empty session user id) every handler
    answers 401 "Unauthorized" whatever the request holds: the body is not
    even read, the table is untouched and no upload credentials are
    produced. *)
Theorem no_session_is_refused_first :
  forall (env : Env) (request : NextRequest.t) (db : Db)
         (sdk : option ImagekitAuthRoute.AuthenticationParameters),
    no_session env ->
    FilesRoute.GET env request db
    = (NextResponse.json (Error "Unauthorized") 401, db)
    /\ FoldersCreateRoute.POST env request db
       = (NextResponse.json (Error "Unauthorized") 401, db)
    /\ UploadRoute.POST env request db
       = (NextResponse.json (Error "Unauthorized") 401, db)
    /\ ImagekitAuthRoute.GET env sdk
       = ImagekitAuthRoute.mk (ImagekitAuthRoute.Failure "Unauthorized") 401.
Proof.
  intros env request db sdk [H | H];
    unfold FilesRoute.GET, FoldersCreateRoute.POST, UploadRoute.POST,
           ImagekitAuthRoute.GET;
    rewrite H; repeat split.
Qed.

Lemma no_session_is_refused_first_witness :
  FoldersCreateRoute.POST
    (mkEnv None (fun _ => F1) (fun _ => []) F2 0 (fun _ => (48%N, []))
           (fun _ => None))
    (NextRequest.mk [] None) sample_db
  = (NextResponse.json (Error "Unauthorized") 401, sample_db).
Proof.
  apply (no_session_is_refused_first
           (mkEnv None (fun _ => F1) (fun _ => []) F2 0 (fun _ => (48%N, []))
                  (fun _ => None))
           (NextRequest.mk [] None) sample_db None).
  left. reflexivity.
Defined.

(** X2.  In a session, a body that is not JSON, or is the JSON [null]
    (which cannot be destructured), sends both POST handlers to their catch
    branch: 500 with the handler's own message, and the table unchanged. *)
Theorem unreadable_body_is_500 :
  forall (env : Env) (request : NextRequest.t) (db : Db) (u : jsstring),
    authenticated env u ->
    NextRequest.body request = None
    \/ NextRequest.body request = Some JNull ->
    FoldersCreateRoute.POST env request db
    = (NextResponse.json (Error "Failed to create folder") 500, db)
    /\ UploadRoute.POST env request db
       = (NextResponse.json (Error "Failed to save file information") 500, db).
Proof.
  intros env request db u Ha Hb.
  apply authenticated_truthy in Ha as [Ha Ht].
  unfold FoldersCreateRoute.POST, UploadRoute.POST, try_catch, bind,
         NextRequest.json.
  rewrite Ha, Ht. destruct Hb as [-> | ->]; split; reflexivity.
Qed.

Lemma unreadable_body_is_500_witness :
  UploadRoute.POST (env_of U1) (post_request JNull) sample_db
  = (NextResponse.json (Error "Failed to save file information") 500,
     sample_db).
Proof.
  apply (unreadable_body_is_500 (env_of U1) (post_request JNull) sample_db U1).
  - evaluated.
  - right. reflexivity.
Defined.

(** X3.  The listing never writes, and has three outcomes: 200 with the
    selected rows when the session's user is the [userId] parameter and the
    [parentId] parameter is absent, empty or a uuid; 500 when the session's
    user is the [userId] parameter and the [parentId] is something else,
    which makes the select throw; and 401 "Unauthorized" in every other
    case.  It has no 400 and no 404 answer. *)
Theorem listing_is_read_only :
  forall (env : Env) (request : NextRequest.t) (db : Db),
    snd (FilesRoute.GET env request db) = db
    /\ ((exists u, authenticated env u
                   /\ NextRequest.searchParams_get request (js "userId")
                      = Some u
                   /\ listable request
                   /\ fst (FilesRoute.GET env request db)
                      = NextResponse.json
                          (Files (filter (drizzle.holds
                                            (listing_condition u request)) db))
                          200)
        \/ (exists u, authenticated env u
                      /\ NextRequest.searchParams_get request (js "userId")
                         = Some u
                      /\ ~ listable request
                      /\ fst (FilesRoute.GET env request db)
                         = NextResponse.json (Error "Failed to fetch files")
                                             500)
        \/ (~ (exists u, authenticated env u
                         /\ NextRequest.searchParams_get request (js "userId")
                            = Some u)
            /\ fst (FilesRoute.GET env request db)
               = NextResponse.json (Error "Unauthorized") 401)).
Proof.
  intros env request db.
  destruct (GET_cases env request) as [(u & Ha & Hq) | [Hno H]].
  - destruct (GET_listing env request db u Ha Hq) as [Hyes Hnot].
    destruct (listable_dec request) as [Hl | Hl].
    + rewrite (Hyes Hl). split; [reflexivity|].
      left. exists u. auto.
    + rewrite (Hnot Hl). split; [reflexivity|].
      right; left. exists u. auto.
  - rewrite H. split; [reflexivity|].
    right; right. split; [exact Hno | reflexivity].
Qed.

Lemma uuid_in_nonempty (p : jsstring) : uuid_in p <> None -> p <> [].
Proof. intros H ->. apply H. reflexivity. Qed.

(** A folder-creation request that names, in any spelling, the id of a
    folder of the caller that is in the table, with a name the table takes:
    the folder is created inside that folder. *)
Lemma folder_created_ready
      (env : Env) (request : NextRequest.t) (db : Db)
      (u s p : jsstring) (body : JsVal) (parent : File.t) :
  authenticated env u ->
  parsed request body ->
  get body (js "userId") = JStr u ->
  get body (js "name") = JStr s ->
  forallb is_whitespace s = false ->
  plain_text s ->
  get body (js "parentId") = JStr p ->
  In parent db ->
  same_uuid (JStr (File.id parent)) (JStr p) ->
  File.userId parent = u ->
  File.isFolder parent = true ->
  sane env db ->
  exists folder,
    FoldersCreateRoute.POST env request db
    = (NextResponse.json
         (FolderCreated true "Folder created successfully" (Some folder))
         200, db ++ [folder])
    /\ same_uuid (File.parentId folder) (JStr (File.id parent))
    /\ File.userId folder = u
    /\ File.name folder = JStr (trim s)
    /\ File.isFolder folder = true.
Proof.
  intros Ha Hb Hid Hname Hws Hnul Hp Hin Hsame Hu Hf Hsane.
  rewrite (folder_POST_parsed env request db u body Ha Hb), Hid.
  assert (E : strict_equals (JStr u) (JStr u) = true)
    by (apply strict_equals_JStr; reflexivity).
  rewrite E. cbn [negb].
  assert (Hn : FoldersCreateRoute.name_rejected (get body (js "name")) = false)
    by (apply name_rejected_false; exists s; auto).
  rewrite Hn.
  assert (Hpar : parentId_of body = JStr p)
    by (unfold parentId_of; rewrite Hp; reflexivity).
  rewrite Hpar, Hname.
  destruct Hsame as (x & y & d & Ex & Ey & Hx & Hy).
  injection Ex as <-. injection Ey as <-.
  assert (Hv : uuid_in p <> None) by congruence.
  assert (Ht : truthy (JStr p) = true)
    by (apply truthy_JStr, uuid_in_nonempty, Hv).
  assert (Hok : drizzle.parameter_ok files.id (JStr p) = true)
    by (apply (parameter_ok_uuid files.id (JStr p) eq_refl Ht);
        exists p; auto).
  rewrite Hok, Ht. cbn [negb andb].
  assert (Hm : parent_missing u (JStr p) db = false).
  { destruct (parent_missing u (JStr p) db) eqn:Em; [|reflexivity].
    apply parent_missing_true in Em as [_ Em].
    destruct (Em parent Hin). split; [|auto].
    exists (File.id parent), p, d. auto. }
  rewrite Hm.
  destruct (folder_inserted env db u s (JStr p) (JStr (uuid_out d)) Hsane
              (proj1 Ha) (proj1 Hnul))
    as (digits & _ & ->);
    [unfold uuid_column; rewrite Hy; reflexivity|].
  eexists; split; [reflexivity|]. cbn.
  split; [|repeat split].
  exists (uuid_out d), (File.id parent), d.
  repeat split; [exact (uuid_out_in p d Hy) | exact Hx].
Qed.

(** X4.  For a caller [u] whose body names [u] and carries an accepted
    name [s] that is plain text: when the [parentId] of the body is, in any
    spelling, the id of a folder of [u] that is in the table, and the
    surroundings behave, the folder is created inside it: the answer is 200
    with the new row, which is appended to the table, belongs to [u], has
    that folder's id as [parentId] and carries the trimmed name. *)
Theorem folder_created_under_own_folder :
  forall (env : Env) (request : NextRequest.t) (db : Db)
         (u s p : jsstring) (body : JsVal) (parent : File.t),
    authenticated env u ->
    parsed request body ->
    get body (js "userId") = JStr u ->
    get body (js "name") = JStr s ->
    forallb is_whitespace s = false ->
    plain_text s ->
    get body (js "parentId") = JStr p ->
    In parent db ->
    same_uuid (JStr (File.id parent)) (JStr p) ->
    File.userId parent = u ->
    File.isFolder parent = true ->
    sane env db ->
    exists folder,
      FoldersCreateRoute.POST env request db
      = (NextResponse.json
           (FolderCreated true "Folder created successfully" (Some folder))
           200, db ++ [folder])
      /\ same_uuid (File.parentId folder) (JStr (File.id parent))
      /\ File.userId folder = u
      /\ File.name folder = JStr (trim s)
      /\ File.isFolder folder = true.
Proof.
  intros env request db u s p body parent.
  apply folder_created_ready.
Qed.

Lemma sane_sample (u : jsstring) :
  has_nul u = false -> sane (env_of u) sample_db.
Proof.
  intros Hu. split; [intros v H; injection H as <-; exact Hu|].
  split; [intros n; destruct n; vm_compute; reflexivity|].
  split; eexists; (split; [vm_compute; reflexivity|]);
    intros r Hr;
    repeat (destruct Hr as [<- | Hr]; [vm_compute; discriminate|]);
    destruct Hr.
Qed.

(** [U1] names its folder [F1] without the hyphens. *)
Lemma folder_created_under_own_folder_witness :
  exists folder,
    FoldersCreateRoute.POST (env_of U1)
      (post_request
         (folder_body (js " Trips ") U1
            (Some (JStr (js "11111111111141118111111111111111")))))
      sample_db
    = (NextResponse.json
         (FolderCreated true "Folder created successfully" (Some folder))
         200, sample_db ++ [folder])
    /\ File.parentId folder = JStr F1
    /\ File.name folder = JStr (js "Trips").
Proof.
  destruct (folder_created_under_own_folder (env_of U1)
              (post_request
                 (folder_body (js " Trips ") U1
                    (Some (JStr (js "11111111111141118111111111111111")))))
              sample_db U1 (js " Trips ")
              (js "11111111111141118111111111111111")
              (folder_body (js " Trips ") U1
                 (Some (JStr (js "11111111111141118111111111111111"))))
              (folder_row F1 U1 JNull)
              ltac:(evaluated) ltac:(evaluated) ltac:(evaluated)
              ltac:(evaluated) ltac:(evaluated) ltac:(evaluated)
              ltac:(evaluated) (or_introl eq_refl)
              ltac:(eexists _, _, _; repeat split; vm_compute; reflexivity)
              ltac:(evaluated) ltac:(evaluated)
              (sane_sample U1 ltac:(evaluated)))
    as (folder & Hpost & _ & _ & Hname & _).
  exists folder. split; [exact Hpost|]. split; [|rewrite Hname; evaluated].
  vm_compute in Hpost. injection Hpost as <-. reflexivity.
Defined.

(** The one row a POST handler appended on a 200, with its owner. *)
Lemma POST_success_owner
      (env : Env) (request : NextRequest.t) (db db' : Db)
      (response : NextResponse.t) :
  FoldersCreateRoute.POST env request db = (response, db')
  \/ UploadRoute.POST env request db = (response, db') ->
  NextResponse.status response = 200%N ->
  exists row u body,
    db' = db ++ [row] /\ auth env = Some u /\ File.userId row = u
    /\ NextRequest.body request = Some body
    /\ get body (js "userId") = JStr u.
Proof.
  intros [Hpost | Hpost] Hst.
  - destruct (folder_POST_success env request db db' response Hpost Hst)
      as (u & body & row & [Ha _] & [Hb _] & Hid & _ & _ & Hi & _ & ->).
    exists row, u, body. apply folder_row_facts in Hi.
    repeat split; auto; tauto.
  - destruct (upload_POST_success env request db db' response Hpost Hst)
      as (u & body & path & row & [Ha _] & [Hb _] & Hid & _ & _ & Hi & _ & ->).
    exists row, u, body. apply upload_row_facts in Hi.
    repeat split; auto; tauto.
Qed.

(** X5.  A row is only ever written for the session's own user: when either
    POST handler answers 200, the one row it appended has the session's
    user as [userId], and the body named that same user. *)
Theorem rows_are_written_for_the_session_user :
  forall (env : Env) (request : NextRequest.t) (db db' : Db)
         (response : NextResponse.t),
    FoldersCreateRoute.POST env request db = (response, db')
    \/ UploadRoute.POST env request db = (response, db') ->
    NextResponse.status response = 200%N ->
    exists row u body,
      db' = db ++ [row]
      /\ auth env = Some u
      /\ File.userId row = u
      /\ NextRequest.body request = Some body
      /\ get body (js "userId") = JStr u.
Proof.
  intros env request db db' response Hpost Hst.
  exact (POST_success_owner env request db db' response Hpost Hst).
Qed.

Lemma rows_are_written_for_the_session_user_witness :
  exists row,
    snd (UploadRoute.POST (env_of U1)
           (post_request (upload_body U1 imagekit_result [])) sample_db)
    = sample_db ++ [row]
    /\ File.userId row = U1.
Proof.
  destruct (rows_are_written_for_the_session_user (env_of U1)
              (post_request (upload_body U1 imagekit_result [])) sample_db
              (snd (UploadRoute.POST (env_of U1)
                      (post_request (upload_body U1 imagekit_result []))
                      sample_db))
              (fst (UploadRoute.POST (env_of U1)
                      (post_request (upload_body U1 imagekit_result []))
                      sample_db))
              (or_intror (surjective_pairing _)) ltac:(evaluated))
    as (row & u & body & Hdb & Ha & Hu & _).
  exists row. split; [exact Hdb|].
  rewrite Hu. injection Ha as <-. reflexivity.
Defined.

(** X6.  The name of a folder the handler stores is the trimmed name of the
    body: a string that is not empty and has no whitespace at either end,
    and that differs from the body's name by whitespace removed at the two
    ends only. *)
Theorem stored_folder_name_is_trimmed :
  forall (env : Env) (request : NextRequest.t) (db db' : Db)
         (response : NextResponse.t),
    FoldersCreateRoute.POST env request db = (response, db') ->
    NextResponse.status response = 200%N ->
    exists folder body s,
      db' = db ++ [folder]
      /\ NextRequest.body request = Some body
      /\ get body (js "name") = JStr s
      /\ File.name folder = JStr (trim s)
      /\ trim s <> []
      /\ trimmed (trim s)
      /\ exists a b, s = a ++ trim s ++ b
                     /\ forallb is_whitespace a = true
                     /\ forallb is_whitespace b = true.
Proof.
  intros env request db db' response Hpost Hst.
  destruct (folder_POST_success env request db db' response Hpost Hst)
    as (u & body & row & _ & [Hb _] & _ & Hn & _ & Hi & _ & ->).
  apply name_rejected_false in Hn as (s & Hs & Hws).
  apply folder_row_facts in Hi as (_ & _ & _ & _ & _ & _ & _ & _ & Hname & _).
  rewrite Hs in Hname. cbn [String_trim] in Hname.
  apply text_column_string in Hname as [Hname _].
  exists row, body, s.
  split; [reflexivity|]. split; [exact Hb|]. split; [exact Hs|].
  split; [exact Hname|]. split; [|split].
  - intros E. apply trim_nil in E. congruence.
  - apply trim_trimmed.
  - apply trim_decompose.
Qed.

Lemma stored_folder_name_is_trimmed_witness :
  exists folder,
    snd (FoldersCreateRoute.POST (env_of U1)
           (post_request (folder_body (js "  My Trips   ") U1 None))
           sample_db) = sample_db ++ [folder]
    /\ File.name folder = JStr (js "My Trips").
Proof.
  destruct (stored_folder_name_is_trimmed (env_of U1)
              (post_request (folder_body (js "  My Trips   ") U1 None))
              sample_db
              (snd (FoldersCreateRoute.POST (env_of U1)
                      (post_request (folder_body (js "  My Trips   ") U1 None))
                      sample_db))
              (fst (FoldersCreateRoute.POST (env_of U1)
                      (post_request (folder_body (js "  My Trips   ") U1 None))
                      sample_db))
              (surjective_pairing _) ltac:(evaluated))
    as (folder & body & s & Hdb & Hb & Hs & Hname & _).
  exists folder. split; [exact Hdb|]. rewrite Hname.
  injection Hb as <-. vm_compute in Hs. injection Hs as <-. evaluated.
Defined.

Lemma POST_success_row (env : Env) (request : NextRequest.t) (db db' : Db)
      (response : NextResponse.t) (u : jsstring) :
  authenticated env u ->
  FoldersCreateRoute.POST env request db = (response, db')
  \/ UploadRoute.POST env request db = (response, db') ->
  NextResponse.status response = 200%N ->
  exists row, db' = db ++ [row] /\ File.userId row = u.
Proof.
  intros Ha Hpost Hst.
  destruct (POST_success_owner env request db db'
              response Hpost Hst) as (row & v & body & Hdb & Hv & Hu & _).
  exists row. split; [exact Hdb|]. destruct Ha as [Ha _]. congruence.
Qed.

(** The rows of a listing in the session of [u] that names [u]: the
    selection, or none when the select throws. *)
Lemma listed_GET (env : Env) (request : NextRequest.t) (db : Db)
      (u : jsstring) (r : File.t) :
  authenticated env u ->
  NextRequest.searchParams_get request (js "userId") = Some u ->
  In r (listed (FilesRoute.GET env request db))
  <-> In r db /\ File.userId r = u /\ in_listed_folder request r.
Proof.
  intros Ha Hq.
  destruct (GET_listing env request db u Ha Hq) as [Hyes Hnot].
  destruct (listable_dec request) as [Hl | Hl].
  - rewrite (Hyes Hl). unfold listed. cbn.
    rewrite filter_In, holds_listing_condition. tauto.
  - rewrite (Hnot Hl). unfold listed. cbn. split; [intros []|].
    intros (_ & _ & [[H _] | (x & y & d & _ & Ey & _ & Hy)]);
      apply Hl; unfold listable; unfold listed_parent in *;
      destruct (NextRequest.searchParams_get request (js "parentId"))
        as [[|c p]|]; try exact I; try discriminate.
    injection Ey as <-. congruence.
Qed.

(** X7.  Insert, then list.  After either POST handler answered 200 in the
    session of [u], a listing by [u] holds the rows it held before, and
    the new row exactly when the listed folder is the new row's parent
    (the root for an uploaded file); the order of the rows is the
    database's. *)
Theorem created_row_shows_in_its_folder_only :
  forall (env : Env) (request lrequest : NextRequest.t) (db db' : Db)
         (response : NextResponse.t) (u : jsstring),
    authenticated env u ->
    FoldersCreateRoute.POST env request db = (response, db')
    \/ UploadRoute.POST env request db = (response, db') ->
    NextResponse.status response = 200%N ->
    NextRequest.searchParams_get lrequest (js "userId") = Some u ->
    exists row,
      db' = db ++ [row]
      /\ forall r,
          In r (listed (FilesRoute.GET env lrequest db'))
          <-> In r (listed (FilesRoute.GET env lrequest db))
              \/ (r = row /\ in_listed_folder lrequest row).
Proof.
  intros env request lrequest db db' response u Ha Hpost Hst Hq.
  destruct (POST_success_row env request db db' response u Ha Hpost Hst)
    as (row & -> & Hu).
  exists row. split; [reflexivity|]. intros r.
  rewrite !(listed_GET env lrequest _ u r Ha Hq), in_app_iff. cbn [In].
  split.
  - intros ([H | [<- | []]] & Ho & Hf); [left; auto | right; auto].
  - intros [(H & Ho & Hf) | [-> Hf]]; auto.
Qed.

Lemma created_row_shows_in_its_folder_only_witness :
  exists row,
    snd (UploadRoute.POST (env_of U1)
           (post_request (upload_body U1 imagekit_result [])) sample_db)
    = sample_db ++ [row]
    /\ In row (listed (FilesRoute.GET (env_of U1) (list_request U1 None)
                         (sample_db ++ [row]))).
Proof.
  destruct (created_row_shows_in_its_folder_only (env_of U1)
              (post_request (upload_body U1 imagekit_result []))
              (list_request U1 None) sample_db
              (snd (UploadRoute.POST (env_of U1)
                      (post_request (upload_body U1 imagekit_result []))
                      sample_db))
              (fst (UploadRoute.POST (env_of U1)
                      (post_request (upload_body U1 imagekit_result []))
                      sample_db))
              U1 ltac:(evaluated) (or_intror (surjective_pairing _))
              ltac:(evaluated) ltac:(evaluated))
    as (row & Hdb & Hin).
  exists row. split; [exact Hdb|]. rewrite <- Hdb. apply Hin.
  right. split; [reflexivity|]. left. split; [evaluated|].
  apply (f_equal (fun d => File.parentId (last d row))) in Hdb.
  rewrite last_last in Hdb. rewrite <- Hdb. evaluated.
Defined.

(** X8.  What one user writes never shows in another user's listing: for
    users [u] and [v] that differ, a POST in the session of [u] leaves
    every listing answer in the session of [v] as it was. *)
Theorem writes_do_not_cross_owners :
  forall (env env' : Env) (request lrequest : NextRequest.t) (db db' : Db)
         (response : NextResponse.t) (u v : jsstring),
    authenticated env u ->
    authenticated env' v ->
    u <> v ->
    FoldersCreateRoute.POST env request db = (response, db')
    \/ UploadRoute.POST env request db = (response, db') ->
    fst (FilesRoute.GET env' lrequest db')
    = fst (FilesRoute.GET env' lrequest db).
Proof.
  intros env env' request lrequest db db' response u v Ha Hv Hne Hpost.
  destruct (N.eq_dec (NextResponse.status response) 200) as [Hst | Hst].
  - destruct (POST_success_row env request db db' response u Ha Hpost Hst)
      as (row & -> & Hu).
    destruct (GET_cases env' lrequest) as [(w & Hw & Hq) | [_ H]].
    + destruct (GET_listing env' lrequest db w Hw Hq) as [Hyes Hnot].
      destruct (GET_listing env' lrequest (db ++ [row]) w Hw Hq)
        as [Hyes' Hnot'].
      destruct (listable_dec lrequest) as [Hl | Hl].
      * rewrite (Hyes Hl), (Hyes' Hl), filter_app. simpl.
        destruct (drizzle.holds (listing_condition w lrequest) row) eqn:E.
        -- apply holds_listing_condition in E as [E _].
           pose proof (authenticated_unique env' w v Hw Hv). congruence.
        -- rewrite app_nil_r. reflexivity.
      * rewrite (Hnot Hl), (Hnot' Hl). reflexivity.
    + rewrite !H. reflexivity.
  - assert (E : db' = db).
    { destruct Hpost as [Hpost | Hpost].
      - destruct (folder_POST_cases env request db)
          as [(msg & st & E & _)
             | (w & body & row & _ & _ & _ & _ & _ & _ & E)];
          rewrite E in Hpost; injection Hpost as <- <-;
          [reflexivity | contradiction Hst; reflexivity].
      - destruct (upload_POST_cases env request db)
          as [(msg & st & E & _)
             | (w & body & path & row & _ & _ & _ & _ & _ & _ & E)];
          rewrite E in Hpost; injection Hpost as <- <-;
          [reflexivity | contradiction Hst; reflexivity]. }
    rewrite E. reflexivity.
Qed.

(** [U1] creates a folder in the root; the root listing of [U2] stays. *)
Lemma writes_do_not_cross_owners_witness :
  fst (FilesRoute.GET (env_of U2) (list_request U2 None)
         (snd (FoldersCreateRoute.POST (env_of U1)
                 (post_request (folder_body (js "Trips") U1 None))
                 sample_db)))
  = fst (FilesRoute.GET (env_of U2) (list_request U2 None) sample_db).
Proof.
  apply (writes_do_not_cross_owners (env_of U1) (env_of U2)
           (post_request (folder_body (js "Trips") U1 None))
           (list_request U2 None) sample_db _
           (fst (FoldersCreateRoute.POST (env_of U1)
                   (post_request (folder_body (js "Trips") U1 None))
                   sample_db))
           U1 U2 ltac:(evaluated) ltac:(evaluated) ltac:(evaluated)
           (or_introl (surjective_pairing _))).
Defined.






(** X10.  The fallbacks of an upload do not agree with each other: when the
    media host's result has neither [filePath] nor [name] and the record is
    stored, the stored name is "Untitled" but the stored path is built from
    the missing name itself and ends in "undefined". *)
Theorem upload_path_of_a_nameless_file :
  forall (env : Env) (request : NextRequest.t) (db db' : Db)
         (response : NextResponse.t) (body : JsVal),
    UploadRoute.POST env request db = (response, db') ->
    NextResponse.status response = 200%N ->
    NextRequest.body request = Some body ->
    get (get body (js "imagekit")) (js "filePath") = JUndefined ->
    get (get body (js "imagekit")) (js "name") = JUndefined ->
    exists file u,
      db' = db ++ [file]
      /\ NextResponse.payload response = FileRow (Some file)
      /\ auth env = Some u
      /\ File.name file = JStr (js "Untitled")
      /\ File.path file = JStr (js "/droply/" ++ u ++ js "/undefined").
Proof.
  intros env request db db' response body Hpost Hst Hbody Hpath Hname.
  destruct (upload_POST_success env request db db' response Hpost Hst)
    as (u & body' & path & file & [Ha _] & [Hb _] & _ & _ & Hp & Hi & -> & ->).
  assert (body' = body) by congruence. subst body'.
  exists file, u. split; [reflexivity|]. split; [reflexivity|].
  split; [exact Ha|].
  unfold upload_path in Hp. rewrite Hpath, Hname in Hp.
  cbn [truthy template option_map] in Hp. injection Hp as <-.
  apply inserted_some in Hi as [Hi _].
  apply stored_some in Hi as (H1 & H2 & _).
  cbn [UploadRoute.fileData NewFile.name NewFile.path] in H1, H2.
  rewrite Hname in H1. unfold or_else in H1. cbn [truthy] in H1.
  apply notNull_some in H1 as [H1 _], H2 as [H2 _].
  apply text_column_string in H1 as [H1 _], H2 as [H2 _].
  split; [exact H1 | exact H2].
Qed.

Lemma upload_path_of_a_nameless_file_witness :
  exists file,
    snd (UploadRoute.POST (env_of U1)
           (post_request
              (upload_body U1 (JObj [(js "url", JStr (js "https://cdn/y"))])
                 []))
           sample_db) = sample_db ++ [file]
    /\ File.name file = JStr (js "Untitled")
    /\ File.path file = JStr (js "/droply/user_U1/undefined").
Proof.
  destruct (upload_path_of_a_nameless_file (env_of U1)
              (post_request
                 (upload_body U1 (JObj [(js "url", JStr (js "https://cdn/y"))])
                    []))
              sample_db
              (snd (UploadRoute.POST (env_of U1)
                      (post_request
                         (upload_body U1
                            (JObj [(js "url", JStr (js "https://cdn/y"))]) []))
                      sample_db))
              (fst (UploadRoute.POST (env_of U1)
                      (post_request
                         (upload_body U1
                            (JObj [(js "url", JStr (js "https://cdn/y"))]) []))
                      sample_db))
              (upload_body U1 (JObj [(js "url", JStr (js "https://cdn/y"))])
                 [])
              (surjective_pairing _) ltac:(evaluated) ltac:(evaluated)
              ltac:(evaluated) ltac:(evaluated))
    as (file & u & Hdb & _ & Hu & Hname & Hpath).
  exists file. split; [exact Hdb|]. split; [exact Hname|].
  rewrite Hpath. injection Hu as <-. evaluated.
Defined.

Lemma well_parented_app (db : Db) (row : File.t) :
  well_parented db ->
  (File.parentId row = JNull
   \/ exists q, In q db /\ same_uuid (JStr (File.id q)) (File.parentId row)
                /\ File.userId q = File.userId row
                /\ File.isFolder q = true) ->
  well_parented (db ++ [row]).
Proof.
  intros Hdb Hrow r Hr. apply in_app_or in Hr as [Hr | [<- | []]].
  - destruct (Hdb r Hr) as [H | (q & Hq & H)]; [left; exact H|].
    right. exists q. split; [apply in_or_app; left; exact Hq | exact H].
  - destruct Hrow as [H | (q & Hq & H)]; [left; exact H|].
    right. exists q. split; [apply in_or_app; left; exact Hq | exact H].
Qed.

(** X11.  The handlers keep the tree sound.  If every row of the table that
    has a parent names a folder of its own owner that is in the table, the
    same holds after any upload-recording request and after any
    folder-creation request, whatever its outcome: an upload is stored at
    the root, and a folder only under a parent the check has found or at
    the root (a [parentId] that [if (parentId)] skips and that is not null,
    such as the empty string, is refused by the [uuid] column). *)
Theorem handlers_keep_the_tree_sound :
  forall (env : Env) (request : NextRequest.t) (db : Db),
    well_parented db ->
    well_parented (snd (UploadRoute.POST env request db))
    /\ well_parented (snd (FoldersCreateRoute.POST env request db)).
Proof.
  intros env request db Hdb. split.
  - destruct (upload_POST_cases env request db)
      as [(msg & st & -> & _)
         | (u & body & path & row & _ & _ & _ & _ & _ & Hi & ->)];
      [exact Hdb|].
    apply well_parented_app; [exact Hdb | left].
    apply upload_row_facts in Hi. tauto.
  - destruct (folder_POST_cases env request db)
      as [(msg & st & -> & _)
         | (u & body & row & _ & _ & _ & _ & Hm & Hi & ->)];
      [exact Hdb|].
    apply well_parented_app; [exact Hdb|].
    apply folder_row_facts in Hi
      as (_ & _ & _ & _ & _ & _ & Hu & Hp & _).
    apply uuid_column_cell in Hp as [[Hp _] | (s & d & Es & Hs & Hc)];
      [left; exact Hp | right].
    rewrite Es in Hm.
    assert (Ht : truthy (JStr s) = true)
      by (apply truthy_JStr, uuid_in_nonempty; congruence).
    destruct (parent_missing_false u (JStr s) db Hm Ht)
      as (q & Hq & Hsame & Hqu & Hqf).
    exists q. split; [exact Hq|]. split; [|split; [congruence | exact Hqf]].
    rewrite Hc. apply (same_uuid_trans _ (JStr s)); [exact Hsame|].
    apply same_uuid_sym, same_uuid_out. exact Hs.
Qed.

(** [U1] nests a folder in its own folder [F1]. *)
Lemma handlers_keep_the_tree_sound_witness :
  well_parented
    (snd (FoldersCreateRoute.POST (env_of U1)
            (post_request (folder_body (js "Trips") U1 (Some (JStr F1))))
            [folder_row F1 U1 JNull; file_row X1 U1 (JStr F1) true true])).
Proof.
  apply (proj2 (handlers_keep_the_tree_sound (env_of U1)
                  (post_request (folder_body (js "Trips") U1 (Some (JStr F1))))
                  [folder_row F1 U1 JNull; file_row X1 U1 (JStr F1) true true]
                  ltac:(intros r [<- | [<- | []]];
                        [left; reflexivity
                        | right; exists (folder_row F1 U1 JNull);
                          split; [left; reflexivity|];
                          split; [eexists _, _, _; repeat split;
                                  vm_compute; reflexivity
                                 | split; reflexivity]]))).
Defined.

(** X12.  Create, then nest.  Once the folder handler answered 200 with a
    new folder in the session of [u], a further request with an accepted
    name that names the id of that folder as [parentId] is answered 404
    with the table unchanged when it comes from any other user; when it
    comes from [u], with a name that is plain text and surroundings that
    behave (so with a fresh id of its own), it is answered 200 with a child
    of the new folder. *)
Theorem new_folder_takes_children_of_its_owner_only :
  forall (env env2 : Env) (request request2 : NextRequest.t) (db db' : Db)
         (folder : File.t) (u v s : jsstring) (body2 : JsVal),
    authenticated env u ->
    FoldersCreateRoute.POST env request db
    = (NextResponse.json
         (FolderCreated true "Folder created successfully" (Some folder)) 200,
       db') ->
    authenticated env2 v ->
    parsed request2 body2 ->
    get body2 (js "userId") = JStr v ->
    get body2 (js "name") = JStr s ->
    not_blank s ->
    get body2 (js "parentId") = JStr (File.id folder) ->
    (v = u ->
     plain_text s ->
     sane env2 db' ->
     exists child,
       FoldersCreateRoute.POST env2 request2 db'
       = (NextResponse.json
            (FolderCreated true "Folder created successfully" (Some child))
            200, db' ++ [child])
       /\ same_uuid (File.parentId child) (JStr (File.id folder))
       /\ File.userId child = u)
    /\ (v <> u ->
        FoldersCreateRoute.POST env2 request2 db'
        = (NextResponse.json (Error "Parent folder not found") 404, db')).
Proof.
  intros env env2 request request2 db db' folder u v s body2
         Ha Hpost Hv Hb2 Hid2 Hname2 Hs Hp2.
  destruct (folder_POST_success env request db db' _ Hpost eq_refl)
    as (w & body & row & Hw & _ & _ & _ & _ & Hi & Hr & ->).
  injection Hr as <-.
  pose proof (authenticated_unique env w u Hw Ha) as ->.
  pose proof (folder_row_facts _ _ _ _ _ _ Hi)
    as (_ & _ & _ & Hfolder & _ & _ & Howner & _).
  apply inserted_some in Hi as [Hst Hfree].
  apply stored_some in Hst as (_ & _ & _ & _ & _ & _ & _ & Hid & _).
  destruct (uuid_in _) as [d|] eqn:Ed; [|discriminate Hid].
  cbn [option_map] in Hid. injection Hid as Hid.
  assert (Hself : uuid_in (File.id folder) = Some d)
    by (rewrite <- Hid; exact (uuid_out_in _ d Ed)).
  split.
  - intros -> Hnul Hsane.
    assert (Hsame : same_uuid (JStr (File.id folder)) (JStr (File.id folder)))
      by (exists (File.id folder), (File.id folder), d; auto).
    assert (Hin : In folder (db ++ [folder]))
      by (apply in_or_app; right; left; reflexivity).
    destruct (folder_created_ready env2 request2 (db ++ [folder]) u s
                (File.id folder) body2 folder Hv Hb2 Hid2 Hname2 Hs Hnul Hp2
                Hin Hsame Howner Hfolder Hsane)
      as (child & E & Hc & Hu & _).
    exists child. auto.
  - intros Hvu.
    rewrite (folder_POST_parsed env2 request2 _ v body2 Hv Hb2), Hid2.
    assert (E : strict_equals (JStr v) (JStr v) = true)
      by (apply strict_equals_JStr; reflexivity).
    rewrite E. cbn [negb].
    assert (Hn : FoldersCreateRoute.name_rejected (get body2 (js "name"))
                 = false)
      by (apply name_rejected_false; exists s; auto).
    rewrite Hn.
    assert (Hpar : parentId_of body2 = JStr (File.id folder))
      by (unfold parentId_of; rewrite Hp2; reflexivity).
    rewrite Hpar.
    assert (Ht : truthy (JStr (File.id folder)) = true)
      by (apply truthy_JStr, uuid_in_nonempty; congruence).
    assert (Hok : drizzle.parameter_ok files.id (JStr (File.id folder)) = true)
      by (apply (parameter_ok_uuid files.id _ eq_refl Ht);
          exists (File.id folder); split; [reflexivity | congruence]).
    rewrite Hok, Ht. cbn [negb andb].
    assert (Hm : parent_missing v (JStr (File.id folder)) (db ++ [folder])
                 = true).
    { apply parent_missing_true. split; [exact Ht|].
      intros q Hq (Hsame & Hqu & _).
      apply in_app_or in Hq as [Hq | [<- | []]].
      - exact (proj1 (id_free_true _ db) Hfree q Hq Hsame).
      - congruence. }
    rewrite Hm. reflexivity.
Qed.

(** [U1] creates "Trips"; then [U2] tries to nest "Mine" inside it. *)
Lemma new_folder_takes_children_of_its_owner_only_witness :
  FoldersCreateRoute.POST (env_of U2)
    (post_request
       (folder_body (js "Mine") U2
          (Some (JStr (js "0b0e7a54-0000-4000-8000-00000000000a")))))
    (snd (FoldersCreateRoute.POST (env_of U1)
            (post_request (folder_body (js "Trips") U1 None)) sample_db))
  = (NextResponse.json (Error "Parent folder not found") 404,
     snd (FoldersCreateRoute.POST (env_of U1)
            (post_request (folder_body (js "Trips") U1 None)) sample_db)).
Proof.
  destruct (inserted (env_of U1)
              (FoldersCreateRoute.folderData (env_of U1) U1
                 (JStr (js "Trips")) JNull) sample_db) as [folder|] eqn:Ef;
    [|vm_compute in Ef; discriminate Ef].
  refine (proj2 (new_folder_takes_children_of_its_owner_only
                   (env_of U1) (env_of U2)
                   (post_request (folder_body (js "Trips") U1 None))
                   (post_request
                      (folder_body (js "Mine") U2
                         (Some (JStr (js "0b0e7a54-0000-4000-8000-00000000000a")))))
                   sample_db _ folder U1 U2 (js "Mine")
                   (folder_body (js "Mine") U2
                      (Some (JStr (js "0b0e7a54-0000-4000-8000-00000000000a"))))
                   _ _ _ _ _ _ _ _) _);
    try evaluated.
  - vm_compute in Ef. injection Ef as <-. vm_compute. reflexivity.
  - vm_compute in Ef. injection Ef as <-. vm_compute. reflexivity.
Defined.

(* ------------------------------------------------------------------ *)
(** ** The sign-up schema *)

(** ** The sign-up schema *)

Lemma no_issue_string_checks
      (checks : list ((jsstring -> bool) * string)) (v : JsVal) :
  signUpSchema.no_issue (signUpSchema.string_checks checks v) = true
  <-> exists s, v = JStr s /\ forallb (fun c => fst c s) checks = true.
Proof.
  destruct v as [| |b|n|s|l|o|z]; simpl;
    try (split; [discriminate | intros (s & H & _); discriminate H]).
  split.
  - intros H. exists s. split; [reflexivity|].
    induction checks as [|c checks IH]; [reflexivity|].
    simpl in *. destruct (fst c s); [apply IH; exact H | discriminate H].
  - intros (t & Ht & H). injection Ht as <-.
    induction checks as [|c checks IH]; [reflexivity|].
    simpl in *. destruct (fst c s); [apply IH; exact H | discriminate H].
Qed.

(** X13.  The schema accepts exactly the objects whose [email] is a
    non-empty string matching the e-mail pattern, whose [password] is a
    string of at least 8 code units and whose [passwordConfirmation] is that
    same string.  The "is required" checks on the two password fields never
    decide: the length check and the equality already imply them. *)
Theorem signUpSchema_accepts_exactly :
  forall (is_email : jsstring -> bool) (data : JsVal),
    signUpSchema.accepts is_email data = true
    <-> exists e p,
        get data (js "email") = JStr e
        /\ e <> [] /\ is_email e = true
        /\ get data (js "password") = JStr p
        /\ 8 <= List.length p
        /\ get data (js "passwordConfirmation") = JStr p.
Proof.
  intros is_email data. split.
  - destruct data as [| |b|n|s|l|o|z]; try discriminate.
    unfold signUpSchema.accepts. rewrite !andb_true_iff.
    intros [[[He Hp] Hc] Hr].
    apply no_issue_string_checks in He as (e & He & Ce).
    apply no_issue_string_checks in Hp as (p & Hp & Cp).
    apply no_issue_string_checks in Hc as (c & Hc & Cc).
    unfold signUpSchema.refine in Hr. rewrite Hp, Hc in Hr.
    apply strict_equals_JStr in Hr. injection Hr as <-.
    simpl in Ce, Cp. rewrite !andb_true_iff in Ce, Cp.
    destruct Ce as (Ce1 & Ce2 & _). destruct Cp as (_ & Cp2 & _).
    exists e, p. repeat split; auto.
    + intros ->. discriminate Ce1.
    + apply Nat.leb_le. exact Cp2.
  - intros (e & p & He & Hne & Hmail & Hp & Hlen & Hc).
    destruct data as [| |b|n|s|l|o|z]; try discriminate He.
    unfold signUpSchema.accepts, signUpSchema.refine.
    rewrite He, Hp, Hc.
    assert (L8 : signUpSchema.min 8 p = true) by (apply Nat.leb_le; exact Hlen).
    assert (L1 : signUpSchema.min 1 p = true) by (apply Nat.leb_le; lia).
    assert (E1 : signUpSchema.min 1 e = true)
      by (destruct e; [contradiction Hne; reflexivity | reflexivity]).
    cbn [signUpSchema.email signUpSchema.password
         signUpSchema.passwordConfirmation signUpSchema.string_checks
         signUpSchema.check flat_map fst snd].
    rewrite L8, L1, E1, Hmail. cbn [app signUpSchema.no_issue andb].
    apply strict_equals_JStr. reflexivity.
Qed.

(* ------------------------------------------------------------------ *)
(** ** The upload form *)

(** ** The upload form *)

Lemma handleFileChange_within_limit
      (files : option (list FileUploadForm.SelectedFile))
      (st : FileUploadForm.State) :
  within_limit st -> within_limit (FileUploadForm.handleFileChange files st).
Proof.
  intros H. unfold FileUploadForm.handleFileChange.
  destruct files as [[|f rest]|]; try exact H.
  destruct (5 * 1024 * 1024 <? FileUploadForm.size f)%N eqn:E.
  - exact H.
  - intros g Hg. injection Hg as <-. apply N.ltb_ge. exact E.
Qed.

(** X14.  The form never holds a file above the 5MB limit: starting from
    the initial state, whatever sequence of picks, drops and clears the user
    makes, the selected file (if any) has at most 5 * 1024 * 1024 bytes. *)
Theorem selected_file_is_within_limit :
  forall (actions : list FileUploadForm.Action),
    within_limit
      (fold_left FileUploadForm.step actions FileUploadForm.initial).
Proof.
  intros actions.
  assert (H : within_limit FileUploadForm.initial)
    by (intros f Hf; discriminate Hf).
  revert H. generalize FileUploadForm.initial.
  induction actions as [|a actions IH]; intros st H; [exact H|].
  simpl. apply IH. destruct a as [files | files |]; simpl.
  - apply handleFileChange_within_limit. exact H.
  - apply (handleFileChange_within_limit files st H).
  - intros f Hf. discriminate Hf.
Qed.

(** What the form posts, read by the handler. *)
Lemma form_request_read (props : FileUploadForm.Props)
      (st : FileUploadForm.State) :
  parsed (NextRequest.mk [] (Some (FileUploadForm.folder_request props st)))
         (FileUploadForm.folder_request props st)
  /\ get (FileUploadForm.folder_request props st) (js "userId")
     = JStr (FileUploadForm.userId props)
  /\ get (FileUploadForm.folder_request props st) (js "name")
     = JStr (trim (FileUploadForm.folderName st))
  /\ parentId_of (FileUploadForm.folder_request props st)
     = nullable (FileUploadForm.currentFolder props).
Proof.
  split; [split; [reflexivity | split; discriminate]|].
  split; [reflexivity|]. split; [reflexivity|].
  unfold parentId_of, FileUploadForm.folder_request.
  destruct (FileUploadForm.currentFolder props); reflexivity.
Qed.

(** X15.  The form and the folder handler agree on names.  With the session
    of the form's own user and an answering network: a blank folder name
    sends no request at all; any other name, posted from the root
    ([currentFolder] null), is never refused by the handler's validation.
    When the name is plain text and the surroundings behave, one folder
    with the trimmed name is appended at the root, the form is reset (name
    emptied, modal closed) and the refresh callback runs when there is one;
    when the name holds U+0000 the database refuses it, the table stays as
    it was and the form shows the failure and keeps the name. *)
Theorem form_creates_root_folder :
  forall (env : Env) (props : FileUploadForm.Props)
         (st : FileUploadForm.State) (db : Db),
    authenticated env (FileUploadForm.userId props) ->
    FileUploadForm.currentFolder props = None ->
    (forallb is_whitespace (FileUploadForm.folderName st) = true ->
     FileUploadForm.table
       (FileUploadForm.handleCreateFolder
          env FileUploadForm.Answered props st db) = db
     /\ FileUploadForm.state
          (FileUploadForm.handleCreateFolder
             env FileUploadForm.Answered props st db) = st
     /\ FileUploadForm.refreshed
          (FileUploadForm.handleCreateFolder
             env FileUploadForm.Answered props st db) = false)
    /\ (not_blank (FileUploadForm.folderName st) ->
        plain_text (FileUploadForm.folderName st) ->
        sane env db ->
        exists folder,
          FileUploadForm.table
            (FileUploadForm.handleCreateFolder
               env FileUploadForm.Answered props st db)
          = db ++ [folder]
          /\ File.name folder = JStr (trim (FileUploadForm.folderName st))
          /\ File.parentId folder = JNull
          /\ File.userId folder = FileUploadForm.userId props
          /\ FileUploadForm.state
               (FileUploadForm.handleCreateFolder
                  env FileUploadForm.Answered props st db)
             = FileUploadForm.setCreatingFolder false
                 (FileUploadForm.setFolderModalOpen false
                    (FileUploadForm.setFolderName []
                       (FileUploadForm.setCreatingFolder true st)))
          /\ FileUploadForm.refreshed
               (FileUploadForm.handleCreateFolder
                  env FileUploadForm.Answered props st db)
             = FileUploadForm.onUploadSuccess props)
    /\ (not_blank (FileUploadForm.folderName st) ->
        has_nul (FileUploadForm.folderName st) = true ->
        FileUploadForm.table
          (FileUploadForm.handleCreateFolder
             env FileUploadForm.Answered props st db) = db
        /\ FileUploadForm.state
             (FileUploadForm.handleCreateFolder
                env FileUploadForm.Answered props st db)
           = FileUploadForm.setCreatingFolder false
               (FileUploadForm.setCreatingFolder true st)
        /\ FileUploadForm.toasts
             (FileUploadForm.handleCreateFolder
                env FileUploadForm.Answered props st db)
           = [FileUploadForm.mkToast "Folder Creation Failed"
                (js "We couldn't create the folder. Please try again.")
                "danger"]
        /\ FileUploadForm.refreshed
             (FileUploadForm.handleCreateFolder
                env FileUploadForm.Answered props st db) = false).
Proof.
  intros env props st db Ha Hroot. split.
  - intros Hblank. apply trim_nil in Hblank.
    unfold FileUploadForm.handleCreateFolder. rewrite Hblank.
    repeat split.
  - assert (Hready :
              not_blank (FileUploadForm.folderName st) ->
              FileUploadForm.handleCreateFolder
                env FileUploadForm.Answered props st db
              = match inserted env
                        (FoldersCreateRoute.folderData env
                           (FileUploadForm.userId props)
                           (JStr (trim (FileUploadForm.folderName st))) JNull)
                        db with
                | Some row =>
                    FileUploadForm.mkEffect
                      (FileUploadForm.setCreatingFolder false
                         (FileUploadForm.setFolderModalOpen false
                            (FileUploadForm.setFolderName []
                               (FileUploadForm.setCreatingFolder true st))))
                      (db ++ [row])
                      [FileUploadForm.mkToast "Folder Created"
                         (js "Folder " ++ [34%N]
                             ++ FileUploadForm.folderName st ++ [34%N]
                             ++ js " has been created successfully.")
                         "success"]
                      (FileUploadForm.onUploadSuccess props)
                | None =>
                    FileUploadForm.mkEffect
                      (FileUploadForm.setCreatingFolder false
                         (FileUploadForm.setCreatingFolder true st))
                      db
                      [FileUploadForm.mkToast "Folder Creation Failed"
                         (js "We couldn't create the folder. Please try again.")
                         "danger"]
                      false
                end).
    { intros Hname.
      assert (Ht : truthy (JStr (trim (FileUploadForm.folderName st))) = true).
      { apply truthy_JStr. intros E. apply trim_nil in E.
        unfold not_blank in Hname. congruence. }
      unfold FileUploadForm.handleCreateFolder,
             FileUploadForm.axios_post_folders_create.
      rewrite Ht. cbn [negb].
      destruct (form_request_read props st) as (Hb & Hid & Hn & Hp).
      rewrite (folder_POST_parsed env _ db (FileUploadForm.userId props)
                 (FileUploadForm.folder_request props st) Ha Hb).
      rewrite Hid, Hn, Hp, Hroot. cbn [nullable].
      assert (E : strict_equals (JStr (FileUploadForm.userId props))
                                (JStr (FileUploadForm.userId props)) = true)
        by (apply strict_equals_JStr; reflexivity).
      rewrite E. cbn [negb].
      assert (Hr : FoldersCreateRoute.name_rejected
                     (JStr (trim (FileUploadForm.folderName st))) = false).
      { apply name_rejected_false. eexists. split; [reflexivity|].
        apply not_blank_trim. exact Hname. }
      rewrite Hr. unfold parent_missing. cbn [truthy andb].
      destruct (inserted _ _ _); reflexivity. }
    split.
    + intros Hname Hnul Hsane. rewrite (Hready Hname).
      destruct (folder_inserted env db (FileUploadForm.userId props)
                  (trim (FileUploadForm.folderName st)) JNull JNull Hsane
                  (proj1 Ha)) as (digits & _ & ->);
        [rewrite has_nul_trim; exact (proj1 Hnul) | reflexivity |].
      eexists. split; [reflexivity|]. cbn.
      rewrite trim_idempotent. repeat split.
    + intros Hname Hnul. rewrite (Hready Hname).
      rewrite inserted_refused; [repeat split|].
      left. cbn [NewFile.name FoldersCreateRoute.folderData String_trim].
      unfold text_column. rewrite !has_nul_trim, Hnul. reflexivity.
Qed.

Lemma form_creates_root_folder_witness :
  exists folder,
    FileUploadForm.table
      (FileUploadForm.handleCreateFolder (env_of U1) FileUploadForm.Answered
         (FileUploadForm.mkProps U1 true None)
         (FileUploadForm.setFolderName (js " Trips ") FileUploadForm.initial)
         sample_db)
    = sample_db ++ [folder]
    /\ File.name folder = JStr (js "Trips").
Proof.
  destruct (proj1 (proj2 (form_creates_root_folder (env_of U1)
                     (FileUploadForm.mkProps U1 true None)
                     (FileUploadForm.setFolderName (js " Trips ")
                        FileUploadForm.initial)
                     sample_db ltac:(evaluated) eq_refl))
              ltac:(evaluated) ltac:(evaluated)
              (sane_sample U1 ltac:(evaluated)))
    as (folder & Htable & Hname & _).
  exists folder. split; [exact Htable|]. rewrite Hname. evaluated.
Defined.

(** The answers of the folder handler, with their status. *)
Lemma folder_POST_outcomes (env : Env) (request : NextRequest.t) (db : Db) :
  (exists msg st,
      FoldersCreateRoute.POST env request db
      = (NextResponse.json (Error msg) st, db)
      /\ (st = 401 \/ st = 400 \/ st = 404 \/ st = 500)%N)
  \/ (exists u body row,
         authenticated env u /\ parsed request body
         /\ get body (js "userId") = JStr u
         /\ File.userId row = u
         /\ FoldersCreateRoute.POST env request db
            = (NextResponse.json
                 (FolderCreated true "Folder created successfully" (Some row))
                 200, db ++ [row])).
Proof.
  destruct (entry_cases env request) as [(u & body & Ha & Hb) | H].
  - rewrite (folder_POST_parsed env request db u body Ha Hb).
    destruct (strict_equals (get body (js "userId")) (JStr u)) eqn:Hid;
      cbn [negb]; [|left; do 2 eexists; split; [reflexivity | auto]].
    destruct (FoldersCreateRoute.name_rejected _);
      [left; do 2 eexists; split; [reflexivity | auto]|].
    destruct (truthy (parentId_of body) && _);
      [left; do 2 eexists; split; [reflexivity | auto 6]|].
    destruct (parent_missing _ _ _);
      [left; do 2 eexists; split; [reflexivity | auto 6]|].
    destruct (inserted _ _ _) as [row|] eqn:Hi;
      [|left; do 2 eexists; split; [reflexivity | auto 6]].
    right. exists u, body, row. apply strict_equals_JStr in Hid.
    apply folder_row_facts in Hi.
    split; [exact Ha|]. split; [exact Hb|]. split; [exact Hid|].
    split; [tauto | reflexivity].
  - left. destruct (folder_POST_entry env request db H) as (msg & st & E & Hs).
    exists msg, st. split; [exact E|]. destruct Hs as [-> | ->]; auto 6.
Qed.

(** X16.  Whatever the session, the network and the table, a run of
    [handleCreateFolder] ends in one of three ways.  With a blank name it
    changes nothing.  On a fulfilled request the answer came back, exactly
    one folder of the form's user was appended, the name is emptied, the
    modal closed and the refresh callback has run if there is one.  On a
    rejected request the typed name and the modal stay for another try and
    no refresh runs; the table is as it was, unless the request reached the
    server and its answer was lost, in which case one folder of the form's
    user may have been appended all the same.  In the last two the
    "creating" flag is off again. *)
Theorem form_folder_outcomes :
  forall (env : Env) (network : FileUploadForm.Network)
         (props : FileUploadForm.Props)
         (st : FileUploadForm.State) (db : Db),
    (forallb is_whitespace (FileUploadForm.folderName st) = true
     /\ FileUploadForm.state
          (FileUploadForm.handleCreateFolder env network props st db) = st
     /\ FileUploadForm.table
          (FileUploadForm.handleCreateFolder env network props st db) = db
     /\ FileUploadForm.refreshed
          (FileUploadForm.handleCreateFolder env network props st db) = false)
    \/ (not_blank (FileUploadForm.folderName st)
        /\ FileUploadForm.creatingFolder
             (FileUploadForm.state
                (FileUploadForm.handleCreateFolder env network props st db))
           = false
        /\ ((exists folder,
                network = FileUploadForm.Answered
                /\ FileUploadForm.table
                     (FileUploadForm.handleCreateFolder
                        env network props st db)
                   = db ++ [folder]
                /\ File.userId folder = FileUploadForm.userId props
                /\ FileUploadForm.folderName
                     (FileUploadForm.state
                        (FileUploadForm.handleCreateFolder
                           env network props st db)) = []
                /\ FileUploadForm.folderModalOpen
                     (FileUploadForm.state
                        (FileUploadForm.handleCreateFolder
                           env network props st db)) = false
                /\ FileUploadForm.refreshed
                     (FileUploadForm.handleCreateFolder
                        env network props st db)
                   = FileUploadForm.onUploadSuccess props)
            \/ ((FileUploadForm.table
                   (FileUploadForm.handleCreateFolder
                      env network props st db) = db
                 \/ (network = FileUploadForm.AnswerLost
                     /\ exists folder,
                         FileUploadForm.table
                           (FileUploadForm.handleCreateFolder
                              env network props st db)
                         = db ++ [folder]
                         /\ File.userId folder = FileUploadForm.userId props))
                /\ FileUploadForm.folderName
                     (FileUploadForm.state
                        (FileUploadForm.handleCreateFolder
                           env network props st db))
                   = FileUploadForm.folderName st
                /\ FileUploadForm.folderModalOpen
                     (FileUploadForm.state
                        (FileUploadForm.handleCreateFolder
                           env network props st db))
                   = FileUploadForm.folderModalOpen st
                /\ FileUploadForm.refreshed
                     (FileUploadForm.handleCreateFolder
                        env network props st db)
                   = false))).
Proof.
  intros env network props st db.
  destruct (blank_or_not (FileUploadForm.folderName st)) as [Hblank | Hname].
  - left. split; [exact Hblank|]. apply trim_nil in Hblank.
    unfold FileUploadForm.handleCreateFolder. rewrite Hblank. repeat split.
  - right. split; [exact Hname|].
    assert (Ht : truthy (JStr (trim (FileUploadForm.folderName st))) = true).
    { apply truthy_JStr. intros E. apply trim_nil in E.
      unfold not_blank in Hname. congruence. }
    unfold FileUploadForm.handleCreateFolder,
           FileUploadForm.axios_post_folders_create.
    rewrite Ht. cbn [negb].
    destruct network.
    + split; [reflexivity | right; repeat split]. left. reflexivity.
    + destruct (folder_POST_outcomes env
                  (NextRequest.mk []
                     (Some (FileUploadForm.folder_request props st))) db)
        as [(msg & code & -> & Hcode)
           | (u & body & row & _ & [Hb _] & Hid & Hu & ->)].
      * cbn [fst snd NextResponse.status NextResponse.json].
        destruct Hcode as [-> | [-> | [-> | ->]]];
          (split; [reflexivity | right; repeat split; left; reflexivity]).
      * cbn [fst snd NextResponse.status NextResponse.json].
        cbn [N.leb N.ltb N.compare Pos.compare Pos.compare_cont andb].
        split; [reflexivity|]. left. exists row.
        cbn in Hb. injection Hb as <-.
        change (get (FileUploadForm.folder_request props st) (js "userId"))
          with (JStr (FileUploadForm.userId props)) in Hid.
        injection Hid as <-. repeat split. exact Hu.
    + destruct (folder_POST_outcomes env
                  (NextRequest.mk []
                     (Some (FileUploadForm.folder_request props st))) db)
        as [(msg & code & -> & Hcode)
           | (u & body & row & _ & [Hb _] & Hid & Hu & ->)].
      * split; [reflexivity | right; repeat split]. left. reflexivity.
      * split; [reflexivity | right; repeat split].
        right. split; [reflexivity|]. exists row.
        cbn in Hb. injection Hb as <-.
        change (get (FileUploadForm.folder_request props st) (js "userId"))
          with (JStr (FileUploadForm.userId props)) in Hid.
        injection Hid as <-. split; [reflexivity | exact Hu].
Qed.
